(** * Financial-inclusion analysis core: [src/analysis.py]

    A shallow embedding of the two classes of [src/analysis.py],
    [FinancialInclusionAnalyzer] and [DataValidator], together with the part
    of pandas they call, and the properties of their documented behaviour.

    Conventions of the embedding.
    - A pandas [DataFrame] is a list of column names and a list of rows.  Every
      column has the dtype the loader ([src/data_loader.py]) gives it: the
      text columns hold a string or a missing value ([None]), [value_numeric]
      and the derived growth columns are binary64 floats (missing is NaN),
      [year] is an integer or missing, the date columns are timestamps or
      missing (NaT).
    - Frames owned by a caller live in a heap and are passed by reference, so
      that in-place updates ([growth['growth_rate'] = ...]) and aliasing are
      visible.  Frames derived inside a method (boolean indexing,
      [sort_values], column selection) are fresh objects.
    - Python exceptions are the [Raise] outcome of the monad [M].
    - Messages built with f-strings are kept structured: the interpolated
      sets and lists are carried as data, log lines by their template. *)

From Stdlib Require Import ZArith Floats Ascii String List Lia.
From stdpp Require Import base gmap sets list strings.

Set Warnings "-inexact-float,-clear-no-such-hyp".

Open Scope string_scope.
Open Scope list_scope.
Open Scope Z_scope.

(** ** Floats *)

Module Float.

(** An integer as a float, as Python's [int / int] converts its operands
    (exact for magnitudes below 2^53, the only ones that occur here). *)
Definition of_Z (z : Z) : float :=
  match z with
  | Z0 => 0%float
  | Zpos _ => PrimFloat.of_uint63 (Uint63.of_Z z)
  | Zneg p => (- PrimFloat.of_uint63 (Uint63.of_Z (Zpos p)))%float
  end.

(** [pd.notna] / [pd.isna] on a float cell. *)
Definition notna (x : float) : bool := negb (PrimFloat.is_nan x).
Definition isna (x : float) : bool := PrimFloat.is_nan x.

(** Nearest integer to [n / d] for [0 < d], ties to the even one. *)
Definition round_half_even (n d : Z) : Z :=
  let q := n / d in
  match Z.compare (2 * (n mod d)) d with
  | Lt => q
  | Gt => q + 1
  | Eq => if Z.even q then q else q + 1
  end.

(** Python's [round(x, 1)]: the exact value of [x] is rounded to one
    decimal (ties to even) and the float nearest to that decimal is
    returned; zeros, infinities, NaN and integers are returned unchanged.
    (The float nearest to [n/10] is the correctly rounded quotient of the
    floats [n] and [10], for [n] below 2^53.) *)
Definition round1 (x : float) : float :=
  match Prim2SF x with
  | S754_finite s m e =>
      if 0 <=? e then x
      else
        let q := (of_Z (round_half_even (Zpos m * 10) (2 ^ (- e))) / 10)%float in
        if s then (- q)%float else q
  | _ => x
  end.

End Float.

(** ** Timestamps *)

(** A [pd.Timestamp] without time zone: a civil date and the time of day in
    nanoseconds. *)
Record Timestamp := mkTimestamp {
  ts_year : Z;
  ts_month : Z;
  ts_day : Z;
  ts_nanos : Z
}.

Module Time.

Definition ns_per_day : Z := 86400 * 1000000000.

Definition is_leap (y : Z) : bool :=
  (y mod 4 =? 0) && (negb (y mod 100 =? 0) || (y mod 400 =? 0)).

Definition days_in_month (y m : Z) : Z :=
  if m =? 2 then (if is_leap y then 29 else 28)
  else if (m =? 4) || (m =? 6) || (m =? 9) || (m =? 11) then 30
  else 31.

Definition days_before_year (y : Z) : Z :=
  let p := y - 1 in p * 365 + p / 4 - p / 100 + p / 400.

Definition days_before_month (y m : Z) : Z :=
  nth (Z.to_nat m) [0; 0; 31; 59; 90; 120; 151; 181; 212; 243; 273; 304; 334] 0
  + (if (2 <? m) && is_leap y then 1 else 0).

(** Proleptic Gregorian ordinal of the date (1 for 0001-01-01). *)
Definition toordinal (t : Timestamp) : Z :=
  days_before_year (ts_year t) + days_before_month (ts_year t) (ts_month t)
  + ts_day t.

(** The instant as a number of nanoseconds; timestamps compare by it. *)
Definition instant (t : Timestamp) : Z :=
  toordinal t * ns_per_day + ts_nanos t.

Definition leb (a b : Timestamp) : bool := instant a <=? instant b.

(** The instants a timestamp of nanosecond resolution can hold: a signed
    64-bit count of nanoseconds since 1970-01-01, whose least value stands
    for NaT.  [pd.Timestamp.min] is 1677-09-21 00:12:43.145224193 and
    [pd.Timestamp.max] is 2262-04-11 23:47:16.854775807. *)
Definition epoch : Z := 719163 * ns_per_day.
Definition min_instant : Z := epoch - (2 ^ 63 - 1).
Definition max_instant : Z := epoch + (2 ^ 63 - 1).

Definition representable (t : Timestamp) : bool :=
  (min_instant <=? instant t) && (instant t <=? max_instant).

(** [t - pd.DateOffset(months=k)]: the month moves back by [k], the day is
    clipped to the length of the new month, the time of day is kept.  The
    subtraction raises when the date it arrives at is not representable
    (a [ValueError] of [datetime] for a year outside 1..9999, pandas'
    [OutOfBoundsDatetime], a [ValueError] too, otherwise): [None]. *)
Definition sub_months (t : Timestamp) (k : Z) : option Timestamp :=
  let idx := ts_year t * 12 + (ts_month t - 1) - k in
  let y := idx / 12 in
  let m := idx mod 12 + 1 in
  let r := mkTimestamp y m (Z.min (ts_day t) (days_in_month y m)) (ts_nanos t) in
  if representable r then Some r else None.

(** [(a - b).days]: whole days of the difference, rounded down. *)
Definition days_between (a b : Timestamp) : Z :=
  (instant a - instant b) / ns_per_day.

Definition date (y m d : Z) : Timestamp := mkTimestamp y m d 0.

End Time.

(** ** Rows and frames *)

(** One row of a frame, with the columns the analysis code reads or writes.
    A field of a column the frame does not have is never read. *)
Record Row := mkRow {
  record_id : option string;
  record_type : option string;
  pillar : option string;
  indicator : option string;
  indicator_code : option string;
  value_type : option string;
  confidence : option string;
  category : option string;
  value_text : option string;
  value_numeric : float;
  year : option Z;
  observation_date : option Timestamp;
  event_date : option Timestamp;
  growth_rate : float;
  growth_pp : float
}.

Record DataFrame := mkFrame {
  columns : list string;
  rows : list Row
}.

(** [pd.DataFrame()]: no columns, no rows. *)
Definition pd_DataFrame : DataFrame := mkFrame [] [].

#[global] Instance DataFrame_inhabited : Inhabited DataFrame := populate pd_DataFrame.

Definition set_growth_rate (v : float) (r : Row) : Row :=
  mkRow (record_id r) (record_type r) (pillar r) (indicator r) (indicator_code r)
        (value_type r) (confidence r) (category r) (value_text r) (value_numeric r)
        (year r) (observation_date r) (event_date r) v (growth_pp r).

Definition set_growth_pp (v : float) (r : Row) : Row :=
  mkRow (record_id r) (record_type r) (pillar r) (indicator r) (indicator_code r)
        (value_type r) (confidence r) (category r) (value_text r) (value_numeric r)
        (year r) (observation_date r) (event_date r) (growth_rate r) v.

Module pd.

(** [len(df)] *)
Definition len (df : DataFrame) : Z := Z.of_nat (length (rows df)).

(** [c in df.columns] *)
Definition has_column (c : string) (df : DataFrame) : bool :=
  bool_decide (c ∈ columns df).

(** [df[mask]]: the rows whose mask entry is true, in order. *)
Definition take_mask (df : DataFrame) (mask : list bool) : DataFrame :=
  mkFrame (columns df) (fst <$> List.filter snd (zip (rows df) mask)).

(** [series == value] on a text column. *)
Definition eq_str (value : string) (cell : option string) : bool :=
  bool_decide (cell = Some value).

(** [series.isna()], [series.notna()] on a text or date column. *)
Definition isna {A} (cell : option A) : bool :=
  match cell with None => true | Some _ => false end.
Definition notna {A} (cell : option A) : bool := negb (isna cell).

(** [series.dropna()] *)
Definition dropna {A} (s : list (option A)) : list A := omap id s.

(** [set(values)] of text values. *)
Definition set_of (l : list string) : gset string := list_to_set l.

(** Insertion into a list sorted by key, before the first entry whose key
    is not smaller. *)
Fixpoint insert_sorted {K} (leb : K -> K -> bool) (x : K * Row)
    (l : list (K * Row)) : list (K * Row) :=
  match l with
  | [] => [x]
  | y :: l' => if leb (fst x) (fst y) then x :: l
               else y :: insert_sorted leb x l'
  end.

(** The rows with their key, without the rows whose key is missing. *)
Definition keyed {K} (key : Row -> option K) (l : list Row) : list (K * Row) :=
  omap (fun r => (fun k => (k, r)) <$> key r) l.

(** [df.sort_values(c)] on the rows: ascending, missing keys last.  pandas
    sorts with its default algorithm, which leaves the order of rows with
    equal keys open; the model keeps them in their original order. *)
Definition sort_rows {K} (leb : K -> K -> bool) (key : Row -> option K)
    (l : list Row) : list Row :=
  (snd <$> foldr (insert_sorted leb) [] (keyed key l))
  ++ List.filter (fun r => isna (key r)) l.

(** [series.unique()]: the distinct values in order of first appearance. *)
Definition unique {A} `{EqDecision A} (s : list A) : list A :=
  foldl (fun seen x => if bool_decide (x ∈ seen) then seen else seen ++ [x]) [] s.

(** [series.nunique()]: the number of distinct values that are not missing. *)
Definition nunique {A} `{EqDecision A} (s : list (option A)) : Z :=
  Z.of_nat (length (unique (dropna s))).

(** [series.min()], [series.max()] on the year column: missing values are
    skipped, the result is missing when nothing is left. *)
Definition min (s : list (option Z)) : option Z :=
  match dropna s with
  | [] => None
  | y :: ys => Some (foldr Z.min y ys)
  end.
Definition max (s : list (option Z)) : option Z :=
  match dropna s with
  | [] => None
  | y :: ys => Some (foldr Z.max y ys)
  end.

(** [s.str.contains(sub, na=False)] on one cell, for a pattern without
    regular-expression operators. *)
Fixpoint contains (sub s : string) : bool :=
  String.prefix sub s
  || match s with
     | EmptyString => false
     | String _ s' => contains sub s'
     end.
Definition str_contains (sub : string) (cell : option string) : bool :=
  match cell with
  | Some s => contains sub s
  | None => false
  end.

(** [series.value_counts()]: the values that are not missing with their
    number of occurrences, the most frequent first.  pandas leaves the
    order of equally frequent values open; the model keeps them in order
    of first appearance. *)
Definition value_counts (s : list (option string)) : list (string * Z) :=
  let counted :=
    (fun v => (v, Z.of_nat (length (List.filter (eq_str v) s))))
      <$> unique (dropna s) in
  foldr (fun x sorted =>
           List.filter (fun y => snd x <? snd y) sorted
           ++ x :: List.filter (fun y => snd y <=? snd x) sorted)
        [] counted.

(** [series.shift(1)] on a float column. *)
Definition shift (s : list float) : list float := take (length s) (nan :: s).

(** [series.diff()]: [v[t] - v[t-1]], missing for the first row. *)
Definition diff (s : list float) : list float :=
  zip_with PrimFloat.sub s (shift s).

(** [series.pct_change()]: [v[t] / v[t-1] - 1], missing for the first row.
    (pandas before 3.0 first fills missing values forward; the series this
    development reasons about have none.) *)
Definition pct_change (s : list float) : list float :=
  zip_with (fun v p => (v / p - 1)%float) s (shift s).

(** [df[c] = values] on the rows, for a derived float column. *)
Definition assign (set : float -> Row -> Row) (values : list float)
    (l : list Row) : list Row :=
  zip_with (fun r v => set v r) l values.

(** [df[c] = values]: the column is added when the frame lacks it. *)
Definition with_column (c : string) (set : float -> Row -> Row)
    (values : list float) (df : DataFrame) : DataFrame :=
  mkFrame (if has_column c df then columns df else columns df ++ [c])
          (assign set values (rows df)).

End pd.

(** ** Exceptions, the heap and the monad *)

Inductive exn :=
| KeyError (key : string)
| IndexError
| ZeroDivisionError
| ValueError
| AnalysisError (message : string).

Inductive outcome (A : Type) :=
| Return (a : A)
| Raise (e : exn).
Arguments Return {A} a.
Arguments Raise {A} e.

(** An error reported by a validator: the f-string with its arguments. *)
Inductive message :=
| Missing_required_columns (missing_cols : gset string)
| DataFrame_is_empty
| Invalid_record_types (invalid_types : gset string)
| Invalid_pillars (invalid_pillars : gset string)
| Invalid_value_types (invalid_vtypes : gset string)
| Invalid_confidence_levels (invalid_conf : gset string)
| Unexpected_indicator_codes (pillar : string) (invalid_indicators : gset string)
| Pillar_invalid_value_types (pillar : string) (invalid_vtypes : gset string)
    (expected : list string)
| Observations_missing_pillar (n : Z) (ids : list (option string))
| Observations_missing_value (n : Z) (ids : list (option string))
| Events_missing_category (n : Z) (ids : list (option string))
| Events_with_pillar (n : Z) (ids : list (option string))
| Targets_missing_pillar (n : Z) (ids : list (option string)).

(** A line of the console or of the log. *)
Inductive event :=
| print (line : string)
| print_error (error : message)
| logger_info (line : string)
| logger_warning (line : string).

(** An entry of [DataValidator.validation_log]. *)
Record log_entry := mkEntry {
  check : string;
  passed : bool;
  errors : list message
}.

Definition loc := nat.

Record Heap := mkHeap {
  frames : list DataFrame;          (* the frame objects, by reference *)
  validation_log : list log_entry;  (* of the validator the methods run on *)
  trace : list event                (* console and log output, oldest first *)
}.

Definition M (A : Type) : Type := Heap -> outcome A * Heap.

Definition ret {A} (a : A) : M A := fun h => (Return a, h).

Definition bind {A B} (m : M A) (k : A -> M B) : M B :=
  fun h => match m h with
           | (Return a, h') => k a h'
           | (Raise e, h') => (Raise e, h')
           end.

Definition raise {A} (e : exn) : M A := fun h => (Raise e, h).

(** [try: m except Exception as e: handler e] *)
Definition try_except {A} (m : M A) (handler : exn -> M A) : M A :=
  fun h => match m h with
           | (Return a, h') => (Return a, h')
           | (Raise e, h') => handler e h'
           end.

Notation "'let*' x := m 'in' k" := (bind m (fun x => k))
  (at level 10, x name, m at level 100, k at level 200).

Definition emit (e : event) : M unit :=
  fun h => (Return tt, mkHeap (frames h) (validation_log h) (trace h ++ [e])).

(** Dereference of a frame object. *)
Definition load (l : loc) : M DataFrame :=
  fun h => (Return (frames h !!! l), h).

(** A new frame object. *)
Definition alloc (df : DataFrame) : M loc :=
  fun h => (Return (length (frames h)),
            mkHeap (frames h ++ [df]) (validation_log h) (trace h)).

(** In-place update of a frame object. *)
Definition modify (l : loc) (f : DataFrame -> DataFrame) : M unit :=
  fun h => (Return tt,
            mkHeap (alter f l (frames h)) (validation_log h) (trace h)).

(** [self.validation_log.append(entry)] *)
Definition log_append (e : log_entry) : M unit :=
  fun h => (Return tt, mkHeap (frames h) (validation_log h ++ [e]) (trace h)).

(** [self.validation_log] *)
Definition get_validation_log : M (list log_entry) :=
  fun h => (Return (validation_log h), h).

(** [df[c]]: the column as a series, [KeyError] when the frame lacks it. *)
Definition getitem {A} (df : DataFrame) (c : string) (field : Row -> A)
    : M (list A) :=
  if pd.has_column c df then ret (field <$> rows df) else raise (KeyError c).

(** [df[cols]]: the frame restricted to the listed columns, [KeyError] on the
    first one the frame lacks. *)
Definition getitems (df : DataFrame) (cols : list string) : M DataFrame :=
  match List.filter (fun c => negb (pd.has_column c df)) cols with
  | [] => ret (mkFrame cols (rows df))
  | c :: _ => raise (KeyError c)
  end.

(** A [for] loop with the variables it updates as accumulator. *)
Fixpoint for_each {A S} (l : list A) (body : S -> A -> M S) (s : S) : M S :=
  match l with
  | [] => ret s
  | x :: l' => let* s' := body s x in for_each l' body s'
  end.

(** [df.sort_values(c)] *)
Definition sort_values {K} (df : DataFrame) (c : string)
    (leb : K -> K -> bool) (key : Row -> option K) : M DataFrame :=
  if pd.has_column c df then ret (mkFrame (columns df) (pd.sort_rows leb key (rows df)))
  else raise (KeyError c).

(** [df.iloc[i]] *)
Definition iloc (df : DataFrame) (i : nat) : M Row :=
  match rows df !! i with
  | Some r => ret r
  | None => raise IndexError
  end.

(** [row[c]] for a row of [df] *)
Definition cell {A} (df : DataFrame) (row : Row) (c : string) (field : Row -> A)
    : M A :=
  if pd.has_column c df then ret (field row) else raise (KeyError c).

(** [row.get(c, default)] for a row of [df] *)
Definition cell_get {A} (df : DataFrame) (row : Row) (c : string)
    (field : Row -> A) (default : A) : A :=
  if pd.has_column c df then field row else default.

(** [range(a, b)] *)
Definition range (a b : nat) : list nat := seq a (b - a).

(** ** [class FinancialInclusionAnalyzer] *)

Module FinancialInclusionAnalyzer.

Record t := mkAnalyzer {
  observations : loc;
  events : option loc
}.

(** A trend change point, as [identify_trend_changes] reports it. *)
Record change := mkChange {
  change_year : option Z;
  type : string;
  previous_growth : float;
  current_growth : float
}.

(** A row of the frame [find_event_correlations] returns. *)
Record correlation := mkCorrelation {
  event : option string;
  corr_event_date : Timestamp;
  corr_observation_date : Timestamp;
  lag_months : float;
  value : float
}.

Definition required_cols : list string := ["indicator_code"; "year"; "value_numeric"].

(** [__init__] *)
Definition init (observations : option loc) (events : option loc) : M t :=
  match observations with
  | None => raise (AnalysisError "Observations dataframe cannot be empty")
  | Some o =>
      let* df := load o in
      if pd.len df =? 0 then
        raise (AnalysisError "Observations dataframe cannot be empty")
      else
        let missing_cols := pd.set_of required_cols ∖ pd.set_of (columns df) in
        if bool_decide (missing_cols ≠ ∅) then
          raise (AnalysisError "Missing required columns: {missing_cols}")
        else
          let* _ := emit (logger_info "Initialized analyzer with {len(observations)} observations") in
          ret (mkAnalyzer o events)
  end.

Definition calculate_growth_rate (self : t) (code : string) : M DataFrame :=
  if String.eqb code "" then
    let* _ := emit (logger_warning "Empty indicator_code provided") in
    ret pd_DataFrame
  else
    try_except
      (let* obs := load (observations self) in
       let* codes := getitem obs "indicator_code" indicator_code in
       let* data := sort_values (pd.take_mask obs (pd.eq_str code <$> codes))
                      "year" Z.leb year in
       if pd.len data <? 2 then
         let* _ := emit (logger_warning "Insufficient data for {indicator_code} (need >= 2 points)") in
         ret pd_DataFrame
       else
         let* growth := alloc data in
         let* g := load growth in
         let* v := getitem g "value_numeric" value_numeric in
         let* _ := modify growth
                     (pd.with_column "growth_rate" set_growth_rate
                        ((fun x => (x * 100)%float) <$> pd.pct_change v)) in
         let* g := load growth in
         let* v := getitem g "value_numeric" value_numeric in
         let* _ := modify growth
                     (pd.with_column "growth_pp" set_growth_pp (pd.diff v)) in
         let* g := load growth in
         getitems g ["year"; "value_numeric"; "growth_rate"; "growth_pp"])
      (fun e =>
         match e with
         | KeyError _ => raise (AnalysisError "Missing column in data: {e}")
         | _ => raise (AnalysisError "Error calculating growth rate for {indicator_code}: {e}")
         end).

(** [growth.empty] *)
Definition empty (df : DataFrame) : bool :=
  (pd.len df =? 0) || (Z.of_nat (length (columns df)) =? 0).

(** The body of the loop of [identify_trend_changes] over the positions
    [1 .. len(growth) - 1]. *)
Definition trend_step (growth : DataFrame) (threshold : float)
    (changes : list change) (i : nat) : M (list change) :=
  let* current := iloc growth i in
  let* previous := iloc growth (i - 1) in
  let* cur_pp := cell growth current "growth_pp" growth_pp in
  if Float.notna cur_pp && (abs cur_pp <? threshold)%float then
    let* prev_pp := cell growth previous "growth_pp" growth_pp in
    if Float.notna prev_pp && (threshold <=? abs prev_pp)%float then
      let* y := cell growth current "year" year in
      ret (changes ++ [mkChange y "slowdown" prev_pp cur_pp])
    else ret changes
  else ret changes.

Definition identify_trend_changes (self : t) (code : string) (threshold : float)
    : M (list change) :=
  try_except
    (let* growth := calculate_growth_rate self code in
     if empty growth then
       let* _ := emit (logger_warning "No growth data for {indicator_code}") in
       ret []
     else
       let* changes :=
         for_each (range 1 (length (rows growth))) (trend_step growth threshold) [] in
       let* _ := emit (logger_info "Found {len(changes)} trend changes for {indicator_code}") in
       ret changes)
    (fun e => raise (AnalysisError "Error identifying trend changes for {indicator_code}: {e}")).

(** The mask [(events['event_date'] >= start) & (events['event_date'] <= end)];
    a comparison with a missing date is false. *)
Definition in_window (window_start window_end : Timestamp)
    (d : option Timestamp) : bool :=
  match d with
  | Some e => Time.leb window_start e && Time.leb e window_end
  | None => false
  end.

Definition find_event_correlations (self : t) (code : string) (lag : Z)
    : M (list correlation) :=
  let no_events :=
    let* _ := emit (logger_warning "No events data available for correlation analysis") in
    ret [] in
  match events self with
  | None => no_events
  | Some ev =>
  let* events := load ev in
  if pd.len events =? 0 then no_events
  else
    try_except
      (let* obs := load (observations self) in
       if negb (pd.has_column "observation_date" obs) then
         let* _ := emit (logger_warning "'observation_date' not found, cannot find correlations") in
         ret []
       else if negb (pd.has_column "event_date" events) then
         let* _ := emit (logger_warning "'event_date' not found in events, cannot find correlations") in
         ret []
       else
         let* codes := getitem obs "indicator_code" indicator_code in
         let* indicator_data :=
           sort_values (pd.take_mask obs (pd.eq_str code <$> codes))
             "observation_date" Time.leb observation_date in
         if pd.len indicator_data =? 0 then
           let* _ := emit (logger_warning "No observations found for {indicator_code}") in
           ret []
         else
           let* correlations :=
             for_each (rows indicator_data)
               (fun correlations obs =>
                  match observation_date obs with
                  | None => ret correlations
                  | Some obs_date =>
                      try_except
                        (let* event_window_start :=
                           match Time.sub_months obs_date lag with
                           | Some t => ret t
                           | None => raise ValueError
                           end in
                         let event_window_end := obs_date in
                         let* dates := getitem events "event_date" event_date in
                         let relevant_events :=
                           pd.take_mask events
                             (in_window event_window_start event_window_end <$> dates) in
                         for_each (rows relevant_events)
                           (fun correlations event =>
                              match event_date event with
                              | None => ret correlations
                              | Some ev_date =>
                                  let lag :=
                                    (Float.of_Z (Time.days_between obs_date ev_date) / 30)%float in
                                  let* v := cell indicator_data obs "value_numeric" value_numeric in
                                  ret (correlations ++
                                       [mkCorrelation
                                          (cell_get events event "indicator" indicator (Some "Unknown"))
                                          ev_date obs_date (Float.round1 lag) v])
                              end)
                           correlations)
                        (fun e =>
                           let* _ := emit (logger_warning "Error processing observation date {obs.get('observation_date')}: {e}") in
                           ret correlations)
                  end)
               [] in
           let* _ := emit (logger_info "Found {len(correlations)} potential correlations for {indicator_code}") in
           ret correlations)
      (fun e => raise (AnalysisError "Error finding event correlations for {indicator_code}: {e}"))
  end.

Definition analyze_gender_gap (self : t) : M DataFrame :=
  try_except
    (let* obs := load (observations self) in
     if negb (pd.has_column "pillar" obs) then
       let* _ := emit (logger_warning "'pillar' column not found in observations") in
       ret pd_DataFrame
     else
       let* pillars := getitem obs "pillar" pillar in
       let* gender_data :=
         sort_values (pd.take_mask obs (pd.eq_str "GENDER" <$> pillars))
           "year" Z.leb year in
       if pd.len gender_data =? 0 then
         let* _ := emit (logger_warning "No gender data found") in
         ret pd_DataFrame
       else
         let* codes := getitem gender_data "indicator_code" indicator_code in
         let gap_data := pd.take_mask gender_data (pd.str_contains "GAP" <$> codes) in
         if pd.len gap_data =? 0 then
           let* _ := emit (logger_warning "No gap indicators found in gender data") in
           ret pd_DataFrame
         else
           let required_cols := ["year"; "indicator_code"; "value_numeric"; "indicator"] in
           let available_cols :=
             List.filter (fun col => pd.has_column col gap_data) required_cols in
           getitems gap_data available_cols)
    (fun e => raise (AnalysisError "Error analyzing gender gap: {e}")).

(** A row of the frame [compare_pillars] returns. *)
Record pillar_summary := mkSummary {
  summary_pillar : string;
  summary_observations : Z;
  summary_indicators : Z;
  years_coverage : Z;
  first_year : option Z;
  last_year : option Z
}.

Definition compare_pillars (self : t) : M (list pillar_summary) :=
  try_except
    (let* obs := load (observations self) in
     if negb (pd.has_column "pillar" obs) then
       raise (AnalysisError "'pillar' column not found in observations")
     else
       let* pillars := getitem obs "pillar" pillar in
       let* summary :=
         for_each (pd.unique pillars)
           (fun summary p =>
              match p with
              | None => ret summary
              | Some name =>
                  let* pillars := getitem obs "pillar" pillar in
                  let pillar_obs := pd.take_mask obs (pd.eq_str name <$> pillars) in
                  if 0 <? pd.len pillar_obs then
                    let* years := getitem pillar_obs "year" year in
                    let first_year := pd.min years in
                    let last_year := pd.max years in
                    let* codes := getitem pillar_obs "indicator_code" indicator_code in
                    let* years := getitem pillar_obs "year" year in
                    ret (summary ++
                         [mkSummary name (pd.len pillar_obs) (pd.nunique codes)
                            (pd.nunique years) first_year last_year])
                  else ret summary
              end)
           [] in
       if Z.of_nat (length summary) =? 0 then
         let* _ := emit (logger_warning "No pillar data found for comparison") in
         ret []
       else ret summary)
    (fun e => raise (AnalysisError "Error comparing pillars: {e}")).

(** A line of [get_key_insights], with the values its f-string formats. *)
Inductive insight :=
| Dataset_spans (years : option Z) (first last : option Z)
| Recent_observations (recent_pct : float)
| Top_pillar (top_pillar : string) (count : Z)
| High_confidence (high_conf_pct : float)
| Events_documented (n : Z) (event_categories : Z).

(** [a / b * 100] on two Python integers. *)
Definition percentage (a b : Z) : M float :=
  if b =? 0 then raise ZeroDivisionError
  else ret (Float.of_Z a / Float.of_Z b * 100)%float.

Definition get_key_insights (self : t) : M (list insight) :=
  let* obs := load (observations self) in
  let insights := [] in
  let* years := getitem obs "year" year in
  let last := pd.max years in
  let* years := getitem obs "year" year in
  let first := pd.min years in
  let year_range := l ← last; f ← first; Some (l - f) in
  let insights := insights ++ [Dataset_spans ((fun r => r + 1) <$> year_range) first last] in
  let* years := getitem obs "year" year in
  let recent_data :=
    pd.take_mask obs
      ((fun y => match y with Some y => 2024 <=? y | None => false end) <$> years) in
  let* recent_pct := percentage (pd.len recent_data) (pd.len obs) in
  let insights := insights ++ [Recent_observations recent_pct] in
  let* pillars := getitem obs "pillar" pillar in
  let pillar_counts := pd.value_counts pillars in
  match pillar_counts with
  | [] => raise IndexError
  | (top_pillar, count) :: _ =>
      let insights := insights ++ [Top_pillar top_pillar count] in
      let* conf := getitem obs "confidence" confidence in
      let high_conf := Z.of_nat (length (List.filter (pd.eq_str "high") conf)) in
      let high_conf_pct :=
        (Float.of_Z high_conf / Float.of_Z (pd.len obs) * 100)%float in
      let insights := insights ++ [High_confidence high_conf_pct] in
      match events self with
      | None => ret insights
      | Some ev =>
          let* events := load ev in
          if 0 <? pd.len events then
            let* categories := getitem events "category" category in
            ret (insights ++ [Events_documented (pd.len events) (pd.nunique categories)])
          else ret insights
      end
  end.

End FinancialInclusionAnalyzer.

(** ** [class DataValidator] *)

Module DataValidator.

Record t := mkValidator { verbose : bool }.

Definition REQUIRED_COLUMNS : list string :=
  ["record_id"; "record_type"; "pillar"; "indicator"; "indicator_code";
   "value_type"; "observation_date"; "source_name"; "confidence"].

Definition VALID_RECORD_TYPES : list string := ["observation"; "event"; "target"].
Definition VALID_PILLARS : list string :=
  ["ACCESS"; "USAGE"; "QUALITY"; "AFFORDABILITY"; "GENDER"].
Definition VALID_VALUE_TYPES : list string :=
  ["percentage"; "absolute"; "categorical"; "ratio"; "currency"].
Definition VALID_CONFIDENCE_LEVELS : list string := ["high"; "medium"; "low"].

Record rules := mkRules {
  valid_indicators : list string;
  required_value_type : list string;
  description : string
}.

(** The dictionary, in the order [items()] yields it. *)
Definition PILLAR_RULES : list (string * rules) :=
  [("ACCESS",
    mkRules ["ACC_OWNERSHIP"; "MOBILE_MONEY_ACC"; "BANK_BRANCH_DENSITY"]
            ["percentage"; "ratio"]
            "Account ownership and access to financial services");
   ("USAGE",
    mkRules ["USG_P2P_COUNT"; "USG_ATM_COUNT"; "USG_TELEBIRR_VALUE"; "USG_MPESA_USERS"]
            ["absolute"; "currency"; "percentage"]
            "Usage patterns and transaction volumes");
   ("GENDER",
    mkRules ["GENDER_GAP"; "FEMALE_ACC_RATE"; "MALE_ACC_RATE"]
            ["percentage"]
            "Gender-disaggregated metrics");
   ("AFFORDABILITY",
    mkRules ["ACC_COST"; "TRANSACTION_FEE"]
            ["currency"; "percentage"]
            "Cost and affordability metrics")].

(** [s.split('_')[0]]: the text before the first underscore. *)
Fixpoint split0 (s : string) : string :=
  match s with
  | EmptyString => EmptyString
  | String c s' => if Ascii.eqb c "_"%char then EmptyString else String c (split0 s')
  end.

(** [s.startswith(p)] *)
Definition startswith (s p : string) : bool := String.prefix p s.

(** [if errors: ... ] on a set, and [errors.append(e)] under it. *)
Definition nonempty (s : gset string) : bool := bool_decide (s ≠ ∅).

Definition append_if (b : bool) (errors : list message) (e : message)
    : list message :=
  if b then errors ++ [e] else errors.

(** The report of a check: the console lines under [if self.verbose] and
    the entry appended to [self.validation_log]. *)
Definition report (self : t) (name ok failed : string) (is_valid : bool)
    (errors : list message) : M unit :=
  let* _ :=
    if verbose self then
      if is_valid then emit (print ok)
      else
        let* _ := emit (print failed) in
        for_each errors (fun _ error => emit (print_error error)) tt
    else ret tt in
  log_append (mkEntry name is_valid errors).

Definition is_empty {A} (l : list A) : bool :=
  match l with [] => true | _ => false end.

Definition validate_schema (self : t) (df : loc) : M (bool * list message) :=
  let* df := load df in
  let errors := [] in
  let missing_cols := pd.set_of REQUIRED_COLUMNS ∖ pd.set_of (columns df) in
  let errors := append_if (nonempty missing_cols) errors
                  (Missing_required_columns missing_cols) in
  if pd.len df =? 0 then
    ret (false, errors ++ [DataFrame_is_empty])
  else
    let* types := getitem df "record_type" record_type in
    let invalid_types := pd.set_of (pd.dropna types) ∖ pd.set_of VALID_RECORD_TYPES in
    let errors := append_if (nonempty invalid_types) errors
                    (Invalid_record_types invalid_types) in
    let* types := getitem df "record_type" record_type in
    let obs_df := pd.take_mask df (pd.eq_str "observation" <$> types) in
    let* errors :=
      if 0 <? pd.len obs_df then
        let* pillars := getitem obs_df "pillar" pillar in
        let invalid_pillars := pd.set_of (pd.dropna pillars) ∖ pd.set_of VALID_PILLARS in
        ret (append_if (nonempty invalid_pillars) errors
               (Invalid_pillars invalid_pillars))
      else ret errors in
    let* vtypes := getitem df "value_type" value_type in
    let invalid_vtypes := pd.set_of (pd.dropna vtypes) ∖ pd.set_of VALID_VALUE_TYPES in
    let errors := append_if (nonempty invalid_vtypes) errors
                    (Invalid_value_types invalid_vtypes) in
    let* conf := getitem df "confidence" confidence in
    let invalid_conf := pd.set_of (pd.dropna conf) ∖ pd.set_of VALID_CONFIDENCE_LEVELS in
    let errors := append_if (nonempty invalid_conf) errors
                    (Invalid_confidence_levels invalid_conf) in
    let is_valid := is_empty errors in
    let* _ := report self "schema" "✓ Schema validation passed"
                "✗ Schema validation failed:" is_valid errors in
    ret (is_valid, errors).

(** The codes [validate_pillar_rules] collects in [invalid_indicators] for
    the rows of one pillar. *)
Definition unexpected_codes (r : rules) (pillar_obs : DataFrame) : list string :=
  flat_map
    (fun row =>
       match cell_get pillar_obs row "indicator_code" indicator_code (Some "") with
       | Some code =>
           let is_valid_pattern :=
             existsb (fun valid_ind => startswith code (split0 valid_ind))
                     (valid_indicators r) in
           if negb is_valid_pattern then [code] else []
       | None => []
       end)
    (rows pillar_obs).

(** The body of the loop of [validate_pillar_rules] over the items of
    [PILLAR_RULES]; [continue] is the early [ret]. *)
Definition check_pillar (obs_df : DataFrame) (errors : list message)
    (item : string * rules) : M (list message) :=
  let '(name, r) := item in
  let* pillars := getitem obs_df "pillar" pillar in
  let pillar_obs := pd.take_mask obs_df (pd.eq_str name <$> pillars) in
  if pd.len pillar_obs =? 0 then ret errors
  else
    let invalid_indicators := unexpected_codes r pillar_obs in
    let errors := append_if (negb (is_empty invalid_indicators)) errors
                    (Unexpected_indicator_codes name
                       (pd.set_of invalid_indicators)) in
    let* vtypes := getitem pillar_obs "value_type" value_type in
    let invalid_vtypes :=
      pd.set_of (pd.dropna vtypes) ∖ pd.set_of (required_value_type r) in
    ret (append_if (nonempty invalid_vtypes
                    && negb (is_empty (required_value_type r)))
           errors
           (Pillar_invalid_value_types name invalid_vtypes
              (required_value_type r))).

Definition validate_pillar_rules (self : t) (df : loc) : M (bool * list message) :=
  let* df := load df in
  let errors := [] in
  let* types := getitem df "record_type" record_type in
  let obs_df := pd.take_mask df (pd.eq_str "observation" <$> types) in
  let* errors := for_each PILLAR_RULES (check_pillar obs_df) errors in
  let is_valid := is_empty errors in
  let* _ := report self "pillar_rules" "✓ Pillar rules validation passed"
              "✗ Pillar rules validation failed:" is_valid errors in
  ret (is_valid, errors).

(** [if len(bad) > 0: errors.append(make(len(bad), bad['record_id'].tolist()))] *)
Definition report_ids (bad : DataFrame)
    (make : Z -> list (option string) -> message) (errors : list message)
    : M (list message) :=
  if 0 <? pd.len bad then
    let* ids := getitem bad "record_id" record_id in
    ret (errors ++ [make (pd.len bad) ids])
  else ret errors.

Definition validate_record_types (self : t) (df : loc) : M (bool * list message) :=
  let* df := load df in
  let errors := [] in
  let* types := getitem df "record_type" record_type in
  let obs_df := pd.take_mask df (pd.eq_str "observation" <$> types) in
  let* pillars := getitem obs_df "pillar" pillar in
  let obs_no_pillar := pd.take_mask obs_df (pd.isna <$> pillars) in
  let* errors := report_ids obs_no_pillar Observations_missing_pillar errors in
  let* numeric := getitem obs_df "value_numeric" value_numeric in
  let* text := getitem obs_df "value_text" value_text in
  let obs_no_value :=
    pd.take_mask obs_df (zip_with andb (Float.isna <$> numeric) (pd.isna <$> text)) in
  let* errors := report_ids obs_no_value Observations_missing_value errors in
  let* types := getitem df "record_type" record_type in
  let events_df := pd.take_mask df (pd.eq_str "event" <$> types) in
  let* errors :=
    if 0 <? pd.len events_df then
      let* categories := getitem events_df "category" category in
      let events_no_cat := pd.take_mask events_df (pd.isna <$> categories) in
      let* errors := report_ids events_no_cat Events_missing_category errors in
      let* pillars := getitem events_df "pillar" pillar in
      let events_with_pillar := pd.take_mask events_df (pd.notna <$> pillars) in
      report_ids events_with_pillar Events_with_pillar errors
    else ret errors in
  let* types := getitem df "record_type" record_type in
  let targets_df := pd.take_mask df (pd.eq_str "target" <$> types) in
  let* errors :=
    if 0 <? pd.len targets_df then
      let* pillars := getitem targets_df "pillar" pillar in
      let targets_no_pillar := pd.take_mask targets_df (pd.isna <$> pillars) in
      report_ids targets_no_pillar Targets_missing_pillar errors
    else ret errors in
  let is_valid := is_empty errors in
  let* _ := report self "record_types" "✓ Record type validation passed"
              "✗ Record type validation failed:" is_valid errors in
  ret (is_valid, errors).

(** The dictionary [validate_all] returns. *)
Record validation_report := mkReport {
  total_records : Z;
  all_valid : bool;
  schema_validation : bool * list message;
  pillar_validation : bool * list message;
  record_type_validation : bool * list message;
  report_log : list log_entry
}.

Definition validate_all (self : t) (df : loc) : M (bool * validation_report) :=
  let* frame := load df in
  let* _ := emit (print "================================================================================") in
  let* _ := emit (print "DATA VALIDATION REPORT") in
  let* _ := emit (print "================================================================================") in
  let* _ := emit (print "Records to validate: {len(df)}") in
  let* _ := emit (print "") in
  let* schema := validate_schema self df in
  let* pillar := validate_pillar_rules self df in
  let* type := validate_record_types self df in
  let all_valid := fst schema && fst pillar && fst type in
  let* frame := load df in
  let* log := get_validation_log in
  let report := mkReport (pd.len frame) all_valid schema pillar type log in
  let* _ := emit (print "") in
  let* _ := emit (print "================================================================================") in
  let* _ := emit (print (if all_valid then "✓ ALL VALIDATIONS PASSED"
                         else "✗ VALIDATION FAILED - See errors above")) in
  let* _ := emit (print "================================================================================") in
  ret (all_valid, report).

End DataValidator.

(** ** Notions the properties are stated with *)

(** The rows of [obs] whose indicator code is [code], in table order. *)
Definition matching (code : string) (obs : DataFrame) : list Row :=
  List.filter (fun r => pd.eq_str code (indicator_code r)) (rows obs).

(** The observations of [code] sorted by year: the rows of [data] in
    [calculate_growth_rate]. *)
Definition series_of (code : string) (obs : DataFrame) : list Row :=
  pd.sort_rows Z.leb year (matching code obs).

(** What [FinancialInclusionAnalyzer.__init__] has checked of the
    observations an analyzer refers to. *)
Definition constructed (self : FinancialInclusionAnalyzer.t) (h : Heap) : Prop :=
  let obs := frames h !!! FinancialInclusionAnalyzer.observations self in
  rows obs <> []
  /\ pd.has_column "indicator_code" obs = true
  /\ pd.has_column "year" obs = true
  /\ pd.has_column "value_numeric" obs = true.

(** The cells of a growth frame a caller sees. *)
Definition growth_cells (r : Row) : option Z * float * float * float :=
  (year r, value_numeric r, growth_rate r, growth_pp r).

(** The rows [calculate_growth_rate] derives from the sorted rows [data]. *)
Definition growth_rows (data : list Row) : list Row :=
  let with_rate :=
    pd.assign set_growth_rate
      ((fun x => (x * 100)%float) <$> pd.pct_change (value_numeric <$> data)) data in
  pd.assign set_growth_pp (pd.diff (value_numeric <$> with_rate)) with_rate.

(** The change [identify_trend_changes] reports at position [i] of the
    growth rows, if any: the absolute change there is below the threshold and
    the one before is not. *)
Definition slowdown_at (growth : list Row) (threshold : float) (i : nat)
    : list FinancialInclusionAnalyzer.change :=
  match growth !! i, growth !! (i - 1)%nat with
  | Some current, Some previous =>
      if (abs (growth_pp current) <? threshold)%float
         && (threshold <=? abs (growth_pp previous))%float
      then [FinancialInclusionAnalyzer.mkChange (year current) "slowdown"
              (growth_pp previous) (growth_pp current)]
      else []
  | _, _ => []
  end.

(** The correlation rows [find_event_correlations] records for one
    observation: one for each event dated in the window that ends at the
    observation date and starts [lag] months before it; none when the
    start of the window is not representable. *)
Definition correlations_for (events : DataFrame) (lag : Z) (obs : Row)
    : list FinancialInclusionAnalyzer.correlation :=
  match observation_date obs with
  | None => []
  | Some obs_date =>
      match Time.sub_months obs_date lag with
      | None => []
      | Some window_start =>
      List.filter
        (fun e => FinancialInclusionAnalyzer.in_window
                    window_start obs_date (event_date e))
        (rows events)
      ≫= (fun e =>
            match event_date e with
            | None => []
            | Some ev_date =>
                [FinancialInclusionAnalyzer.mkCorrelation
                   (cell_get events e "indicator" indicator (Some "Unknown"))
                   ev_date obs_date
                   (Float.round1
                      (Float.of_Z (Time.days_between obs_date ev_date) / 30)%float)
                   (value_numeric obs)]
            end)
      end
  end.

(** The observations of a table: [df[df['record_type'] == 'observation']]. *)
Definition observations_of (df : DataFrame) : DataFrame :=
  mkFrame (columns df)
    (List.filter (fun row => pd.eq_str "observation" (record_type row)) (rows df)).

(** The observations of one pillar. *)
Definition pillar_obs_of (name : string) (obs_df : DataFrame) : DataFrame :=
  mkFrame (columns obs_df)
    (List.filter (fun row => pd.eq_str name (pillar row)) (rows obs_df)).

(** The errors one round of the loop of [validate_pillar_rules] appends,
    for the pillar [item.1] with the rules [item.2]. *)
Definition pillar_errors (obs_df : DataFrame) (item : string * DataValidator.rules)
    : list message :=
  let pillar_obs := pillar_obs_of item.1 obs_df in
  let invalid_indicators := DataValidator.unexpected_codes item.2 pillar_obs in
  let invalid_vtypes :=
    pd.set_of (pd.dropna (value_type <$> rows pillar_obs))
    ∖ pd.set_of (DataValidator.required_value_type item.2) in
  if pd.len pillar_obs =? 0 then []
  else
    DataValidator.append_if
      (DataValidator.nonempty invalid_vtypes
       && negb (DataValidator.is_empty (DataValidator.required_value_type item.2)))
      (DataValidator.append_if (negb (DataValidator.is_empty invalid_indicators)) []
         (Unexpected_indicator_codes item.1 (pd.set_of invalid_indicators)))
      (Pillar_invalid_value_types item.1 invalid_vtypes
         (DataValidator.required_value_type item.2)).

(** The pillar an error of [validate_pillar_rules] is about. *)
Definition error_pillar (e : message) : option string :=
  match e with
  | Unexpected_indicator_codes name _ => Some name
  | Pillar_invalid_value_types name _ _ => Some name
  | _ => None
  end.

(** [row] is an observation of the pillar [name]. *)
Definition observation_of_pillar (name : string) (row : Row) : Prop :=
  record_type row = Some "observation" /\ pillar row = Some name.

(** The values an error of [validate_pillar_rules] reports are those of
    observations of the pillar [name] in the table [df]. *)
Definition reported_from (df : DataFrame) (name : string) (e : message) : Prop :=
  match e with
  | Unexpected_indicator_codes _ codes =>
      forall code, code ∈ codes ->
        exists row, row ∈ rows df /\ observation_of_pillar name row
          /\ cell_get df row "indicator_code" indicator_code (Some "") = Some code
  | Pillar_invalid_value_types _ vtypes _ =>
      forall vtype, vtype ∈ vtypes ->
        exists row, row ∈ rows df /\ observation_of_pillar name row
          /\ value_type row = Some vtype
  | _ => False
  end.

(** The check of [validate_pillar_rules] on an indicator code: it starts
    with the leading segment of a registered indicator. *)
Definition accepted (r : DataValidator.rules) (code : string) : Prop :=
  exists valid_ind, valid_ind ∈ DataValidator.valid_indicators r
    /\ DataValidator.startswith code (DataValidator.split0 valid_ind) = true.

(** The frames that exist before a run are the same after it, whatever the
    outcome: the run may only create frames and update those it created. *)
Definition preserves_tables {A} (m : M A) : Prop :=
  forall h l df, frames h !! l = Some df -> frames (m h).2 !! l = Some df.

(** The postcondition that asks nothing of the value returned. *)
Definition any {A} : A -> Prop := fun _ => True.

(** The first [n] frames are kept by a run from any heap that has them, and
    a returned value satisfies [Q]. *)
Definition keeps (n : nat) {A} (m : M A) (Q : A -> Prop) : Prop :=
  forall h, (n <= length (frames h))%nat ->
    take n (frames (m h).2) = take n (frames h)
    /\ (n <= length (frames (m h).2))%nat
    /\ match (m h).1 with
       | Return a => Q a
       | Raise _ => True
       end.

(** ** Sample tables *)

Module Sample.

(** An observation as the loader prepares it: [year] is the year of the
    observation date. *)
Definition observation (id pillar code vtype : string) (v : float)
    (d : Timestamp) : Row :=
  mkRow (Some id) (Some "observation") (Some pillar) (Some code) (Some code)
        (Some vtype) (Some "high") None None v (Some (ts_year d)) (Some d) None
        nan nan.

(** An event as the loader prepares it: [event_date] is the observation
    date. *)
Definition event (id name cat : string) (d : Timestamp) : Row :=
  mkRow (Some id) (Some "event") None (Some name) None None (Some "high")
        (Some cat) None nan (Some (ts_year d)) (Some d) (Some d) nan nan.

Definition observation_columns : list string :=
  ["record_id"; "record_type"; "pillar"; "indicator"; "indicator_code";
   "value_type"; "observation_date"; "source_name"; "confidence";
   "value_numeric"; "value_text"; "category"; "year"].

Definition event_columns : list string :=
  ["record_id"; "record_type"; "pillar"; "indicator"; "indicator_code";
   "value_type"; "observation_date"; "source_name"; "confidence";
   "value_numeric"; "value_text"; "category"; "event_date"; "year"].

(** Account ownership 20.0 in 2014 and 22.0 in 2017, with a row of another
    indicator in between. *)
Definition ownership : DataFrame :=
  mkFrame observation_columns
    [observation "REC_0002" "ACCESS" "ACC_OWNERSHIP" "percentage" 22 (Time.date 2017 12 1);
     observation "REC_0003" "USAGE" "USG_P2P_COUNT" "absolute" 100 (Time.date 2015 6 30);
     observation "REC_0001" "ACCESS" "ACC_OWNERSHIP" "percentage" 20 (Time.date 2014 12 1)].

(** Two observations whose indicator code is the empty string. *)
Definition unnamed : DataFrame :=
  mkFrame observation_columns
    [observation "REC_0004" "ACCESS" "" "percentage" 20 (Time.date 2014 12 1);
     observation "REC_0005" "ACCESS" "" "percentage" 22 (Time.date 2017 12 1)].

(** A gender gap closing by 5.0, 4.5 and 0.3 points. *)
Definition gap : DataFrame :=
  mkFrame observation_columns
    [observation "REC_0010" "GENDER" "GENDER_GAP" "percentage" (-9.5) (Time.date 2021 12 1);
     observation "REC_0011" "GENDER" "GENDER_GAP" "percentage" (-4.5) (Time.date 2022 12 1);
     observation "REC_0012" "GENDER" "GENDER_GAP" "percentage" 0 (Time.date 2023 12 1);
     observation "REC_0013" "GENDER" "GENDER_GAP" "percentage" 0.3 (Time.date 2024 12 1)].

(** One observation of mobile money accounts on 2021-12-01. *)
Definition mobile_money : DataFrame :=
  mkFrame observation_columns
    [observation "REC_0020" "ACCESS" "MOBILE_MONEY_ACC" "percentage" 9.5
       (Time.date 2021 12 1)].

Definition launches : DataFrame :=
  mkFrame event_columns
    [event "EVT_0001" "Telebirr launch" "product_launch" (Time.date 2021 7 1)].


(** An ACCESS observation whose code starts with ACC but whose leading
    segment is ACCESS. *)
Definition access_rate : DataFrame :=
  mkFrame observation_columns
    [observation "REC_0030" "ACCESS" "ACCESS_RATE" "percentage" 46 (Time.date 2022 12 1)].

(** A QUALITY observation with an unregistered code and value type, next
    to a USAGE observation with a value type USAGE does not allow and a
    GENDER observation with an unregistered code. *)
Definition mixed : DataFrame :=
  mkFrame observation_columns
    [observation "REC_0040" "QUALITY" "ZZZ_SCORE" "categorical" 3 (Time.date 2022 12 1);
     observation "REC_0041" "USAGE" "USG_P2P_COUNT" "ratio" 1.5 (Time.date 2022 12 1);
     observation "REC_0042" "GENDER" "WOMEN_SHARE" "percentage" 40 (Time.date 2022 12 1);
     event "EVT_0003" "Telebirr launch" "product_launch" (Time.date 2021 5 11)].

(** A table with one observation and no [record_type] column. *)
Definition no_record_type : DataFrame :=
  mkFrame ["record_id"; "pillar"; "indicator"; "indicator_code"; "value_type";
           "observation_date"; "source_name"; "confidence"]
    [observation "REC_0050" "ACCESS" "ACC_OWNERSHIP" "percentage" 46 (Time.date 2022 12 1)].

(** The nine required columns and [value_numeric], nothing else. *)
Definition required_only : DataFrame :=
  mkFrame ["record_id"; "record_type"; "pillar"; "indicator"; "indicator_code";
           "value_type"; "observation_date"; "source_name"; "confidence";
           "value_numeric"]
    [observation "REC_0060" "ACCESS" "ACC_OWNERSHIP" "percentage" 46 (Time.date 2022 12 1)].

Definition validator : DataValidator.t := DataValidator.mkValidator true.

Definition heap (tables : list DataFrame) : Heap := mkHeap tables [] [].

(** The analyzer of the first table of a heap, without events and with the
    second table as events. *)
Definition analyzer : FinancialInclusionAnalyzer.t :=
  FinancialInclusionAnalyzer.mkAnalyzer 0%nat None.

Definition analyzer_with_events : FinancialInclusionAnalyzer.t :=
  FinancialInclusionAnalyzer.mkAnalyzer 0%nat (Some 1%nat).

End Sample.

(** ** [class FinancialInclusionDataLoader] of [src/data_loader.py]

    The two methods that prepare the input of the analysis from the
    observations of the loader.  They read their argument, build new frames
    and write to the logger of their module; they update nothing in place,
    so they are functions from their arguments to the lines logged and the
    result. *)

Module FinancialInclusionDataLoader.

(** A line of the module's logger. *)
Inductive log_record :=
| Warning (line : string)
| Error (line : string).

(** [class DataLoadError(Exception)] *)
Inductive DataLoadError := mkDataLoadError (message : string).

(** What the pandas calls and [int] raise inside a [try] block. *)
Inductive error :=
| Key_error (column : string)
| Value_error.

Inductive result (A : Type) :=
| Ok (a : A)
| Err (e : error).
Arguments Ok {A} a.
Arguments Err {A} e.

Definition and_then {A B} (m : result A) (k : A -> result B) : result B :=
  match m with
  | Ok a => k a
  | Err e => Err e
  end.

(** [df[c]] *)
Definition column {A} (df : DataFrame) (c : string) (field : Row -> A)
    : result (list A) :=
  if pd.has_column c df then Ok (field <$> rows df) else Err (Key_error c).

(** [df.sort_values(c)] *)
Definition sort_values {K} (df : DataFrame) (c : string)
    (leb : K -> K -> bool) (key : Row -> option K) : result DataFrame :=
  if pd.has_column c df then Ok (mkFrame (columns df) (pd.sort_rows leb key (rows df)))
  else Err (Key_error c).

(** [df[cols]] *)
Definition select (df : DataFrame) (cols : list string) : result DataFrame :=
  match List.filter (fun c => negb (pd.has_column c df)) cols with
  | [] => Ok (mkFrame cols (rows df))
  | c :: _ => Err (Key_error c)
  end.

(** [int(x)] on the minimum or maximum of a year column: a missing value
    (NaN) cannot be converted. *)
Definition int (x : option Z) : result Z :=
  match x with
  | Some z => Ok z
  | None => Err Value_error
  end.

(** A [for] loop with the variable it updates as accumulator. *)
Fixpoint for_each {A S} (l : list A) (body : S -> A -> result S) (s : S)
    : result S :=
  match l with
  | [] => Ok s
  | x :: l' => and_then (body s x) (for_each l' body)
  end.

(** [d[k] = v] on a dictionary in insertion order. *)
Definition dict_set {V} (k : string) (v : V) (d : list (string * V))
    : list (string * V) :=
  if bool_decide (k ∈ d.*1)
  then (fun kv => if bool_decide (kv.1 = k) then (k, v) else kv) <$> d
  else d ++ [(k, v)].

Definition get_time_series (observations : option DataFrame) (code : string)
    : list log_record * (DataLoadError + DataFrame) :=
  match observations with
  | None => ([Warning "Empty observations DataFrame provided"], inr pd_DataFrame)
  | Some observations =>
      if pd.len observations =? 0 then
        ([Warning "Empty observations DataFrame provided"], inr pd_DataFrame)
      else
        let required_cols :=
          ["indicator_code"; "observation_date"; "year"; "value_numeric"] in
        let missing_cols :=
          pd.set_of required_cols ∖ pd.set_of (columns observations) in
        if bool_decide (missing_cols ≠ ∅) then
          ([], inl (mkDataLoadError "Missing required columns: {missing_cols}"))
        else
          match
            and_then (column observations "indicator_code" indicator_code) (fun codes =>
            let ts := pd.take_mask observations (pd.eq_str code <$> codes) in
            if pd.len ts =? 0 then
              Ok ([Warning "No data found for indicator: {indicator_code}"], ts)
            else
              and_then (sort_values ts "observation_date" Time.leb observation_date)
                (fun ts =>
              let available_cols :=
                List.filter (fun col => pd.has_column col ts)
                  ["observation_date"; "year"; "value_numeric"; "confidence";
                   "source_name"] in
              and_then (select ts available_cols) (fun ts => Ok ([], ts))))
          with
          | Ok (log, ts) => (log, inr ts)
          | Err e =>
              ([], inl (mkDataLoadError
                          "Error getting time series for {indicator_code}: {e}"))
          end
  end.

(** A value of the dictionary [get_pillar_summary] returns. *)
Record pillar_entry := mkPillarEntry {
  count : Z;
  indicators : Z;
  years : Z;
  date_range : option Z * option Z
}.

(** [int(pillar_data['year'].min()) if not pillar_data['year'].isna().all()
    else None], and the same with [max]. *)
Definition year_bound (pillar_data : DataFrame)
    (bound : list (option Z) -> option Z) : result (option Z) :=
  and_then (column pillar_data "year" year) (fun cells =>
  if negb (forallb pd.isna cells) then
    and_then (column pillar_data "year" year) (fun cells =>
    and_then (int (bound cells)) (fun y => Ok (Some y)))
  else Ok None).

Definition get_pillar_summary (observations : option DataFrame)
    : list log_record * list (string * pillar_entry) :=
  match observations with
  | None => ([Warning "Empty observations DataFrame provided"], [])
  | Some observations =>
      if pd.len observations =? 0 then
        ([Warning "Empty observations DataFrame provided"], [])
      else
        let required_cols := ["pillar"; "indicator_code"; "year"] in
        let missing_cols :=
          pd.set_of required_cols ∖ pd.set_of (columns observations) in
        if bool_decide (missing_cols ≠ ∅) then
          ([Warning "Missing columns for pillar summary: {missing_cols}"], [])
        else
          match
            and_then (column observations "pillar" pillar) (fun cells =>
            let pillars := pd.unique (pd.dropna cells) in
            for_each pillars
              (fun summary name =>
                 and_then (column observations "pillar" pillar) (fun cells =>
                 let pillar_data :=
                   pd.take_mask observations (pd.eq_str name <$> cells) in
                 and_then (column pillar_data "indicator_code" indicator_code)
                   (fun codes =>
                 and_then (column pillar_data "year" year) (fun cells =>
                 and_then (year_bound pillar_data pd.min) (fun first =>
                 and_then (year_bound pillar_data pd.max) (fun last =>
                 Ok (dict_set name
                       (mkPillarEntry (pd.len pillar_data) (pd.nunique codes)
                          (pd.nunique cells) (first, last))
                       summary)))))))
              [])
          with
          | Ok summary => ([], summary)
          | Err e => ([Error "Error generating pillar summary: {e}"], [])
          end
  end.

End FinancialInclusionDataLoader.

(** The entry of [get_pillar_summary] that corresponds to a row of
    [compare_pillars]. *)
Definition entry_of_row (s : FinancialInclusionAnalyzer.pillar_summary)
    : string * FinancialInclusionDataLoader.pillar_entry :=
  (FinancialInclusionAnalyzer.summary_pillar s,
   FinancialInclusionDataLoader.mkPillarEntry
     (FinancialInclusionAnalyzer.summary_observations s)
     (FinancialInclusionAnalyzer.summary_indicators s)
     (FinancialInclusionAnalyzer.years_coverage s)
     (FinancialInclusionAnalyzer.first_year s,
      FinancialInclusionAnalyzer.last_year s)).

(** The year and value of a row. *)
Definition point (r : Row) : option Z * float := (year r, value_numeric r).

(** ** Notions of the further properties *)

(** Only [AnalysisError] escapes from a run. *)
Definition raises_only_AnalysisError {A} (m : M A) : Prop :=
  forall h, match (m h).1 with
            | Return _ => True
            | Raise e => exists message, e = AnalysisError message
            end.

(** The years of the rows are in ascending order, the missing ones last. *)
Definition ascending_years (l : list Row) : Prop :=
  forall i j ri rj, (i < j)%nat -> l !! i = Some ri -> l !! j = Some rj ->
    match year ri, year rj with
    | Some a, Some b => a <= b
    | None, Some _ => False
    | _, None => True
    end.

(** Every element is related to all the later ones. *)
Fixpoint pairwise {A} (R : A -> A -> Prop) (l : list A) : Prop :=
  match l with
  | [] => True
  | x :: l' => Forall (R x) l' /\ pairwise R l'
  end.

(** The order of two rows by year, a missing year after every known one. *)
Definition year_le (r1 r2 : Row) : Prop :=
  match year r1, year r2 with
  | Some a, Some b => a <= b
  | None, Some _ => False
  | _, None => True
  end.

(** A table with the three columns the analyzer requires and no other:
    account ownership in 2014 and 2017. *)
Definition series_only : DataFrame :=
  mkFrame ["indicator_code"; "year"; "value_numeric"]
    [Sample.observation "REC_0070" "ACCESS" "ACC_OWNERSHIP" "percentage" 20
       (Time.date 2014 12 1);
     Sample.observation "REC_0071" "ACCESS" "ACC_OWNERSHIP" "percentage" 22
       (Time.date 2017 12 1)].

(** Every cell of a text column that is not missing holds one of the
    [valid] values. *)
Definition within (valid : list string) (cells : list (option string)) : Prop :=
  forall v, Some v ∈ cells -> v ∈ valid.

(** The error [validate_record_types] appends for the offending rows
    [bad], if there are any. *)
Definition ids_error (make : Z -> list (option string) -> message)
    (bad : list Row) : list message :=
  match bad with
  | [] => []
  | _ => [make (Z.of_nat (length bad)) (record_id <$> bad)]
  end.

(** What [validate_record_types] asks of a record: an observation has a
    pillar and a numeric or textual value, an event has a category and no
    pillar, a target has a pillar. *)
Definition well_formed_record (r : Row) : Prop :=
  (record_type r = Some "observation" ->
     pillar r <> None /\ (Float.isna (value_numeric r) = false \/ value_text r <> None))
  /\ (record_type r = Some "event" -> category r <> None /\ pillar r = None)
  /\ (record_type r = Some "target" -> pillar r <> None).

(** The errors [validate_schema] collects on a table with rows, in the
    order of its checks. *)
Definition schema_errors (df : DataFrame) : list message :=
  let invalid cells valid := pd.set_of (pd.dropna cells) ∖ pd.set_of valid in
  let missing_cols := pd.set_of DataValidator.REQUIRED_COLUMNS ∖ pd.set_of (columns df) in
  let invalid_types := invalid (record_type <$> rows df) DataValidator.VALID_RECORD_TYPES in
  let invalid_pillars :=
    invalid (pillar <$> rows (observations_of df)) DataValidator.VALID_PILLARS in
  let invalid_vtypes := invalid (value_type <$> rows df) DataValidator.VALID_VALUE_TYPES in
  let invalid_conf :=
    invalid (confidence <$> rows df) DataValidator.VALID_CONFIDENCE_LEVELS in
  DataValidator.append_if (DataValidator.nonempty invalid_conf)
    (DataValidator.append_if (DataValidator.nonempty invalid_vtypes)
       (DataValidator.append_if (DataValidator.nonempty invalid_pillars)
          (DataValidator.append_if (DataValidator.nonempty invalid_types)
             (DataValidator.append_if (DataValidator.nonempty missing_cols) []
                (Missing_required_columns missing_cols))
             (Invalid_record_types invalid_types))
          (Invalid_pillars invalid_pillars))
       (Invalid_value_types invalid_vtypes))
    (Invalid_confidence_levels invalid_conf).

(** The records of one type: [df[df['record_type'] == t]]. *)
Definition of_type (t : string) (df : DataFrame) : list Row :=
  List.filter (fun r => pd.eq_str t (record_type r)) (rows df).

(** The errors [validate_record_types] collects, in the order of its
    checks. *)
Definition record_type_errors (df : DataFrame) : list message :=
  ids_error Observations_missing_pillar
    (List.filter (fun r => pd.isna (pillar r)) (of_type "observation" df))
  ++ ids_error Observations_missing_value
       (List.filter (fun r => Float.isna (value_numeric r) && pd.isna (value_text r))
          (of_type "observation" df))
  ++ ids_error Events_missing_category
       (List.filter (fun r => pd.isna (category r)) (of_type "event" df))
  ++ ids_error Events_with_pillar
       (List.filter (fun r => pd.notna (pillar r)) (of_type "event" df))
  ++ ids_error Targets_missing_pillar
       (List.filter (fun r => pd.isna (pillar r)) (of_type "target" df)).

(** The entry [validate_schema] logs: none for a table without rows. *)
Definition schema_entries (df : DataFrame) (result : bool * list message)
    : list log_entry :=
  if DataValidator.is_empty (rows df) then []
  else [mkEntry "schema" result.1 result.2].

(** The number of cells of a text column that hold [v]. *)
Definition count_of (v : string) (cells : list (option string)) : Z :=
  Z.of_nat (length (List.filter (pd.eq_str v) cells)).

(** [self.events is not None and len(self.events) > 0] *)
Definition has_events (self : FinancialInclusionAnalyzer.t) (h : Heap) : bool :=
  match FinancialInclusionAnalyzer.events self with
  | Some ev => 0 <? pd.len (frames h !!! ev)
  | None => false
  end.

(** A list of years in ascending order, the missing ones last. *)
Definition ascending (ys : list (option Z)) : Prop :=
  pairwise (fun a b => match a, b with
                       | Some x, Some y => x <= y
                       | None, Some _ => False
                       | _, None => True
                       end) ys.

(** The order [sort_values] establishes on the rows for the key [key]:
    ascending by [leb], rows without a key last. *)
Definition key_le {K} (leb : K -> K -> bool) (key : Row -> option K)
    (r1 r2 : Row) : Prop :=
  match key r1, key r2 with
  | Some a, Some b => leb a b = true
  | None, Some _ => False
  | _, None => True
  end.

(** The row [compare_pillars] reports for the pillar [name]. *)
Definition pillar_row (obs : DataFrame) (name : string)
    : FinancialInclusionAnalyzer.pillar_summary :=
  let pillar_rows := List.filter (fun r => pd.eq_str name (pillar r)) (rows obs) in
  FinancialInclusionAnalyzer.mkSummary name
    (Z.of_nat (length pillar_rows))
    (pd.nunique (indicator_code <$> pillar_rows))
    (pd.nunique (year <$> pillar_rows))
    (pd.min (year <$> pillar_rows))
    (pd.max (year <$> pillar_rows)).

(** The sum of a list of integers. *)
Definition total (l : list Z) : Z := foldr Z.add 0 l.

(** A run that prints and logs no line, whatever its outcome. *)
Definition silent {A} (m : M A) : Prop := forall h, trace (m h).2 = trace h.

(** The lines [validate_all] prints before it runs the checks. *)
Definition validate_all_header : list event :=
  [print "================================================================================";
   print "DATA VALIDATION REPORT";
   print "================================================================================";
   print "Records to validate: {len(df)}";
   print ""].

(** The lines [validate_all] prints after the checks. *)
Definition validate_all_footer (all_valid : bool) : list event :=
  [print "";
   print "================================================================================";
   print (if all_valid then "✓ ALL VALIDATIONS PASSED"
          else "✗ VALIDATION FAILED - See errors above");
   print "================================================================================"].

(** [n] is the number of distinct values, the missing one apart, that the
    rows [l] hold in the column [key]. *)
Definition number_of_distinct {A} (key : Row -> option A) (l : list Row) (n : Z)
    : Prop :=
  exists values, NoDup values
    /\ (forall v, v ∈ values <-> exists r, r ∈ l /\ key r = Some v)
    /\ n = Z.of_nat (length values).

(** [m] is the least year of the rows [l] that have one, and missing when
    none has. *)
Definition least_year (l : list Row) (m : option Z) : Prop :=
  match m with
  | Some a => (exists r, r ∈ l /\ year r = Some a)
              /\ forall r y, r ∈ l -> year r = Some y -> a <= y
  | None => forall r, r ∈ l -> year r = None
  end.

(** [m] is the greatest year of the rows [l] that have one, and missing
    when none has. *)
Definition greatest_year (l : list Row) (m : option Z) : Prop :=
  match m with
  | Some a => (exists r, r ∈ l /\ year r = Some a)
              /\ forall r y, r ∈ l -> year r = Some y -> y <= a
  | None => forall r, r ∈ l -> year r = None
  end.

(** * Properties *)

(** ** Floats *)

Lemma SFcompare_refl x : x <> S754_nan -> SFcompare x x = Some Eq.
Proof.
  destruct x as [s|s| |s m e]; simpl; try done.
  - destruct s; done.
  - intros _. rewrite Z.compare_refl.
    assert (PosDef.Pos.compare_cont Eq m m = Eq) as -> by apply Pos.compare_refl.
    destruct s; done.
Qed.

Lemma notna_iff x : Float.notna x = true <-> Prim2SF x <> S754_nan.
Proof.
  unfold Float.notna, is_nan. rewrite FloatAxioms.eqb_spec. unfold SFeqb.
  split.
  - intros H E. rewrite E in H. done.
  - intros H. rewrite SFcompare_refl by done. done.
Qed.

(** A comparison that holds has no missing operand. *)
Lemma abs_ltb_notna x t : (abs x <? t)%float = true -> Float.notna x = true.
Proof.
  rewrite ltb_spec, abs_spec. intros H. apply notna_iff. intros E.
  rewrite E in H. done.
Qed.

Lemma leb_abs_notna x t : (t <=? abs x)%float = true -> Float.notna x = true.
Proof.
  rewrite leb_spec, abs_spec. intros H. apply notna_iff. intros E.
  rewrite E in H. unfold SFleb in H. destruct (Prim2SF t); done.
Qed.

(** ** Frames *)

Lemma take_mask_fmap df (f : Row -> bool) :
  pd.take_mask df (f <$> rows df) = mkFrame (columns df) (List.filter f (rows df)).
Proof.
  unfold pd.take_mask. f_equal.
  induction (rows df) as [|r l IH]; simpl; [done|].
  destruct (f r); simpl; [f_equal|]; exact IH.
Qed.

Lemma take_mask_fmap2 {A} df (g : A -> bool) (f : Row -> A) :
  pd.take_mask df (g <$> (f <$> rows df))
  = mkFrame (columns df) (List.filter (fun r => g (f r)) (rows df)).
Proof. rewrite <- list_fmap_compose. apply take_mask_fmap. Qed.

Lemma length_shift s : length (pd.shift s) = length s.
Proof. unfold pd.shift. rewrite length_take. simpl. lia. Qed.

Lemma length_diff s : length (pd.diff s) = length s.
Proof. unfold pd.diff. rewrite length_zip_with, length_shift. lia. Qed.

Lemma length_pct_change s : length (pd.pct_change s) = length s.
Proof. unfold pd.pct_change. rewrite length_zip_with, length_shift. lia. Qed.

Lemma length_assign set values l :
  length values = length l -> length (pd.assign set values l) = length l.
Proof. intros H. unfold pd.assign. rewrite length_zip_with. lia. Qed.

Lemma length_growth_rows data : length (growth_rows data) = length data.
Proof.
  unfold growth_rows.
  rewrite !length_assign; rewrite ?length_diff, ?length_fmap, ?length_pct_change,
    ?length_assign; rewrite ?length_fmap, ?length_pct_change, ?length_fmap; done.
Qed.

Lemma has_column_with_column_same c set values df :
  pd.has_column c (pd.with_column c set values df) = true.
Proof.
  unfold pd.with_column.
  destruct (pd.has_column c df) eqn:E; unfold pd.has_column; simpl; [exact E|].
  apply bool_decide_eq_true. apply elem_of_app. right. by apply list_elem_of_singleton.
Qed.

Lemma has_column_with_column c c' set values df :
  pd.has_column c df = true ->
  pd.has_column c (pd.with_column c' set values df) = true.
Proof.
  unfold pd.with_column. intros H.
  destruct (pd.has_column c' df); unfold pd.has_column; simpl; [exact H|].
  apply bool_decide_eq_true. apply elem_of_app. left.
  by apply bool_decide_eq_true in H.
Qed.

(** ** The heap *)

Lemma alloc_lookup (l : list DataFrame) df : (l ++ [df]) !!! length l = df.
Proof. by apply list_lookup_total_middle. Qed.

Lemma alloc_alter (l : list DataFrame) f df :
  alter f (length l) (l ++ [df]) = l ++ [f df].
Proof. rewrite alter_app_r_alt by lia. by rewrite Nat.sub_diag. Qed.

(** ** Running the monad *)

Lemma bind_run {A B} (m : M A) (k : A -> M B) h :
  bind m k h = match m h with
               | (Return a, h') => k a h'
               | (Raise e, h') => (Raise e, h')
               end.
Proof. done. Qed.

Lemma try_except_run {A} (m : M A) handler h :
  try_except m handler h = match m h with
                           | (Return a, h') => (Return a, h')
                           | (Raise e, h') => handler e h'
                           end.
Proof. done. Qed.

Lemma ret_run {A} (a : A) h : ret a h = (Return a, h).
Proof. done. Qed.

Lemma raise_run {A} e h : raise (A:=A) e h = (Raise e, h).
Proof. done. Qed.

Lemma load_run l h : load l h = (Return (frames h !!! l), h).
Proof. done. Qed.

Lemma getitem_run {A} df c (field : Row -> A) h :
  pd.has_column c df = true -> getitem df c field h = (Return (field <$> rows df), h).
Proof. intros H. unfold getitem. by rewrite H. Qed.

Lemma getitem_raise {A} df c (field : Row -> A) h :
  pd.has_column c df = false -> getitem df c field h = (Raise (KeyError c), h).
Proof. intros H. unfold getitem. by rewrite H. Qed.

Lemma sort_values_run {K} df c (leb : K -> K -> bool) key h :
  pd.has_column c df = true ->
  sort_values df c leb key h
  = (Return (mkFrame (columns df) (pd.sort_rows leb key (rows df))), h).
Proof. intros H. unfold sort_values. by rewrite H. Qed.

Lemma cell_run {A} df row c (field : Row -> A) h :
  pd.has_column c df = true -> cell df row c field h = (Return (field row), h).
Proof. intros H. unfold cell. by rewrite H. Qed.

Lemma getitems_run df cols h :
  (forall c, In c cols -> pd.has_column c df = true) ->
  getitems df cols h = (Return (mkFrame cols (rows df)), h).
Proof.
  intros H. unfold getitems.
  assert (List.filter (fun c => negb (pd.has_column c df)) cols = []) as ->; [|done].
  induction cols as [|c cols IH]; [done|]. simpl.
  rewrite (H c) by (by left). simpl. apply IH. intros c' Hc'. apply H. by right.
Qed.

(** One step of a run: the first action of a [let*] is replaced by its
    outcome, given by the lemma [lem]. *)
Ltac norm := cbv beta iota; cbn [rows columns frames validation_log trace fst snd].
Ltac step lem := rewrite bind_run; rewrite lem; norm.

(** ** [calculate_growth_rate] *)

(** The run of [calculate_growth_rate] on a non-empty code, when the
    observations have the columns the constructor requires: the result is
    the empty frame or the growth frame of the sorted observations, and the
    frames that existed before are all kept. *)
Lemma calculate_growth_rate_run self code h :
  let obs := frames h !!! FinancialInclusionAnalyzer.observations self in
  code <> "" ->
  pd.has_column "indicator_code" obs = true ->
  pd.has_column "year" obs = true ->
  pd.has_column "value_numeric" obs = true ->
  exists h',
    FinancialInclusionAnalyzer.calculate_growth_rate self code h =
      (Return (if Z.of_nat (length (series_of code obs)) <? 2 then pd_DataFrame
               else mkFrame ["year"; "value_numeric"; "growth_rate"; "growth_pp"]
                      (growth_rows (series_of code obs))), h')
    /\ frames h `prefix_of` frames h'.
Proof.
  intros obs Hcode Hic Hy Hv.
  unfold FinancialInclusionAnalyzer.calculate_growth_rate.
  apply String.eqb_neq in Hcode. rewrite Hcode.
  rewrite try_except_run.
  step load_run. fold obs.
  step (getitem_run obs "indicator_code" indicator_code h Hic).
  rewrite take_mask_fmap2. fold (matching code obs).
  step @sort_values_run; [|exact Hy]. fold (series_of code obs).
  unfold pd.len at 1. norm.
  destruct (Z.of_nat (length (series_of code obs)) <? 2) eqn:Hlen.
  - eexists. split; [reflexivity|]. done.
  - set (data := mkFrame (columns obs) (series_of code obs)).
    rewrite bind_run. unfold alloc at 1. norm.
    step load_run. rewrite alloc_lookup.
    step @getitem_run; [|exact Hv].
    rewrite bind_run. unfold modify at 1. norm.
    rewrite alloc_alter.
    step load_run. rewrite alloc_lookup.
    step @getitem_run; [|by apply has_column_with_column].
    rewrite bind_run. unfold modify at 1. norm.
    rewrite alloc_alter.
    step load_run. rewrite alloc_lookup.
    rewrite getitems_run.
    + eexists. split; [reflexivity|]. simpl. by apply prefix_app_r.
    + intros c [<-|[<-|[<-|[<-|[]]]]].
      * by do 2 apply has_column_with_column.
      * by do 2 apply has_column_with_column.
      * apply has_column_with_column, has_column_with_column_same.
      * apply has_column_with_column_same.
Qed.

(** ** Sorting *)

Lemma insert_sorted_perm {K} (leb : K -> K -> bool) x l :
  pd.insert_sorted leb x l ≡ₚ x :: l.
Proof.
  induction l as [|y l IH]; simpl; [done|].
  destruct (leb x.1 y.1); [done|]. rewrite IH. apply Permutation_swap.
Qed.

Lemma keyed_perm {K} (key : Row -> option K) l :
  (snd <$> pd.keyed key l) ++ List.filter (fun r => pd.isna (key r)) l ≡ₚ l.
Proof.
  induction l as [|r l IH]; [done|]. unfold pd.keyed in *. simpl.
  destruct (key r) as [k|]; simpl.
  - by constructor.
  - rewrite <- Permutation_middle. by constructor.
Qed.

(** Sorting permutes the rows. *)
Lemma sort_rows_perm {K} (leb : K -> K -> bool) key l :
  pd.sort_rows leb key l ≡ₚ l.
Proof.
  unfold pd.sort_rows. rewrite <- (keyed_perm key l) at 3.
  apply Permutation_app; [|done]. apply fmap_Permutation.
  induction (pd.keyed key l) as [|x kl IH]; simpl; [done|].
  rewrite insert_sorted_perm. by constructor.
Qed.

Lemma length_series_of code obs :
  length (series_of code obs) = length (matching code obs).
Proof. apply Permutation_length, sort_rows_perm. Qed.

(** The empty code is answered before the observations are read. *)
Lemma calculate_growth_rate_empty_code self h :
  FinancialInclusionAnalyzer.calculate_growth_rate self "" h
  = (Return pd_DataFrame,
     mkHeap (frames h) (validation_log h)
       (trace h ++ [logger_warning "Empty indicator_code provided"])).
Proof. done. Qed.

(** C7.  On an analyzer whose observations passed the constructor's checks,
    [calculate_growth_rate] returns the empty frame, and raises nothing,
    for the empty indicator code and for every code with fewer than two
    observations; no frame is created or changed. *)
Theorem calculate_growth_rate_insufficient_data self code h :
  constructed self h ->
  code = "" \/
    (length (matching code (frames h !!! FinancialInclusionAnalyzer.observations self)) < 2)%nat ->
  exists h',
    FinancialInclusionAnalyzer.calculate_growth_rate self code h = (Return pd_DataFrame, h')
    /\ frames h' = frames h.
Proof.
  intros (_ & Hic & Hy & Hv) Hcase.
  destruct (decide (code = "")) as [->|Hne].
  { rewrite calculate_growth_rate_empty_code. by eexists. }
  destruct Hcase as [->|Hlen]; [done|].
  unfold FinancialInclusionAnalyzer.calculate_growth_rate.
  apply String.eqb_neq in Hne. rewrite Hne.
  rewrite try_except_run. step load_run.
  step @getitem_run; [|exact Hic]. rewrite take_mask_fmap2.
  step @sort_values_run; [|exact Hy].
  unfold pd.len. norm.
  fold (matching code (frames h !!! FinancialInclusionAnalyzer.observations self)).
  fold (series_of code (frames h !!! FinancialInclusionAnalyzer.observations self)).
  rewrite length_series_of.
  assert ((Z.of_nat (length (matching code
            (frames h !!! FinancialInclusionAnalyzer.observations self))) <? 2) = true)
    as -> by (apply Z.ltb_lt; lia).
  by eexists.
Qed.

Lemma calculate_growth_rate_insufficient_data_witness :
  exists h',
    FinancialInclusionAnalyzer.calculate_growth_rate Sample.analyzer "USG_P2P_COUNT"
      (Sample.heap [Sample.ownership]) = (Return pd_DataFrame, h')
    /\ frames h' = frames (Sample.heap [Sample.ownership]).
Proof.
  apply calculate_growth_rate_insufficient_data.
  - repeat split; [discriminate | reflexivity ..].
  - right. vm_compute. lia.
Defined.

(** C1, as stated, fails: for account ownership 20.0 in 2014 and 22.0 in
    2017 the result has two rows, the first one the 2014 row with missing
    growth cells. *)
Lemma calculate_growth_rate_two_points_counterexample :
  (fun r => (year r, value_numeric r)) <$> series_of "ACC_OWNERSHIP" Sample.ownership
    = [(Some 2014, 20%float); (Some 2017, 22%float)]
  /\ exists df h',
       FinancialInclusionAnalyzer.calculate_growth_rate Sample.analyzer "ACC_OWNERSHIP"
         (Sample.heap [Sample.ownership]) = (Return df, h')
       /\ growth_cells <$> rows df
          = [(Some 2014, 20%float, nan, nan);
             (Some 2017, 22%float, 10.000000000000009%float, 2%float)]
       /\ length (rows df) <> 1%nat.
Proof.
  split; [reflexivity|]. eexists _, _. split; [reflexivity|].
  split; [reflexivity|]. vm_compute. lia.
Qed.

(** C1, amended.  For every non-empty indicator code whose observations,
    sorted by year, are 20.0 in 2014 and 22.0 in 2017, [calculate_growth_rate]
    returns a frame with the columns year, value_numeric, growth_rate and
    growth_pp and two rows: the 2014 row, whose growth cells are missing, and
    the 2017 row with growth_pp 2.0 and growth_rate (22/20 - 1) * 100, which
    is 10 up to 1e-14. *)
Theorem calculate_growth_rate_two_points self code h :
  constructed self h ->
  code <> "" ->
  (fun r => (year r, value_numeric r))
    <$> series_of code (frames h !!! FinancialInclusionAnalyzer.observations self)
    = [(Some 2014, 20%float); (Some 2017, 22%float)] ->
  exists df h',
    FinancialInclusionAnalyzer.calculate_growth_rate self code h = (Return df, h')
    /\ columns df = ["year"; "value_numeric"; "growth_rate"; "growth_pp"]
    /\ growth_cells <$> rows df
       = [(Some 2014, 20%float, nan, nan);
          (Some 2017, 22%float, ((22 / 20 - 1) * 100)%float, 2%float)]
    /\ (abs ((22 / 20 - 1) * 100 - 10) <? 1e-14)%float = true.
Proof.
  intros (_ & Hic & Hy & Hv) Hne Hseries.
  destruct (calculate_growth_rate_run self code h Hne Hic Hy Hv) as (h' & -> & _).
  destruct (series_of code _) as [|r1 [|r2 [|? ?]]]; try discriminate.
  injection Hseries as Hy1 Hv1 Hy2 Hv2.
  eexists _, _. split; [reflexivity|]. simpl.
  split; [done|]. split; [|reflexivity].
  unfold growth_cells. simpl. rewrite Hy1, Hv1, Hy2, Hv2. reflexivity.
Qed.

Lemma calculate_growth_rate_two_points_witness :
  exists df h',
    FinancialInclusionAnalyzer.calculate_growth_rate Sample.analyzer "ACC_OWNERSHIP"
      (Sample.heap [Sample.ownership]) = (Return df, h')
    /\ columns df = ["year"; "value_numeric"; "growth_rate"; "growth_pp"]
    /\ growth_cells <$> rows df
       = [(Some 2014, 20%float, nan, nan);
          (Some 2017, 22%float, ((22 / 20 - 1) * 100)%float, 2%float)]
    /\ (abs ((22 / 20 - 1) * 100 - 10) <? 1e-14)%float = true.
Proof.
  apply calculate_growth_rate_two_points.
  - repeat split; [discriminate | reflexivity ..].
  - discriminate.
  - reflexivity.
Defined.

(** The restriction to non-empty codes is needed: rows whose indicator code
    is the empty string are never looked up. *)
Lemma calculate_growth_rate_empty_code_two_points :
  (fun r => (year r, value_numeric r)) <$> series_of "" Sample.unnamed
    = [(Some 2014, 20%float); (Some 2017, 22%float)]
  /\ (FinancialInclusionAnalyzer.calculate_growth_rate Sample.analyzer ""
        (Sample.heap [Sample.unnamed])).1 = Return pd_DataFrame.
Proof. split; reflexivity. Qed.

(** ** Loops *)

(** A loop whose body appends to its accumulator and leaves the heap alone. *)
Lemma for_each_append {A B} (l : list A) (body : list B -> A -> M (list B))
    (f : A -> list B) h :
  (forall s x, x ∈ l -> body s x h = (Return (s ++ f x), h)) ->
  forall s, for_each l body s h = (Return (s ++ (l ≫= f)), h).
Proof.
  induction l as [|x l IH]; intros Hbody s; simpl.
  - by rewrite app_nil_r.
  - rewrite bind_run, Hbody by left. rewrite IH.
    + by rewrite <- app_assoc.
    + intros s' y Hy. apply Hbody. by right.
Qed.

(** ** [identify_trend_changes] *)

Lemma notna_abs_ltb x t :
  Float.notna x && (abs x <? t)%float = (abs x <? t)%float.
Proof.
  destruct (abs x <? t)%float eqn:E; [|by rewrite andb_false_r].
  by rewrite (abs_ltb_notna _ _ E).
Qed.

Lemma notna_leb_abs x t :
  Float.notna x && (t <=? abs x)%float = (t <=? abs x)%float.
Proof.
  destruct (t <=? abs x)%float eqn:E; [|by rewrite andb_false_r].
  by rewrite (leb_abs_notna _ _ E).
Qed.

Lemma elem_of_range i a b : i ∈ range a b <-> (a <= i < b)%nat.
Proof. unfold range. rewrite elem_of_seq. lia. Qed.

(** The scan over a growth frame with its four columns. *)
Lemma trend_scan_run growth threshold h :
  pd.has_column "growth_pp" growth = true ->
  pd.has_column "year" growth = true ->
  for_each (range 1 (length (rows growth)))
    (FinancialInclusionAnalyzer.trend_step growth threshold) [] h
  = (Return (range 1 (length (rows growth)) ≫= slowdown_at (rows growth) threshold), h).
Proof.
  intros Hpp Hy. rewrite (for_each_append _ _ (slowdown_at (rows growth) threshold)); [done|].
  intros s i Hi. apply elem_of_range in Hi.
  destruct (lookup_lt_is_Some_2 (rows growth) i) as [cur Hcur]; [lia|].
  destruct (lookup_lt_is_Some_2 (rows growth) (i - 1)) as [prev Hprev]; [lia|].
  unfold FinancialInclusionAnalyzer.trend_step, slowdown_at, iloc.
  rewrite Hcur, Hprev.
  rewrite bind_run, ret_run. norm. rewrite bind_run, ret_run. norm.
  step @cell_run; [|done]. rewrite notna_abs_ltb.
  destruct (abs (growth_pp cur) <? threshold)%float; norm;
    [|by rewrite ret_run, app_nil_r].
  step @cell_run; [|done]. rewrite notna_leb_abs.
  destruct (threshold <=? abs (growth_pp prev))%float; norm;
    [|by rewrite ret_run, app_nil_r].
  step @cell_run; [|done]. done.
Qed.

Lemma elem_of_trend_scan growth threshold c :
  c ∈ range 1 (length growth) ≫= slowdown_at growth threshold <->
  exists i current previous,
    growth !! S i = Some current /\ growth !! i = Some previous
    /\ (abs (growth_pp current) <? threshold)%float = true
    /\ (threshold <=? abs (growth_pp previous))%float = true
    /\ c = FinancialInclusionAnalyzer.mkChange (year current) "slowdown"
             (growth_pp previous) (growth_pp current).
Proof.
  rewrite list_elem_of_bind. split.
  - intros (j & Hc & Hj). apply elem_of_range in Hj.
    destruct j as [|i]; [lia|]. unfold slowdown_at in Hc.
    replace (S i - 1)%nat with i in Hc by lia.
    destruct (growth !! S i) as [cur|] eqn:Hcur; [|by apply elem_of_nil in Hc].
    destruct (growth !! i) as [prev|] eqn:Hprev; [|by apply elem_of_nil in Hc].
    destruct (abs (growth_pp cur) <? threshold)%float eqn:E1;
      [|by apply elem_of_nil in Hc].
    destruct (threshold <=? abs (growth_pp prev))%float eqn:E2;
      [|by apply elem_of_nil in Hc].
    apply list_elem_of_singleton in Hc. by exists i, cur, prev.
  - intros (i & cur & prev & Hcur & Hprev & E1 & E2 & ->).
    exists (S i). split.
    + unfold slowdown_at. replace (S i - 1)%nat with i by lia.
      rewrite Hcur, Hprev, E1, E2. by apply list_elem_of_singleton.
    + apply elem_of_range. apply lookup_lt_Some in Hcur. lia.
Qed.

(** Deltas 5.0, 4.5 and 0.3 against the threshold 0.5: one slowdown, at the
    last row. *)
Lemma trend_scan_example growth :
  growth_pp <$> growth = [nan; 5; 4.5; 0.3]%float ->
  exists third, growth !! 3%nat = Some third
    /\ range 1 (length growth) ≫= slowdown_at growth 0.5
       = [FinancialInclusionAnalyzer.mkChange (year third) "slowdown" 4.5 0.3].
Proof.
  intros H. destruct growth as [|r0 [|r1 [|r2 [|r3 [|? ?]]]]]; try discriminate.
  injection H as H0 H1 H2 H3. exists r3. split; [done|].
  unfold range, slowdown_at. simpl. rewrite H0, H1, H2, H3. reflexivity.
Qed.

(** C2.  On an analyzer whose observations passed the constructor's checks,
    [identify_trend_changes] returns the changes found in the growth series
    of [calculate_growth_rate]: a change is reported for a row exactly when
    the absolute change [growth_pp] of that row is strictly below the
    threshold and that of the row immediately before is at or above it; the
    change has type 'slowdown' and carries the year of the row and the two
    compared values.  The row must have a predecessor, so the first row is
    never flagged.  For the deltas 5.0, 4.5, 0.3 and threshold 0.5 the only
    change is the one into the third delta. *)
Theorem identify_trend_changes_slowdowns self code threshold h :
  constructed self h ->
  exists growth h1 changes h',
    FinancialInclusionAnalyzer.calculate_growth_rate self code h = (Return growth, h1)
    /\ FinancialInclusionAnalyzer.identify_trend_changes self code threshold h
       = (Return changes, h')
    /\ (forall c, c ∈ changes <->
          exists i current previous,
            rows growth !! S i = Some current /\ rows growth !! i = Some previous
            /\ (abs (growth_pp current) <? threshold)%float = true
            /\ (threshold <=? abs (growth_pp previous))%float = true
            /\ c = FinancialInclusionAnalyzer.mkChange (year current) "slowdown"
                     (growth_pp previous) (growth_pp current))
    /\ (growth_pp <$> rows growth = [nan; 5; 4.5; 0.3]%float ->
        threshold = 0.5%float ->
        exists third, rows growth !! 3%nat = Some third
          /\ changes = [FinancialInclusionAnalyzer.mkChange (year third) "slowdown"
                          4.5 0.3]).
Proof.
  intros (_ & Hic & Hy & Hv).
  assert (exists growth h1 h',
    FinancialInclusionAnalyzer.calculate_growth_rate self code h = (Return growth, h1)
    /\ FinancialInclusionAnalyzer.identify_trend_changes self code threshold h
       = (Return (range 1 (length (rows growth))
                    ≫= slowdown_at (rows growth) threshold), h'))
    as (growth & h1 & h' & Hcalc & Hrun).
  { unfold FinancialInclusionAnalyzer.identify_trend_changes.
    rewrite try_except_run, bind_run.
    destruct (decide (code = "")) as [->|Hne].
    - rewrite calculate_growth_rate_empty_code. norm. eexists _, _, _. split; done.
    - destruct (calculate_growth_rate_run self code h Hne Hic Hy Hv) as (h1 & -> & _).
      norm.
      destruct (Z.of_nat (length (series_of code _)) <? 2) eqn:Hlen.
      + eexists _, _, _. split; done.
      + apply Z.ltb_ge in Hlen.
        set (growth := mkFrame ["year"; "value_numeric"; "growth_rate"; "growth_pp"]
                         (growth_rows (series_of code
                            (frames h !!! FinancialInclusionAnalyzer.observations self)))).
        assert (FinancialInclusionAnalyzer.empty growth = false) as ->.
        { unfold FinancialInclusionAnalyzer.empty, pd.len, growth. norm.
          rewrite length_growth_rows. apply orb_false_iff.
          split; [apply Z.eqb_neq; lia | done]. }
        rewrite bind_run, (trend_scan_run growth threshold h1) by done.
        norm. eexists _, _, _. split; done. }
  exists growth, h1,
    (range 1 (length (rows growth)) ≫= slowdown_at (rows growth) threshold), h'.
  split; [done|]. split; [done|]. split.
  - intros c. apply elem_of_trend_scan.
  - intros Hpp ->. by apply trend_scan_example.
Qed.

Lemma identify_trend_changes_slowdowns_witness :
  exists h',
    FinancialInclusionAnalyzer.identify_trend_changes Sample.analyzer "GENDER_GAP" 0.5
      (Sample.heap [Sample.gap])
    = (Return [FinancialInclusionAnalyzer.mkChange (Some 2024) "slowdown" 4.5 0.3], h').
Proof.
  destruct (identify_trend_changes_slowdowns Sample.analyzer "GENDER_GAP" 0.5
              (Sample.heap [Sample.gap]))
    as (growth & h1 & changes & h' & Hcalc & Hrun & _ & Hexample).
  - repeat split; [discriminate | reflexivity ..].
  - exists h'. rewrite Hrun. f_equal. f_equal.
    vm_compute in Hcalc. injection Hcalc as <- _.
    destruct Hexample as (third & Hthird & ->); [reflexivity ..|].
    injection Hthird as <-. reflexivity.
Defined.

(** ** [find_event_correlations] *)

Lemma elem_of_filter {A} (f : A -> bool) (l : list A) x :
  x ∈ List.filter f l <-> x ∈ l /\ f x = true.
Proof. rewrite !list_elem_of_In. apply filter_In. Qed.

(** A loop whose body appends to its accumulator and may write to the log:
    it returns the concatenation and leaves the frames as they are. *)
Lemma for_each_append_frames {A B} (l : list A) (body : list B -> A -> M (list B))
    (f : A -> list B) :
  (forall s x h, x ∈ l ->
     exists h', body s x h = (Return (s ++ f x), h') /\ frames h' = frames h) ->
  forall s h, exists h',
    for_each l body s h = (Return (s ++ (l ≫= f)), h') /\ frames h' = frames h.
Proof.
  induction l as [|x l IH]; intros Hbody s h; simpl.
  - exists h. by rewrite app_nil_r.
  - rewrite bind_run.
    destruct (Hbody s x h (list_elem_of_here _ _)) as (h1 & -> & Hf1).
    destruct (IH (fun s' y h0 Hy => Hbody s' y h0 (list_elem_of_further _ _ _ Hy))
                (s ++ f x) h1) as (h2 & -> & Hf2).
    exists h2. rewrite <- app_assoc. split; [done|]. congruence.
Qed.

(** The run of [find_event_correlations] when both tables have their date
    column and the events are not empty. *)
Lemma find_event_correlations_run self code lag h ev :
  let obs := frames h !!! FinancialInclusionAnalyzer.observations self in
  let events := frames h !!! ev in
  FinancialInclusionAnalyzer.events self = Some ev ->
  rows events <> [] ->
  pd.has_column "event_date" events = true ->
  pd.has_column "observation_date" obs = true ->
  pd.has_column "indicator_code" obs = true ->
  pd.has_column "value_numeric" obs = true ->
  exists h',
    FinancialInclusionAnalyzer.find_event_correlations self code lag h
    = (Return (pd.sort_rows Time.leb observation_date (matching code obs)
               ≫= correlations_for events lag), h')
    /\ frames h' = frames h.
Proof.
  intros obs events Hev Hrows Hed Hod Hic Hv.
  unfold FinancialInclusionAnalyzer.find_event_correlations. rewrite Hev.
  cbv zeta. norm. step load_run. fold events.
  assert ((pd.len events =? 0) = false) as ->.
  { apply Z.eqb_neq. unfold pd.len. destruct (rows events); [done|simpl; lia]. }
  rewrite try_except_run. step load_run. fold obs. rewrite Hod, Hed.
  change (negb true) with false. norm.
  step @getitem_run; [|exact Hic]. rewrite take_mask_fmap2. fold (matching code obs).
  step @sort_values_run; [|exact Hod].
  set (data := pd.sort_rows Time.leb observation_date (matching code obs)).
  destruct (pd.len _ =? 0) eqn:Hlen.
  - apply Z.eqb_eq in Hlen. unfold pd.len in Hlen. simpl in Hlen.
    destruct data; [|simpl in Hlen; lia]. by eexists.
  - rewrite bind_run.
    match goal with |- context [for_each ?l ?body ?acc h] =>
      assert (exists h1,
                for_each l body acc h
                = (Return (acc ++ (l ≫= correlations_for events lag)), h1)
                /\ frames h1 = frames h) as (h1 & -> & Hf1);
        [apply for_each_append_frames|]
    end.
    + intros s o h0 _. unfold correlations_for.
      destruct (observation_date o) as [od|];
        [|exists h0; by rewrite ret_run, app_nil_r].
      rewrite try_except_run, bind_run.
      destruct (Time.sub_months od lag) as [window_start|].
      * rewrite ret_run. norm. step @getitem_run; [|exact Hed].
        rewrite take_mask_fmap2. norm.
        rewrite (for_each_append _ _
          (fun e =>
             match event_date e with
             | None => []
             | Some ev_date =>
                 [FinancialInclusionAnalyzer.mkCorrelation
                    (cell_get events e "indicator" indicator (Some "Unknown"))
                    ev_date od
                    (Float.round1 (Float.of_Z (Time.days_between od ev_date) / 30)%float)
                    (value_numeric o)]
             end)); [by exists h0|].
        intros s' e _. destruct (event_date e) as [ed|]; [|by rewrite ret_run, app_nil_r].
        step @cell_run; [done|exact Hv].
      * rewrite raise_run. norm. rewrite app_nil_r. by eexists.
    + norm. eexists. split; [reflexivity|]. exact Hf1.
Qed.

Lemma elem_of_correlations_for events lag o c :
  c ∈ correlations_for events lag o <->
  exists e obs_date window_start ev_date,
    observation_date o = Some obs_date
    /\ Time.sub_months obs_date lag = Some window_start
    /\ e ∈ rows events /\ event_date e = Some ev_date
    /\ Time.leb window_start ev_date = true
    /\ Time.leb ev_date obs_date = true
    /\ c = FinancialInclusionAnalyzer.mkCorrelation
             (cell_get events e "indicator" indicator (Some "Unknown"))
             ev_date obs_date
             (Float.round1 (Float.of_Z (Time.days_between obs_date ev_date) / 30)%float)
             (value_numeric o).
Proof.
  unfold correlations_for. split.
  - destruct (observation_date o) as [od|]; [|by intros ?%elem_of_nil].
    destruct (Time.sub_months od lag) as [ws|] eqn:Hws; [|by intros ?%elem_of_nil].
    intros (e & Hc & He)%list_elem_of_bind.
    apply elem_of_filter in He as [He Hwin].
    destruct (event_date e) as [ed|] eqn:Hed; [|by apply elem_of_nil in Hc].
    apply list_elem_of_singleton in Hc. simpl in Hwin.
    apply andb_true_iff in Hwin as [H1 H2]. by exists e, od, ws, ed.
  - intros (e & od & ws & ed & -> & -> & He & Hed & H1 & H2 & ->).
    apply list_elem_of_bind. exists e. rewrite Hed. split.
    + by apply list_elem_of_singleton.
    + apply elem_of_filter. split; [done|]. rewrite Hed. simpl. by rewrite H1, H2.
Qed.




(** A window that starts before the first representable timestamp: with a
    lag of 30000 months the subtraction raises, the observation is skipped
    with a warning, and no row is returned. *)
Lemma find_event_correlations_skips_unrepresentable_window :
  Time.sub_months (Time.date 2021 12 1) 30000 = None
  /\ exists h',
       FinancialInclusionAnalyzer.find_event_correlations Sample.analyzer_with_events
         "MOBILE_MONEY_ACC" 30000 (Sample.heap [Sample.mobile_money; Sample.launches])
       = (Return [], h')
       /\ logger_warning
            "Error processing observation date {obs.get('observation_date')}: {e}"
          ∈ trace h'.
Proof.
  split; [vm_compute; reflexivity|]. eexists. split; [vm_compute; reflexivity|].
  simpl. set_solver.
Qed.

(** ** [validate_pillar_rules] *)

(** A loop whose body, when it does not raise, appends to its accumulator
    and leaves the heap alone. *)
Lemma for_each_append_inv {A B} (l : list A) (body : list B -> A -> M (list B))
    (f : A -> list B) h :
  (forall s x, x ∈ l ->
     body s x h = (Return (s ++ f x), h) \/ exists e, body s x h = (Raise e, h)) ->
  forall s s' h', for_each l body s h = (Return s', h') ->
  s' = s ++ (l ≫= f) /\ h' = h.
Proof.
  induction l as [|x l IH]; intros Hbody s s' h'; simpl.
  - rewrite ret_run, app_nil_r. by intros [= <- <-].
  - rewrite bind_run. destruct (Hbody s x) as [->|[e ->]]; [by left| |done].
    intros Hrun. apply IH in Hrun as [-> ->].
    + by rewrite <- app_assoc.
    + intros s'' y Hy. apply Hbody. by right.
Qed.

Lemma take_mask_pillar name obs_df :
  pd.take_mask obs_df (pd.eq_str name <$> (pillar <$> rows obs_df))
  = pillar_obs_of name obs_df.
Proof. apply take_mask_fmap2. Qed.

Lemma take_mask_observations df :
  pd.take_mask df (pd.eq_str "observation" <$> (record_type <$> rows df))
  = observations_of df.
Proof. apply take_mask_fmap2. Qed.

(** The console lines and the log entry of a check: no frame is touched. *)
Lemma report_run self name ok failed is_valid errors h :
  exists h', DataValidator.report self name ok failed is_valid errors h = (Return tt, h')
    /\ frames h' = frames h.
Proof.
  unfold DataValidator.report. rewrite bind_run.
  destruct (DataValidator.verbose self); [destruct is_valid|].
  - by eexists.
  - rewrite bind_run. unfold emit at 1. norm.
    assert (forall l h0, exists h1,
      for_each l (fun _ error => emit (print_error error)) tt h0 = (Return tt, h1)
      /\ frames h1 = frames h0) as Hloop.
    { induction l as [|e l IH]; intros h0; simpl; [by eexists|].
      rewrite bind_run. unfold emit at 1. norm.
      destruct (IH (mkHeap (frames h0) (validation_log h0)
                      (trace h0 ++ [print_error e]))) as (h1 & -> & Hf).
      by eexists. }
    destruct (Hloop errors (mkHeap (frames h) (validation_log h)
                              (trace h ++ [print failed]))) as (h1 & -> & Hf).
    norm. by eexists.
  - by eexists.
Qed.

(** One round of the loop of [validate_pillar_rules]. *)
Lemma check_pillar_run obs_df errors item h :
  pd.has_column "pillar" obs_df = true ->
  DataValidator.check_pillar obs_df errors item h
  = (if (pd.len (pillar_obs_of item.1 obs_df) =? 0) || pd.has_column "value_type" obs_df
     then Return (errors ++ pillar_errors obs_df item)
     else Raise (KeyError "value_type"), h).
Proof.
  intros Hp. destruct item as [name r].
  unfold DataValidator.check_pillar, pillar_errors. simpl fst. simpl snd.
  step @getitem_run; [|exact Hp]. rewrite take_mask_pillar. cbv zeta.
  destruct (pd.len (pillar_obs_of name obs_df) =? 0); simpl orb; norm.
  { by rewrite ret_run, app_nil_r. }
  destruct (pd.has_column "value_type" obs_df) eqn:Hvt.
  - step @getitem_run; [|exact Hvt]. rewrite ret_run. f_equal. f_equal.
    unfold DataValidator.append_if.
    destruct (_ && _), (negb _); simpl; by rewrite <- ?app_assoc, ?app_nil_r.
  - rewrite bind_run, getitem_raise; done.
Qed.

(** The errors [validate_pillar_rules] returns, whenever it returns: those
    of the registered pillars, in the order of [PILLAR_RULES]. *)
Lemma validate_pillar_rules_errors self l h ok errors h' :
  DataValidator.validate_pillar_rules self l h = (Return (ok, errors), h') ->
  errors = DataValidator.PILLAR_RULES ≫= pillar_errors (observations_of (frames h !!! l))
  /\ ok = DataValidator.is_empty errors
  /\ frames h' = frames h.
Proof.
  unfold DataValidator.validate_pillar_rules.
  step load_run. set (df := frames h !!! l).
  destruct (pd.has_column "record_type" df) eqn:Hrt;
    [|by rewrite bind_run, getitem_raise].
  step @getitem_run; [|exact Hrt]. rewrite take_mask_observations.
  destruct (pd.has_column "pillar" df) eqn:Hp.
  - rewrite bind_run.
    destruct (for_each _ _ _ h) as [[errs|e] h1] eqn:Hloop; [|done].
    apply (for_each_append_inv _ _ (pillar_errors (observations_of df))) in Hloop
      as [-> ->].
    + norm. rewrite bind_run.
      destruct (report_run self "pillar_rules" "✓ Pillar rules validation passed"
                  "✗ Pillar rules validation failed:"
                  (DataValidator.is_empty
                     ([] ++ (DataValidator.PILLAR_RULES
                             ≫= pillar_errors (observations_of df))))
                  ([] ++ (DataValidator.PILLAR_RULES
                          ≫= pillar_errors (observations_of df))) h)
        as (h2 & -> & Hf).
      rewrite ret_run. by intros [= <- <- <-].
    + intros s item _.
      rewrite (check_pillar_run (observations_of df) s item h Hp).
      destruct (_ || _); eauto.
  - rewrite bind_run. unfold DataValidator.PILLAR_RULES. cbn [for_each].
    rewrite bind_run. unfold DataValidator.check_pillar at 1.
    rewrite bind_run, (getitem_raise (observations_of df) "pillar" pillar h Hp). done.
Qed.

(** With the columns it reads, [validate_pillar_rules] returns. *)
Lemma validate_pillar_rules_returns self l h :
  pd.has_column "record_type" (frames h !!! l) = true ->
  pd.has_column "pillar" (frames h !!! l) = true ->
  pd.has_column "value_type" (frames h !!! l) = true ->
  exists errors h',
    DataValidator.validate_pillar_rules self l h
    = (Return (DataValidator.is_empty errors, errors), h').
Proof.
  intros Hrt Hp Hvt. unfold DataValidator.validate_pillar_rules.
  step load_run. step @getitem_run; [|exact Hrt]. rewrite take_mask_observations.
  rewrite bind_run.
  rewrite (for_each_append _ _ (pillar_errors (observations_of (frames h !!! l)))).
  - norm. rewrite bind_run.
    match goal with |- context [DataValidator.report ?s ?n ?o ?f ?v ?e h] =>
      destruct (report_run s n o f v e h) as (h2 & -> & _)
    end.
    rewrite ret_run. by eexists _, _.
  - intros s item _. rewrite check_pillar_run by exact Hp.
    assert (pd.has_column "value_type" (observations_of (frames h !!! l)) = true)
      as -> by exact Hvt.
    by rewrite orb_true_r.
Qed.

Lemma elem_of_append_if b (s : list message) e m :
  m ∈ DataValidator.append_if b s e <-> m ∈ s \/ (b = true /\ m = e).
Proof.
  unfold DataValidator.append_if. destruct b.
  - rewrite elem_of_app, list_elem_of_singleton. naive_solver.
  - naive_solver.
Qed.

Lemma elem_of_pillar_obs name df row :
  row ∈ rows (pillar_obs_of name (observations_of df)) <->
  row ∈ rows df /\ observation_of_pillar name row.
Proof.
  unfold pillar_obs_of, observations_of, observation_of_pillar, pd.eq_str. simpl.
  rewrite !elem_of_filter, !bool_decide_eq_true. naive_solver.
Qed.

Lemma existsb_accepted r code :
  existsb (fun valid_ind =>
             DataValidator.startswith code (DataValidator.split0 valid_ind))
          (DataValidator.valid_indicators r) = true
  <-> accepted r code.
Proof.
  rewrite existsb_exists. unfold accepted.
  split; intros (v & Hv & H); exists v; by rewrite ?list_elem_of_In in *.
Qed.

(** The codes collected for a pillar: those of its rows that fail the check. *)
Lemma elem_of_unexpected_codes r pillar_obs code :
  code ∈ DataValidator.unexpected_codes r pillar_obs <->
  exists row, row ∈ rows pillar_obs
    /\ cell_get pillar_obs row "indicator_code" indicator_code (Some "") = Some code
    /\ ~ accepted r code.
Proof.
  unfold DataValidator.unexpected_codes.
  rewrite list_elem_of_In, in_flat_map. split.
  - intros (row & Hrow & Hcode). exists row. rewrite list_elem_of_In.
    destruct (cell_get _ _ _ _ _) as [c|]; [|done].
    destruct (existsb _ _) eqn:E; simpl in Hcode; [done|].
    destruct Hcode as [->|[]]. repeat split; [done|].
    intros Hacc%existsb_accepted. congruence.
  - intros (row & Hrow & Hcell & Hacc). exists row. rewrite <- list_elem_of_In.
    split; [done|]. rewrite Hcell.
    destruct (existsb _ _) eqn:E; simpl; [|by left].
    by apply existsb_accepted in E.
Qed.

Lemma elem_of_pillar_errors df name r m :
  m ∈ pillar_errors (observations_of df) (name, r) <->
  rows (pillar_obs_of name (observations_of df)) <> []
  /\ let pillar_obs := pillar_obs_of name (observations_of df) in
     let invalid_indicators := DataValidator.unexpected_codes r pillar_obs in
     let invalid_vtypes :=
       pd.set_of (pd.dropna (value_type <$> rows pillar_obs))
       ∖ pd.set_of (DataValidator.required_value_type r) in
     (invalid_indicators <> []
      /\ m = Unexpected_indicator_codes name (pd.set_of invalid_indicators))
     \/ (invalid_vtypes <> ∅ /\ DataValidator.required_value_type r <> []
         /\ m = Pillar_invalid_value_types name invalid_vtypes
                  (DataValidator.required_value_type r)).
Proof.
  unfold pillar_errors, pd.len. simpl fst. simpl snd. cbv zeta.
  destruct (rows (pillar_obs_of name (observations_of df))) as [|row l] eqn:Hrows.
  { simpl. split; [by intros ?%elem_of_nil | by intros [? _]]. }
  assert ((Z.of_nat (length (row :: l)) =? 0) = false) as ->
    by (apply Z.eqb_neq; simpl; lia).
  rewrite !elem_of_append_if, andb_true_iff, negb_true_iff.
  unfold DataValidator.nonempty. rewrite bool_decide_eq_true.
  split.
  - intros [[[]%elem_of_nil|[Hb ->]]|[[Hne Hreq] ->]]; (split; [done|]).
    + left. split; [|done]. by destruct (DataValidator.unexpected_codes _ _).
    + right. split; [done|]. split; [|done].
      by destruct (DataValidator.required_value_type r).
  - intros [_ [[Hne ->]|(Hne & Hreq & ->)]].
    + left. right. split; [|done]. by destruct (DataValidator.unexpected_codes _ _).
    + right. split; [|done]. split; [done|].
      by destruct (DataValidator.required_value_type r).
Qed.

Lemma registered_pillar name r :
  (name, r) ∈ DataValidator.PILLAR_RULES ->
  name ∈ ["ACCESS"; "USAGE"; "GENDER"; "AFFORDABILITY"].
Proof.
  unfold DataValidator.PILLAR_RULES.
  rewrite !elem_of_cons, elem_of_nil. intros [H|[H|[H|[H|[]]]]]; injection H as -> _;
    set_solver.
Qed.

(** C8.  Whenever [validate_pillar_rules] returns, every error it reports is
    about one of the pillars with registered rules, never about QUALITY;
    that pillar has at least one observation in the table, and the codes or
    value types the error lists are those of observations of that pillar.
    So an observation of the pillar QUALITY causes no error, whatever its
    indicator code and value type, and a pillar without observations causes
    none. *)
Theorem validate_pillar_rules_unchecked_pillars self l h ok errors h' :
  DataValidator.validate_pillar_rules self l h = (Return (ok, errors), h') ->
  forall e, e ∈ errors ->
  exists name,
    error_pillar e = Some name
    /\ name ∈ ["ACCESS"; "USAGE"; "GENDER"; "AFFORDABILITY"]
    /\ name <> "QUALITY"
    /\ (exists row, row ∈ rows (frames h !!! l) /\ observation_of_pillar name row)
    /\ reported_from (frames h !!! l) name e.
Proof.
  intros (-> & _ & _)%validate_pillar_rules_errors e.
  set (df := frames h !!! l).
  intros ([name r] & He & Hitem)%list_elem_of_bind.
  apply registered_pillar in Hitem.
  apply elem_of_pillar_errors in He as [Hrows He]. cbv zeta in He.
  exists name.
  assert (name <> "QUALITY") as Hq.
  { intros ->. set_solver. }
  assert (exists row, row ∈ rows df /\ observation_of_pillar name row) as Hobs.
  { destruct (rows (pillar_obs_of name (observations_of df))) as [|row rest] eqn:E;
      [done|].
    exists row. apply elem_of_pillar_obs. rewrite E. by left. }
  destruct He as [[_ ->]|(_ & _ & ->)]; simpl; (do 4 (split; [done|])).
  - intros code Hcode. unfold pd.set_of in Hcode.
    apply elem_of_list_to_set, elem_of_unexpected_codes in Hcode
      as (row & Hrow & Hcell & _).
    apply elem_of_pillar_obs in Hrow as [Hrow Hpillar]. by exists row.
  - intros vtype [Hv _]%elem_of_difference. unfold pd.set_of, pd.dropna in Hv.
    apply elem_of_list_to_set, list_elem_of_omap in Hv as (cell & Hcell & Hsome).
    apply list_elem_of_fmap in Hcell as (row & -> & Hrow).
    apply elem_of_pillar_obs in Hrow as [Hrow Hpillar]. by exists row.
Qed.

Lemma validate_pillar_rules_unchecked_pillars_witness :
  Forall
    (fun e =>
       exists name,
         error_pillar e = Some name
         /\ name ∈ ["ACCESS"; "USAGE"; "GENDER"; "AFFORDABILITY"]
         /\ name <> "QUALITY"
         /\ (exists row, row ∈ rows Sample.mixed /\ observation_of_pillar name row)
         /\ reported_from Sample.mixed name e)
    [Pillar_invalid_value_types "USAGE" {["ratio"]} ["absolute"; "currency"; "percentage"];
     Unexpected_indicator_codes "GENDER" {["WOMEN_SHARE"]}].
Proof.
  destruct (DataValidator.validate_pillar_rules Sample.validator 0%nat
              (Sample.heap [Sample.mixed])) as [o h'] eqn:Hrun.
  pose proof Hrun as Hval. vm_compute in Hval. injection Hval as <- <-.
  apply Forall_forall.
  exact (validate_pillar_rules_unchecked_pillars _ _ _ _ _ _ Hrun).
Defined.

(** ** The indicator-code check *)

Lemma prefix_split0 s : String.prefix (DataValidator.split0 s) s = true.
Proof.
  induction s as [|c s IH]; simpl; [done|].
  destruct (Ascii.eqb c "_"); simpl; [done|].
  by destruct (ascii_dec c c).
Qed.

Lemma pillar_rules_functional name r r' :
  (name, r) ∈ DataValidator.PILLAR_RULES ->
  (name, r') ∈ DataValidator.PILLAR_RULES -> r = r'.
Proof.
  unfold DataValidator.PILLAR_RULES. rewrite !elem_of_cons, !elem_of_nil.
  intros [H|[H|[H|[H|[]]]]] [H'|[H'|[H'|[H'|[]]]]]; congruence.
Qed.

(** C5, as stated, fails: ACCESS_RATE has the leading segment ACCESS, which
    is the leading segment of no indicator registered for ACCESS (ACC,
    MOBILE, BANK), and the code is accepted. *)
Lemma validate_pillar_rules_prefix_counterexample :
  DataValidator.split0 "ACCESS_RATE" = "ACCESS"
  /\ (exists r, ("ACCESS", r) ∈ DataValidator.PILLAR_RULES
        /\ DataValidator.split0 <$> DataValidator.valid_indicators r
           = ["ACC"; "MOBILE"; "BANK"])
  /\ exists h',
       DataValidator.validate_pillar_rules Sample.validator 0%nat
         (Sample.heap [Sample.access_rate]) = (Return (true, []), h').
Proof.
  split; [reflexivity|]. split.
  - eexists. split; [by left|reflexivity].
  - eexists. vm_compute. reflexivity.
Qed.

(** C5, amended.  Whenever [validate_pillar_rules] returns, for every pillar
    with registered rules an observation's indicator code is accepted
    exactly when it starts with the leading segment (the text before the
    first underscore) of at least one indicator registered for the pillar;
    the codes failing this are reported as one set per pillar, and only when
    there are any.  Every code whose leading segment equals the leading
    segment of a registered indicator is accepted. *)
Theorem validate_pillar_rules_indicator_check self l h ok errors h' name r :
  DataValidator.validate_pillar_rules self l h = (Return (ok, errors), h') ->
  (name, r) ∈ DataValidator.PILLAR_RULES ->
  (forall codes,
     Unexpected_indicator_codes name codes ∈ errors <->
     codes <> ∅
     /\ forall code,
          code ∈ codes <->
          exists row, row ∈ rows (frames h !!! l)
            /\ observation_of_pillar name row
            /\ cell_get (frames h !!! l) row "indicator_code" indicator_code (Some "")
               = Some code
            /\ ~ accepted r code)
  /\ (forall code valid_ind,
        valid_ind ∈ DataValidator.valid_indicators r ->
        DataValidator.split0 code = DataValidator.split0 valid_ind ->
        accepted r code).
Proof.
  intros (-> & _ & _)%validate_pillar_rules_errors Hitem.
  set (df := frames h !!! l). split.
  - assert (forall code,
      code ∈ pd.set_of (DataValidator.unexpected_codes r
                          (pillar_obs_of name (observations_of df))) <->
      exists row, row ∈ rows df /\ observation_of_pillar name row
        /\ cell_get df row "indicator_code" indicator_code (Some "") = Some code
        /\ ~ accepted r code) as Hcodes.
    { intros code. unfold pd.set_of.
      rewrite elem_of_list_to_set, elem_of_unexpected_codes. split.
      - intros (row & [Hrow Hp]%elem_of_pillar_obs & Hcell & Hacc). by exists row.
      - intros (row & Hrow & Hp & Hcell & Hacc). exists row.
        split; [by apply elem_of_pillar_obs|done]. }
    intros codes. rewrite list_elem_of_bind. split.
    + intros ([name' r'] & He & Hitem').
      apply elem_of_pillar_errors in He as [_ He]. cbv zeta in He.
      destruct He as [[Hne [= <- ->]]|(_ & _ & [=])].
      assert (r' = r) as -> by exact (pillar_rules_functional _ _ _ Hitem' Hitem).
      split; [|exact Hcodes].
      intros Hempty.
      destruct (DataValidator.unexpected_codes r _) as [|c cs] eqn:E; [done|].
      unfold pd.set_of in Hempty. set_solver.
    + intros [Hne Hspec]. exists (name, r). split; [|done].
      apply elem_of_pillar_errors.
      assert (codes = pd.set_of (DataValidator.unexpected_codes r
                (pillar_obs_of name (observations_of df)))) as ->.
      { apply set_eq. intros code. by rewrite Hspec, Hcodes. }
      destruct (DataValidator.unexpected_codes r _) as [|c cs] eqn:E; [done|].
      assert (c ∈ DataValidator.unexpected_codes r
                    (pillar_obs_of name (observations_of df))) as Hc
        by (rewrite E; by left).
      apply elem_of_unexpected_codes in Hc as (row & Hrow & _).
      split.
      * intros Hrows. rewrite Hrows in Hrow. by apply elem_of_nil in Hrow.
      * cbv zeta. left. by rewrite E.
  - intros code valid_ind Hin Hseg. exists valid_ind. split; [done|].
    unfold DataValidator.startswith. rewrite <- Hseg. apply prefix_split0.
Qed.

Lemma validate_pillar_rules_indicator_check_witness :
  exists r, ("GENDER", r) ∈ DataValidator.PILLAR_RULES
  /\ (forall codes,
        Unexpected_indicator_codes "GENDER" codes
        ∈ [Pillar_invalid_value_types "USAGE" {["ratio"]}
             ["absolute"; "currency"; "percentage"];
           Unexpected_indicator_codes "GENDER" {["WOMEN_SHARE"]}] <->
        codes <> ∅
        /\ forall code,
             code ∈ codes <->
             exists row, row ∈ rows Sample.mixed
               /\ observation_of_pillar "GENDER" row
               /\ cell_get Sample.mixed row "indicator_code" indicator_code (Some "")
                  = Some code
               /\ ~ accepted r code)
  /\ (forall code valid_ind,
        valid_ind ∈ DataValidator.valid_indicators r ->
        DataValidator.split0 code = DataValidator.split0 valid_ind ->
        accepted r code).
Proof.
  destruct (DataValidator.validate_pillar_rules Sample.validator 0%nat
              (Sample.heap [Sample.mixed])) as [o h'] eqn:Hrun.
  pose proof Hrun as Hval. vm_compute in Hval. injection Hval as <- <-.
  eexists. split; [do 2 apply list_elem_of_further; apply list_elem_of_here|].
  apply (validate_pillar_rules_indicator_check _ _ _ _ _ _ _ _ Hrun).
  do 2 apply list_elem_of_further. apply list_elem_of_here.
Defined.

(** ** [validate_schema] *)

(** C6, as stated, fails: [pd.DataFrame()] is empty and lacks every required
    column, and two errors are returned. *)
Lemma validate_schema_empty_counterexample :
  rows pd_DataFrame = []
  /\ DataValidator.validate_schema Sample.validator 0%nat (Sample.heap [pd_DataFrame])
     = (Return (false,
                [Missing_required_columns (pd.set_of DataValidator.REQUIRED_COLUMNS);
                 DataFrame_is_empty]),
        Sample.heap [pd_DataFrame]).
Proof. split; [reflexivity|]. vm_compute. reflexivity. Qed.

(** C6, amended.  For every table without rows [validate_schema] returns
    invalid at once: the remaining checks are skipped, nothing is printed and
    nothing is logged.  The errors are 'DataFrame is empty', preceded by the
    error naming the missing required columns when there are any; so there
    is a single error exactly when all required columns are present. *)
Theorem validate_schema_empty_table self l h :
  rows (frames h !!! l) = [] ->
  let missing_cols :=
    pd.set_of DataValidator.REQUIRED_COLUMNS ∖ pd.set_of (columns (frames h !!! l)) in
  exists errors,
    DataValidator.validate_schema self l h = (Return (false, errors), h)
    /\ ((missing_cols = ∅ /\ errors = [DataFrame_is_empty])
        \/ (missing_cols <> ∅
            /\ errors = [Missing_required_columns missing_cols; DataFrame_is_empty])).
Proof.
  intros Hrows missing_cols. unfold DataValidator.validate_schema.
  step load_run. cbv zeta. fold missing_cols.
  unfold pd.len at 1. rewrite Hrows.
  change (Z.of_nat (length (@nil Row)) =? 0) with true. norm. rewrite ret_run.
  eexists. split; [reflexivity|].
  unfold DataValidator.append_if, DataValidator.nonempty.
  destruct (decide (missing_cols = ∅)) as [He|Hne].
  - left. split; [done|]. rewrite bool_decide_eq_false_2; [done|]. by intros ?.
  - right. split; [done|]. by rewrite bool_decide_eq_true_2.
Qed.

Lemma validate_schema_empty_table_witness :
  exists errors,
    DataValidator.validate_schema Sample.validator 0%nat
      (Sample.heap [mkFrame Sample.observation_columns []])
    = (Return (false, errors), Sample.heap [mkFrame Sample.observation_columns []])
    /\ errors = [DataFrame_is_empty].
Proof.
  destruct (validate_schema_empty_table Sample.validator 0%nat
              (Sample.heap [mkFrame Sample.observation_columns []]))
    as (errors & Hrun & [[_ ->]|[Hne _]]); [reflexivity | by eexists |].
  exfalso. apply Hne. vm_compute. reflexivity.
Defined.

(** C4 fails on the code: a table with rows that lacks the column
    [record_type] makes [validate_schema] raise [KeyError], after the error
    naming the missing column has been built and before anything is
    returned. *)
Theorem validate_schema_missing_record_type_raises :
  pd.set_of DataValidator.REQUIRED_COLUMNS ∖ pd.set_of (columns Sample.no_record_type)
    = {["record_type"]}
  /\ DataValidator.validate_schema Sample.validator 0%nat
       (Sample.heap [Sample.no_record_type])
     = (Raise (KeyError "record_type"), Sample.heap [Sample.no_record_type]).
Proof. split; vm_compute; reflexivity. Qed.

(** The same for every table with rows: a missing [record_type] column is
    never reported, the validator raises. *)
Lemma validate_schema_without_record_type self l h :
  rows (frames h !!! l) <> [] ->
  pd.has_column "record_type" (frames h !!! l) = false ->
  DataValidator.validate_schema self l h = (Raise (KeyError "record_type"), h).
Proof.
  intros Hrows Hrt. unfold DataValidator.validate_schema.
  step load_run. cbv zeta.
  assert ((pd.len (frames h !!! l) =? 0) = false) as ->.
  { apply Z.eqb_neq. unfold pd.len. destruct (rows _); [done|simpl; lia]. }
  by rewrite bind_run, getitem_raise.
Qed.

(** ** [validate_record_types] *)

Lemma report_ids_run bad make errors h :
  pd.has_column "record_id" bad = true ->
  exists errors',
    DataValidator.report_ids bad make errors h = (Return errors', h).
Proof.
  intros Hid. unfold DataValidator.report_ids.
  destruct (0 <? pd.len bad); [|by eexists].
  step @getitem_run; [|exact Hid]. by eexists.
Qed.

Lemma has_required_column c df :
  forallb (fun c => pd.has_column c df) DataValidator.REQUIRED_COLUMNS = true ->
  c ∈ DataValidator.REQUIRED_COLUMNS -> pd.has_column c df = true.
Proof.
  intros Hall Hc. rewrite forallb_forall in Hall. apply Hall. by apply list_elem_of_In.
Qed.

Lemma filter_nonempty {A} (f : A -> bool) (l : list A) x :
  x ∈ l -> f x = true -> (0 <? Z.of_nat (length (List.filter f l))) = true.
Proof.
  intros Hx Hf. apply Z.ltb_lt.
  assert (x ∈ List.filter f l) as Hin by (by apply elem_of_filter).
  destruct (List.filter f l); [by apply elem_of_nil in Hin|simpl; lia].
Qed.

(** C10.  For every table with rows that has the nine required columns,
    [validate_record_types] raises [KeyError] instead of returning when the
    table lacks the column [value_text] and has an observation, or lacks the
    column [category] and has an event.  The key is [value_numeric],
    [value_text] or [category], none of which is a required column. *)
Theorem validate_record_types_raises self l h :
  let df := frames h !!! l in
  rows df <> [] ->
  forallb (fun c => pd.has_column c df) DataValidator.REQUIRED_COLUMNS = true ->
  (pd.has_column "value_text" df = false
   /\ exists row, row ∈ rows df /\ record_type row = Some "observation")
  \/ (pd.has_column "category" df = false
      /\ exists row, row ∈ rows df /\ record_type row = Some "event") ->
  exists key h',
    DataValidator.validate_record_types self l h = (Raise (KeyError key), h')
    /\ key ∈ ["value_numeric"; "value_text"; "category"]
    /\ key ∉ DataValidator.REQUIRED_COLUMNS.
Proof.
  intros df _ Hreq Hcase.
  assert (pd.has_column "record_type" df = true) as Hrt
    by (apply has_required_column; [done|set_solver]).
  assert (pd.has_column "pillar" df = true) as Hp
    by (apply has_required_column; [done|set_solver]).
  assert (pd.has_column "record_id" df = true) as Hid
    by (apply has_required_column; [done|set_solver]).
  unfold DataValidator.validate_record_types.
  step load_run. fold df. cbv zeta.
  step @getitem_run; [|exact Hrt]. rewrite take_mask_fmap2.
  step @getitem_run; [|exact Hp]. rewrite take_mask_fmap2. norm.
  rewrite bind_run.
  match goal with |- context [DataValidator.report_ids ?bad ?make ?errs h] =>
    destruct (report_ids_run bad make errs h Hid) as (errors1 & ->)
  end. norm.
  destruct (pd.has_column "value_numeric" df) eqn:Hvn; cycle 1.
  { rewrite bind_run, getitem_raise by exact Hvn.
    exists "value_numeric", h. split; [done|]. split; [set_solver|].
    unfold DataValidator.REQUIRED_COLUMNS. set_solver. }
  step @getitem_run; [|exact Hvn].
  destruct (pd.has_column "value_text" df) eqn:Hvt; cycle 1.
  { rewrite bind_run, getitem_raise by exact Hvt.
    exists "value_text", h. split; [done|]. split; [set_solver|].
    unfold DataValidator.REQUIRED_COLUMNS. set_solver. }
  destruct Hcase as [[Hcontra _]|[Hcat (row & Hrow & Hevent)]]; [done|].
  step @getitem_run; [|exact Hvt].
  rewrite bind_run.
  match goal with |- context [DataValidator.report_ids ?bad ?make ?errs h] =>
    destruct (report_ids_run bad make errs h Hid) as (errors2 & ->)
  end. norm.
  step @getitem_run; [|exact Hrt]. rewrite take_mask_fmap2.
  unfold pd.len at 1. norm.
  rewrite (filter_nonempty _ _ row Hrow)
    by (rewrite Hevent; by apply bool_decide_eq_true).
  rewrite !bind_run, getitem_raise by exact Hcat.
  exists "category", h. split; [done|]. split; [set_solver|].
  unfold DataValidator.REQUIRED_COLUMNS. set_solver.
Qed.

Lemma validate_record_types_raises_witness :
  exists key h',
    DataValidator.validate_record_types Sample.validator 0%nat
      (Sample.heap [Sample.required_only]) = (Raise (KeyError key), h')
    /\ key ∈ ["value_numeric"; "value_text"; "category"]
    /\ key ∉ DataValidator.REQUIRED_COLUMNS.
Proof.
  apply validate_record_types_raises.
  - discriminate.
  - reflexivity.
  - left. split; [reflexivity|]. eexists. split; [apply list_elem_of_here|reflexivity].
Defined.

(** ** Frames are never updated in place *)

Section Keeps.

Context (n : nat).

Lemma keeps_ret {A} (a : A) (Q : A -> Prop) : Q a -> keeps n (ret a) Q.
Proof. by intros HQ h Hn. Qed.

Lemma keeps_raise {A} e (Q : A -> Prop) : keeps n (raise e) Q.
Proof. by intros h Hn. Qed.

Lemma keeps_weaken {A} (m : M A) (P Q : A -> Prop) :
  keeps n m P -> (forall a, P a -> Q a) -> keeps n m Q.
Proof.
  intros Hm HPQ h Hn. destruct (Hm h Hn) as (? & ? & HP).
  repeat split; [done..|]. destruct (m h).1; auto.
Qed.

Lemma keeps_bind {A B} (m : M A) (k : A -> M B) (P : A -> Prop) (Q : B -> Prop) :
  keeps n m P -> (forall a, P a -> keeps n (k a) Q) -> keeps n (bind m k) Q.
Proof.
  intros Hm Hk h Hn. rewrite bind_run.
  destruct (Hm h Hn) as (Ht & Hl & HP). destruct (m h) as [[a|e] h1]; simpl in *.
  - destruct (Hk a HP h1 Hl) as (Ht' & Hl' & HQ). by rewrite Ht', Ht.
  - done.
Qed.

Lemma keeps_try_except {A} (m : M A) handler (Q : A -> Prop) :
  keeps n m Q -> (forall e, keeps n (handler e) Q) -> keeps n (try_except m handler) Q.
Proof.
  intros Hm Hh h Hn. rewrite try_except_run.
  destruct (Hm h Hn) as (Ht & Hl & HP). destruct (m h) as [[a|e] h1]; simpl in *.
  - done.
  - destruct (Hh e h1 Hl) as (Ht' & Hl' & HQ). by rewrite Ht', Ht.
Qed.

Lemma keeps_emit e : keeps n (emit e) any.
Proof. by intros h Hn. Qed.

Lemma keeps_load l : keeps n (load l) any.
Proof. by intros h Hn. Qed.

Lemma keeps_log_append e : keeps n (log_append e) any.
Proof. by intros h Hn. Qed.

Lemma keeps_get_validation_log : keeps n get_validation_log any.
Proof. by intros h Hn. Qed.

(** A new frame lies beyond the first [n]. *)
Lemma keeps_alloc df : keeps n (alloc df) (fun l => (n <= l)%nat).
Proof.
  intros h Hn. simpl. rewrite length_app. simpl.
  split; [|lia]. by rewrite take_app_le.
Qed.

(** An update of a frame beyond the first [n] keeps them. *)
Lemma keeps_modify l f : (n <= l)%nat -> keeps n (modify l f) any.
Proof.
  intros Hl h Hn. simpl. rewrite length_alter.
  split; [|done]. by apply take_alter_ge.
Qed.

Lemma keeps_getitem {A} df c (field : Row -> A) : keeps n (getitem df c field) any.
Proof. unfold getitem. destruct (pd.has_column c df); by intros h Hn. Qed.

Lemma keeps_getitems df cols : keeps n (getitems df cols) any.
Proof. unfold getitems. destruct (List.filter _ cols); by intros h Hn. Qed.

Lemma keeps_sort_values {K} df c (leb : K -> K -> bool) key :
  keeps n (sort_values df c leb key) any.
Proof. unfold sort_values. destruct (pd.has_column c df); by intros h Hn. Qed.

Lemma keeps_iloc df i : keeps n (iloc df i) any.
Proof. unfold iloc. destruct (rows df !! i); by intros h Hn. Qed.

Lemma keeps_cell {A} df row c (field : Row -> A) : keeps n (cell df row c field) any.
Proof. unfold cell. destruct (pd.has_column c df); by intros h Hn. Qed.

Lemma keeps_for_each {A S} (l : list A) (body : S -> A -> M S) s :
  (forall s x, keeps n (body s x) any) -> keeps n (for_each l body s) any.
Proof.
  intros Hbody. revert s. induction l as [|x l IH]; intros s; simpl.
  - by apply keeps_ret.
  - eapply keeps_bind; [apply Hbody|]. intros s' _. apply IH.
Qed.

End Keeps.

(** A run that keeps the frames of every heap preserves the tables. *)
Lemma keeps_preserves_tables {A} (m : M A) :
  (forall n, keeps n m any) -> preserves_tables m.
Proof.
  intros Hm h l df Hl.
  destruct (Hm (length (frames h)) h) as (Ht & _); [done|].
  rewrite firstn_all in Ht.
  rewrite <- (lookup_take_lt _ (length (frames h))) by (by eapply lookup_lt_Some).
  by rewrite Ht.
Qed.

(** The rules above, applied along the structure of a method; the rules of
    the methods themselves are collected in a hint database. *)
Create HintDb keeps.

Ltac keeps_step :=
  lazymatch goal with
  | |- keeps _ (bind (alloc _) _) _ =>
      eapply keeps_bind; [apply keeps_alloc|]; intros ? ?
  | |- keeps _ (bind _ _) _ => eapply (keeps_bind _ _ _ any); [|intros ? _]
  | |- keeps _ (try_except _ _) _ => apply keeps_try_except; [|intros ?]
  | |- keeps _ (ret _) _ => apply keeps_ret; exact I
  | |- keeps _ (raise _) _ => apply keeps_raise
  | |- keeps _ (emit _) _ => apply keeps_emit
  | |- keeps _ (load _) _ => apply keeps_load
  | |- keeps _ (log_append _) _ => apply keeps_log_append
  | |- keeps _ get_validation_log _ => apply keeps_get_validation_log
  | |- keeps _ (modify _ _) _ => by apply keeps_modify
  | |- keeps _ (getitem _ _ _) _ => apply keeps_getitem
  | |- keeps _ (getitems _ _) _ => apply keeps_getitems
  | |- keeps _ (sort_values _ _ _ _) _ => apply keeps_sort_values
  | |- keeps _ (iloc _ _) _ => apply keeps_iloc
  | |- keeps _ (cell _ _ _ _) _ => apply keeps_cell
  | |- keeps _ (for_each _ _ _) _ => apply keeps_for_each; intros ? ?
  | |- keeps _ (if ?b then _ else _) _ => destruct b
  | |- keeps _ (match ?x with _ => _ end) _ => destruct x
  | |- keeps _ (let _ := _ in _) _ => cbv zeta
  | |- keeps _ _ _ => solve [auto with keeps]
  end.

Ltac keeps_auto := repeat keeps_step.

Lemma keeps_init n observations events :
  keeps n (FinancialInclusionAnalyzer.init observations events) any.
Proof. unfold FinancialInclusionAnalyzer.init. keeps_auto. Qed.

Lemma keeps_calculate_growth_rate n self code :
  keeps n (FinancialInclusionAnalyzer.calculate_growth_rate self code) any.
Proof. unfold FinancialInclusionAnalyzer.calculate_growth_rate. keeps_auto. Qed.

Lemma keeps_trend_step n growth threshold changes i :
  keeps n (FinancialInclusionAnalyzer.trend_step growth threshold changes i) any.
Proof. unfold FinancialInclusionAnalyzer.trend_step. keeps_auto. Qed.

#[local] Hint Resolve keeps_calculate_growth_rate keeps_trend_step : keeps.

Lemma keeps_identify_trend_changes n self code threshold :
  keeps n (FinancialInclusionAnalyzer.identify_trend_changes self code threshold) any.
Proof. unfold FinancialInclusionAnalyzer.identify_trend_changes. keeps_auto. Qed.

Lemma keeps_analyze_gender_gap n self :
  keeps n (FinancialInclusionAnalyzer.analyze_gender_gap self) any.
Proof. unfold FinancialInclusionAnalyzer.analyze_gender_gap. keeps_auto. Qed.

Lemma keeps_compare_pillars n self :
  keeps n (FinancialInclusionAnalyzer.compare_pillars self) any.
Proof. unfold FinancialInclusionAnalyzer.compare_pillars. keeps_auto. Qed.

Lemma keeps_find_event_correlations n self code lag :
  keeps n (FinancialInclusionAnalyzer.find_event_correlations self code lag) any.
Proof. unfold FinancialInclusionAnalyzer.find_event_correlations. keeps_auto. Qed.

Lemma keeps_percentage n a b : keeps n (FinancialInclusionAnalyzer.percentage a b) any.
Proof. unfold FinancialInclusionAnalyzer.percentage. keeps_auto. Qed.

#[local] Hint Resolve keeps_percentage : keeps.

Lemma keeps_get_key_insights n self :
  keeps n (FinancialInclusionAnalyzer.get_key_insights self) any.
Proof. unfold FinancialInclusionAnalyzer.get_key_insights. keeps_auto. Qed.

Lemma keeps_report n self name ok failed is_valid errors :
  keeps n (DataValidator.report self name ok failed is_valid errors) any.
Proof. unfold DataValidator.report. keeps_auto. Qed.

Lemma keeps_report_ids n bad make errors :
  keeps n (DataValidator.report_ids bad make errors) any.
Proof. unfold DataValidator.report_ids. keeps_auto. Qed.

Lemma keeps_check_pillar n obs_df errors item :
  keeps n (DataValidator.check_pillar obs_df errors item) any.
Proof. unfold DataValidator.check_pillar. keeps_auto. Qed.

#[local] Hint Resolve keeps_report keeps_report_ids keeps_check_pillar : keeps.

Lemma keeps_validate_schema n self df :
  keeps n (DataValidator.validate_schema self df) any.
Proof. unfold DataValidator.validate_schema. keeps_auto. Qed.

Lemma keeps_validate_pillar_rules n self df :
  keeps n (DataValidator.validate_pillar_rules self df) any.
Proof. unfold DataValidator.validate_pillar_rules. keeps_auto. Qed.

Lemma keeps_validate_record_types n self df :
  keeps n (DataValidator.validate_record_types self df) any.
Proof. unfold DataValidator.validate_record_types. keeps_auto. Qed.

#[local] Hint Resolve keeps_validate_schema keeps_validate_pillar_rules
  keeps_validate_record_types : keeps.

Lemma keeps_validate_all n self df :
  keeps n (DataValidator.validate_all self df) any.
Proof. unfold DataValidator.validate_all. keeps_auto. Qed.

(** C9.  No method of the validator or of the analyzer changes a table it
    is given: after [validate_schema], [validate_pillar_rules],
    [validate_record_types], [validate_all], the analyzer's constructor and
    each of its operations, whether they return or raise, every frame that
    existed before the call is the same frame with the same content.  (The
    one in-place update, of [growth] in [calculate_growth_rate], is on a
    copy made by the method.) *)
Theorem methods_preserve_tables (validator : DataValidator.t)
    (self : FinancialInclusionAnalyzer.t) (df : loc) (observations events : option loc)
    (code : string) (threshold : float) (lag : Z) :
  preserves_tables (DataValidator.validate_schema validator df)
  /\ preserves_tables (DataValidator.validate_pillar_rules validator df)
  /\ preserves_tables (DataValidator.validate_record_types validator df)
  /\ preserves_tables (DataValidator.validate_all validator df)
  /\ preserves_tables (FinancialInclusionAnalyzer.init observations events)
  /\ preserves_tables (FinancialInclusionAnalyzer.calculate_growth_rate self code)
  /\ preserves_tables (FinancialInclusionAnalyzer.identify_trend_changes self code threshold)
  /\ preserves_tables (FinancialInclusionAnalyzer.analyze_gender_gap self)
  /\ preserves_tables (FinancialInclusionAnalyzer.compare_pillars self)
  /\ preserves_tables (FinancialInclusionAnalyzer.find_event_correlations self code lag)
  /\ preserves_tables (FinancialInclusionAnalyzer.get_key_insights self).
Proof.
  repeat split; apply keeps_preserves_tables; intros n.
  - apply keeps_validate_schema.
  - apply keeps_validate_pillar_rules.
  - apply keeps_validate_record_types.
  - apply keeps_validate_all.
  - apply keeps_init.
  - apply keeps_calculate_growth_rate.
  - apply keeps_identify_trend_changes.
  - apply keeps_analyze_gender_gap.
  - apply keeps_compare_pillars.
  - apply keeps_find_event_correlations.
  - apply keeps_get_key_insights.
Qed.

(** The property has content: an update of a table in place breaks it. *)
Lemma modify_in_place_is_seen :
  ~ preserves_tables (modify 0%nat (pd.with_column "growth_pp" set_growth_pp [])).
Proof.
  intros H. specialize (H (Sample.heap [Sample.ownership]) 0%nat Sample.ownership eq_refl).
  discriminate H.
Qed.

(** ** The constructor *)

(** [constructed] is what [__init__] establishes. *)
Lemma init_constructed o events h self h' :
  FinancialInclusionAnalyzer.init (Some o) events h = (Return self, h') ->
  constructed self h'.
Proof.
  unfold FinancialInclusionAnalyzer.init. step load_run.
  destruct (pd.len (frames h !!! o) =? 0) eqn:Hlen; [done|].
  destruct (bool_decide _) eqn:Hmissing; [done|].
  rewrite bind_run. unfold emit at 1. norm. rewrite ret_run. intros [= <- <-].
  unfold constructed. simpl.
  apply bool_decide_eq_false in Hmissing. apply dec_stable in Hmissing.
  unfold pd.set_of, FinancialInclusionAnalyzer.required_cols in Hmissing.
  split.
  - intros Hrows. unfold pd.len in Hlen. by rewrite Hrows in Hlen.
  - unfold pd.has_column. rewrite !bool_decide_eq_true.
    repeat split; set_solver.
Qed.

(** The sample analyzers are what the constructor returns. *)
Lemma init_sample :
  (FinancialInclusionAnalyzer.init (Some 0%nat) None (Sample.heap [Sample.ownership])).1
    = Return Sample.analyzer
  /\ (FinancialInclusionAnalyzer.init (Some 0%nat) (Some 1%nat)
        (Sample.heap [Sample.mobile_money; Sample.launches])).1
     = Return Sample.analyzer_with_events.
Proof. split; vm_compute; reflexivity. Qed.

(** * Further properties *)

(** ** What the analyzer lets escape *)

Lemma raises_only_try_except {A} (m : M A) handler :
  (forall e, raises_only_AnalysisError (handler e)) ->
  raises_only_AnalysisError (try_except m handler).
Proof.
  intros Hh h. rewrite try_except_run. destruct (m h) as [[a|e] h1]; [done|].
  apply Hh.
Qed.

Lemma raises_only_raise {A} message :
  raises_only_AnalysisError (raise (A:=A) (AnalysisError message)).
Proof. intros h. by eexists. Qed.

(** The operations of the analyzer that run under [try] turn every failure
    into an [AnalysisError]: no [KeyError] or [IndexError] of pandas reaches
    the caller of [calculate_growth_rate], [identify_trend_changes],
    [analyze_gender_gap], [compare_pillars] or [find_event_correlations],
    whatever the tables hold. *)
Theorem analyzer_raises_only_AnalysisError self code threshold lag :
  raises_only_AnalysisError (FinancialInclusionAnalyzer.calculate_growth_rate self code)
  /\ raises_only_AnalysisError
       (FinancialInclusionAnalyzer.identify_trend_changes self code threshold)
  /\ raises_only_AnalysisError (FinancialInclusionAnalyzer.analyze_gender_gap self)
  /\ raises_only_AnalysisError (FinancialInclusionAnalyzer.compare_pillars self)
  /\ raises_only_AnalysisError
       (FinancialInclusionAnalyzer.find_event_correlations self code lag).
Proof.
  repeat split.
  - unfold FinancialInclusionAnalyzer.calculate_growth_rate.
    destruct (String.eqb code ""); [by intros h|].
    apply raises_only_try_except. intros [| | | |]; intros; apply raises_only_raise.
  - apply raises_only_try_except. intros; apply raises_only_raise.
  - apply raises_only_try_except. intros; apply raises_only_raise.
  - apply raises_only_try_except. intros; apply raises_only_raise.
  - unfold FinancialInclusionAnalyzer.find_event_correlations. cbv zeta.
    destruct (FinancialInclusionAnalyzer.events self) as [ev|]; [|by intros h].
    intros h. rewrite bind_run, load_run. norm.
    destruct (pd.len (frames h !!! ev) =? 0); [done|].
    apply raises_only_try_except. intros; apply raises_only_raise.
Qed.

(** [get_key_insights] has no [try]: on observations without the column
    [pillar], which the constructor does not ask for, its [KeyError]
    reaches the caller. *)
Lemma get_key_insights_lets_KeyError_escape :
  constructed Sample.analyzer
    (Sample.heap [mkFrame ["indicator_code"; "year"; "value_numeric"]
                    (rows Sample.ownership)])
  /\ (FinancialInclusionAnalyzer.get_key_insights Sample.analyzer
        (Sample.heap [mkFrame ["indicator_code"; "year"; "value_numeric"]
                        (rows Sample.ownership)])).1
     = Raise (KeyError "pillar").
Proof. split; [repeat split; [discriminate | reflexivity ..] | reflexivity]. Qed.

(** ** The constructor, in full *)

(** [__init__] returns an analyzer of the two tables exactly when the
    observations are given, have a row and have the columns
    [indicator_code], [year] and [value_numeric]; otherwise it raises
    [AnalysisError] and leaves the heap as it was.  Nothing is asked of the
    events. *)
Theorem init_outcome observations events h :
  match FinancialInclusionAnalyzer.init observations events h with
  | (Return self, h') =>
      observations = Some (FinancialInclusionAnalyzer.observations self)
      /\ FinancialInclusionAnalyzer.events self = events
      /\ constructed self h'
      /\ frames h' = frames h
  | (Raise e, h') =>
      (exists message, e = AnalysisError message)
      /\ h' = h
      /\ (observations = None
          \/ exists o, observations = Some o
               /\ (rows (frames h !!! o) = []
                   \/ exists c, c ∈ FinancialInclusionAnalyzer.required_cols
                        /\ pd.has_column c (frames h !!! o) = false))
  end.
Proof.
  destruct observations as [o|]; [|simpl; split; [by eexists|by auto]].
  destruct (FinancialInclusionAnalyzer.init (Some o) events h) as [[self|e] h'] eqn:Hrun.
  - cbv beta iota. split_and!; [| |by eapply init_constructed|];
      unfold FinancialInclusionAnalyzer.init in Hrun;
      rewrite bind_run, load_run in Hrun; cbv beta iota zeta in Hrun;
      destruct (pd.len (frames h !!! o) =? 0); try done;
      destruct (bool_decide _); try done;
      by injection Hrun as <- <-.
  - cbv beta iota. unfold FinancialInclusionAnalyzer.init in Hrun.
    rewrite bind_run, load_run in Hrun. cbv beta iota zeta in Hrun.
    destruct (pd.len (frames h !!! o) =? 0) eqn:Hlen.
    + injection Hrun as <- <-. split_and!; [by eexists|done|].
      right. exists o. split; [done|]. left.
      apply Z.eqb_eq in Hlen. unfold pd.len in Hlen.
      destruct (rows (frames h !!! o)); [done|simpl in Hlen; lia].
    + destruct (bool_decide _) eqn:Hmissing; [|done].
      injection Hrun as <- <-. split_and!; [by eexists|done|].
      right. exists o. split; [done|]. right.
      apply bool_decide_eq_true in Hmissing.
      apply set_choose_L in Hmissing as [c Hc].
      apply elem_of_difference in Hc as [Hreq Hcol]. unfold pd.set_of in *.
      apply elem_of_list_to_set in Hreq.
      exists c. split; [done|]. apply bool_decide_eq_false.
      intros Hin. apply Hcol. by apply elem_of_list_to_set.
Qed.

(** ** The growth series, row by row *)

Lemma lookup_shift_0 s : s <> [] -> pd.shift s !! 0%nat = Some nan.
Proof. destruct s; [done|]. done. Qed.

Lemma lookup_shift_S s j x : s !! j = Some x -> (S j < length s)%nat ->
  pd.shift s !! S j = Some x.
Proof.
  intros Hj Hlt. unfold pd.shift. rewrite lookup_take_lt by done. done.
Qed.

Lemma fmap_assign_value_numeric set values l :
  (forall v r, value_numeric (set v r) = value_numeric r) ->
  length values = length l ->
  value_numeric <$> pd.assign set values l = value_numeric <$> l.
Proof.
  intros Hset. unfold pd.assign. revert values.
  induction l as [|r l IH]; intros [|v values] Hlen; simpl in *; try done.
  rewrite Hset. f_equal. apply IH. lia.
Qed.

Lemma lookup_assign set values l i r v :
  l !! i = Some r -> values !! i = Some v ->
  pd.assign set values l !! i = Some (set v r).
Proof.
  intros Hr Hv. unfold pd.assign. rewrite lookup_zip_with, Hr. simpl. by rewrite Hv.
Qed.

Lemma sub_nan_isna x : Float.isna (x - nan) = true.
Proof.
  unfold Float.isna.
  destruct (Float.notna (x - nan)) eqn:E; [|unfold Float.notna in E;
    by apply negb_false_iff in E].
  apply notna_iff in E. exfalso. apply E.
  rewrite sub_spec. destruct (Prim2SF x); reflexivity.
Qed.

Lemma pct_nan_isna x : Float.isna ((x / nan - 1) * 100) = true.
Proof.
  unfold Float.isna.
  destruct (Float.notna ((x / nan - 1) * 100)) eqn:E; [|unfold Float.notna in E;
    by apply negb_false_iff in E].
  apply notna_iff in E. exfalso. apply E.
  rewrite mul_spec, sub_spec, div_spec.
  assert (SF64div (Prim2SF x) (Prim2SF nan) = S754_nan) as ->
    by (destruct (Prim2SF x); reflexivity).
  reflexivity.
Qed.

(** The cells of the growth rows, position by position. *)
Lemma lookup_growth_rows data i d :
  data !! i = Some d ->
  exists r, growth_rows data !! i = Some r
    /\ year r = year d /\ value_numeric r = value_numeric d
    /\ match i with
       | O => Float.isna (growth_pp r) = true /\ Float.isna (growth_rate r) = true
       | S j => exists p, data !! j = Some p
           /\ growth_pp r = (value_numeric d - value_numeric p)%float
           /\ growth_rate r = ((value_numeric d / value_numeric p - 1) * 100)%float
       end.
Proof.
  intros Hd. unfold growth_rows.
  set (rate := (fun x => (x * 100)%float) <$> pd.pct_change (value_numeric <$> data)).
  rewrite fmap_assign_value_numeric;
    [|done|by unfold rate; rewrite length_fmap, length_pct_change, length_fmap].
  assert (data <> []) as Hne by (by intros ->).
  assert (i < length data)%nat as Hlt by (by eapply lookup_lt_Some).
  assert (exists prev, pd.shift (value_numeric <$> data) !! i = Some prev
            /\ match i with
               | O => prev = nan
               | S j => exists p, data !! j = Some p /\ prev = value_numeric p
               end) as (prev & Hprev & Hshape).
  { destruct i as [|j].
    - exists nan. split; [|done]. apply lookup_shift_0. by destruct data.
    - destruct (lookup_lt_is_Some_2 data j) as [p Hp]; [lia|].
      exists (value_numeric p). split; [|by exists p].
      apply lookup_shift_S; [by rewrite list_lookup_fmap, Hp|].
      by rewrite length_fmap. }
  assert (rate !! i = Some ((value_numeric d / prev - 1) * 100)%float) as Hrate.
  { unfold rate, pd.pct_change.
    rewrite list_lookup_fmap, lookup_zip_with, list_lookup_fmap, Hd. simpl.
    by rewrite Hprev. }
  assert (pd.diff (value_numeric <$> data) !! i
          = Some (value_numeric d - prev)%float) as Hdiff.
  { unfold pd.diff. rewrite lookup_zip_with, list_lookup_fmap, Hd. simpl.
    by rewrite Hprev. }
  exists (set_growth_pp (value_numeric d - prev)
            (set_growth_rate ((value_numeric d / prev - 1) * 100) d)).
  split; [by apply lookup_assign; [apply lookup_assign|]|].
  simpl. split; [done|]. split; [done|].
  destruct i as [|j].
  - subst prev. split; [apply sub_nan_isna | apply pct_nan_isna].
  - destruct Hshape as (p & Hp & ->). by exists p.
Qed.

(** For a code with two observations or more, [calculate_growth_rate]
    returns one row per observation, with the years and values of the
    observations.  The first row has missing growth cells.  Every later row
    has [growth_pp = v[t] - v[t-1]] from the row before it in the result,
    and [growth_rate = (v[t] / v[t-1] - 1) * 100] when neither of the two
    values is missing.  Nothing is said of the order of rows with equal
    years, nor of the percentage next to a missing value, which pandas
    before 3.0 computes from the last value before it. *)
Theorem calculate_growth_rate_rows self code h :
  let obs := frames h !!! FinancialInclusionAnalyzer.observations self in
  constructed self h ->
  code <> "" ->
  (2 <= length (matching code obs))%nat ->
  exists df h',
    FinancialInclusionAnalyzer.calculate_growth_rate self code h = (Return df, h')
    /\ length (rows df) = length (matching code obs)
    /\ point <$> rows df ≡ₚ point <$> matching code obs
    /\ (forall r, rows df !! 0%nat = Some r ->
          Float.isna (growth_pp r) = true /\ Float.isna (growth_rate r) = true)
    /\ (forall j p d, rows df !! j = Some p -> rows df !! S j = Some d ->
          growth_pp d = (value_numeric d - value_numeric p)%float
          /\ (Float.notna (value_numeric p) = true ->
              Float.notna (value_numeric d) = true ->
              growth_rate d
              = ((value_numeric d / value_numeric p - 1) * 100)%float)).
Proof.
  intros obs (_ & Hic & Hy & Hv) Hne Hlen.
  destruct (calculate_growth_rate_run self code h Hne Hic Hy Hv) as (h' & -> & _).
  fold obs. set (data := series_of code obs).
  assert (length data = length (matching code obs)) as Hdata
    by apply length_series_of.
  assert ((Z.of_nat (length data) <? 2) = false) as -> by (apply Z.ltb_ge; lia).
  eexists _, _. split; [reflexivity|]. cbn [rows].
  assert (forall i r, growth_rows data !! i = Some r ->
            exists d, data !! i = Some d
              /\ year r = year d /\ value_numeric r = value_numeric d
              /\ match i with
                 | O => Float.isna (growth_pp r) = true
                        /\ Float.isna (growth_rate r) = true
                 | S j => exists p, data !! j = Some p
                     /\ growth_pp r = (value_numeric d - value_numeric p)%float
                     /\ growth_rate r
                        = ((value_numeric d / value_numeric p - 1) * 100)%float
                 end) as Hrow.
  { intros i r Hr.
    destruct (lookup_lt_is_Some_2 data i) as [d Hd].
    { rewrite <- (length_growth_rows data). by eapply lookup_lt_Some. }
    destruct (lookup_growth_rows data i d Hd) as (r' & Hr' & Hfacts).
    rewrite Hr in Hr'. injection Hr' as <-. by exists d. }
  split; [by rewrite length_growth_rows|]. split; [|split].
  - assert (point <$> growth_rows data = point <$> data) as ->.
    { apply list_eq. intros i. rewrite !list_lookup_fmap.
      destruct (growth_rows data !! i) as [r|] eqn:Hr.
      - destruct (Hrow i r Hr) as (d & -> & Hyr & Hvr & _).
        simpl. unfold point. by rewrite Hyr, Hvr.
      - rewrite (lookup_ge_None_2 data i); [done|].
        rewrite <- (length_growth_rows data). by apply lookup_ge_None_1. }
    apply fmap_Permutation, sort_rows_perm.
  - intros r Hr. by destruct (Hrow 0%nat r Hr) as (d & _ & _ & _ & Hna).
  - intros j p d Hp Hd.
    destruct (Hrow j p Hp) as (p0 & Hp0 & _ & Hvp & _).
    destruct (Hrow (S j) d Hd) as (d0 & Hd0 & _ & Hvd & p1 & Hp1 & Hpp & Hrate).
    rewrite Hp0 in Hp1. injection Hp1 as <-.
    rewrite Hpp, Hrate, Hvp, Hvd. by split.
Qed.

Lemma calculate_growth_rate_rows_witness :
  exists df h',
    FinancialInclusionAnalyzer.calculate_growth_rate Sample.analyzer "GENDER_GAP"
      (Sample.heap [Sample.gap]) = (Return df, h')
    /\ length (rows df) = 4%nat.
Proof.
  destruct (calculate_growth_rate_rows Sample.analyzer "GENDER_GAP"
              (Sample.heap [Sample.gap])) as (df & h' & Hrun & Hlen & _).
  - repeat split; [discriminate | reflexivity ..].
  - discriminate.
  - vm_compute. lia.
  - by exists df, h'.
Defined.

(** ** The growth series is in ascending order of year *)

Lemma pairwise_lookup {A} (R : A -> A -> Prop) l i j x y :
  pairwise R l -> (i < j)%nat -> l !! i = Some x -> l !! j = Some y -> R x y.
Proof.
  revert i j. induction l as [|z l IH]; intros i j Hp Hij Hi Hj; [done|].
  destruct Hp as [Hall Hp]. destruct j as [|j]; [lia|]. destruct i as [|i].
  - injection Hi as ->. rewrite Forall_forall in Hall. apply Hall.
    by eapply list_elem_of_lookup_2.
  - apply (IH i j); [done|lia|done..].
Qed.

Lemma pairwise_app {A} (R : A -> A -> Prop) l1 l2 :
  pairwise R l1 -> pairwise R l2 ->
  (forall x y, x ∈ l1 -> y ∈ l2 -> R x y) ->
  pairwise R (l1 ++ l2).
Proof.
  intros H1 H2 H12. induction l1 as [|x l1 IH]; [done|].
  destruct H1 as [Hall H1]. simpl. split.
  - apply Forall_app. split; [done|]. apply Forall_forall. intros y Hy.
    apply H12; [by left|done].
  - apply IH; [done|]. intros x' y Hx' Hy. apply H12; [by right|done].
Qed.

Lemma pairwise_fmap {A B} (R : B -> B -> Prop) (f : A -> B) l :
  pairwise (fun x y => R (f x) (f y)) l -> pairwise R (f <$> l).
Proof.
  induction l as [|x l IH]; [done|]. intros [Hall Hp]. simpl. split; [|by apply IH].
  apply Forall_fmap. exact Hall.
Qed.

Lemma pairwise_impl {A} (R R' : A -> A -> Prop) l :
  pairwise R l -> (forall x y, x ∈ l -> y ∈ l -> R x y -> R' x y) -> pairwise R' l.
Proof.
  induction l as [|x l IH]; [done|]. intros [Hall Hp] Himpl. split.
  - rewrite Forall_forall in *. intros y Hy. apply Himpl; [by left|by right|by apply Hall].
  - apply IH; [done|]. intros x' y Hx' Hy. apply Himpl; by right.
Qed.

Lemma pairwise_insert_sorted x (l : list (Z * Row)) :
  pairwise (fun a b => a.1 <= b.1) l ->
  pairwise (fun a b => a.1 <= b.1) (pd.insert_sorted Z.leb x l).
Proof.
  induction l as [|y l IH]; intros Hp; simpl; [done|].
  destruct Hp as [Hall Hp]. destruct (Z.leb x.1 y.1) eqn:Hle.
  - apply Z.leb_le in Hle. simpl. split; [|done].
    constructor; [done|]. eapply Forall_impl; [exact Hall|]. simpl. lia.
  - apply Z.leb_gt in Hle. simpl. split; [|by apply IH].
    rewrite insert_sorted_perm. constructor; [lia|done].
Qed.

Lemma pairwise_insertion_sort (kl : list (Z * Row)) :
  pairwise (fun a b => a.1 <= b.1) (foldr (pd.insert_sorted Z.leb) [] kl).
Proof.
  induction kl as [|x kl IH]; simpl; [done|]. by apply pairwise_insert_sorted.
Qed.

Lemma pairwise_missing_years l :
  pairwise year_le (List.filter (fun r => pd.isna (year r)) l).
Proof.
  induction l as [|r l IH]; simpl; [done|].
  destruct (pd.isna (year r)) eqn:Hna; [|done]. simpl. split; [|done].
  apply Forall_forall. intros y [_ Hy]%elem_of_filter. unfold year_le.
  destruct (year y); [done|]. by destruct (year r).
Qed.

(** [sort_values('year')] leaves the rows in ascending order of year. *)
Lemma sort_rows_ascending l : pairwise year_le (pd.sort_rows Z.leb year l).
Proof.
  unfold pd.sort_rows.
  assert (forall x, x ∈ foldr (pd.insert_sorted Z.leb) [] (pd.keyed year l) ->
            year x.2 = Some x.1) as Hkeys.
  { assert (foldr (pd.insert_sorted Z.leb) [] (pd.keyed year l) ≡ₚ pd.keyed year l)
      as Hperm.
    { induction (pd.keyed year l) as [|x kl IH]; simpl; [done|].
      rewrite insert_sorted_perm. by constructor. }
    intros x Hx. rewrite Hperm in Hx. unfold pd.keyed in Hx.
    apply list_elem_of_omap in Hx as (r & _ & Hr).
    destruct (year r) as [k|] eqn:Hk; [|done]. by injection Hr as <-. }
  pose proof (pairwise_insertion_sort (pd.keyed year l)) as Hsorted.
  apply pairwise_app.
  - apply pairwise_fmap. eapply pairwise_impl; [exact Hsorted|].
    intros x y Hx Hy Hle. unfold year_le.
    by rewrite (Hkeys x Hx), (Hkeys y Hy).
  - apply pairwise_missing_years.
  - intros x y (kx & -> & Hx)%list_elem_of_fmap [_ Hy]%elem_of_filter.
    unfold year_le. rewrite (Hkeys kx Hx). by destruct (year y).
Qed.

(** The rows [calculate_growth_rate] returns are in ascending order of
    year, rows without a year last, whatever the order of the observations
    in the table. *)
Theorem calculate_growth_rate_ascending self code h :
  constructed self h ->
  exists df h',
    FinancialInclusionAnalyzer.calculate_growth_rate self code h = (Return df, h')
    /\ ascending_years (rows df).
Proof.
  intros Hc. destruct (decide (code = "")) as [->|Hne].
  { rewrite calculate_growth_rate_empty_code. eexists _, _. split; [done|].
    by intros i j ri rj _ ?. }
  destruct Hc as (_ & Hic & Hy & Hv).
  destruct (calculate_growth_rate_run self code h Hne Hic Hy Hv) as (h' & -> & _).
  eexists _, _. split; [reflexivity|].
  destruct (_ <? 2); [by intros i j ri rj _ ?|]. simpl.
  intros i j ri rj Hij Hi Hj.
  set (data := series_of code _) in *.
  destruct (lookup_lt_is_Some_2 data i) as [di Hdi].
  { rewrite <- (length_growth_rows data). by eapply lookup_lt_Some. }
  destruct (lookup_lt_is_Some_2 data j) as [dj Hdj].
  { rewrite <- (length_growth_rows data). by eapply lookup_lt_Some. }
  destruct (lookup_growth_rows data i di Hdi) as (ri' & Hi' & Hyi & _).
  destruct (lookup_growth_rows data j dj Hdj) as (rj' & Hj' & Hyj & _).
  rewrite Hi in Hi'. injection Hi' as <-. rewrite Hj in Hj'. injection Hj' as <-.
  rewrite Hyi, Hyj.
  exact (pairwise_lookup year_le data i j di dj (sort_rows_ascending _) Hij Hdi Hdj).
Qed.

Lemma calculate_growth_rate_ascending_witness :
  exists df h',
    FinancialInclusionAnalyzer.calculate_growth_rate Sample.analyzer "ACC_OWNERSHIP"
      (Sample.heap [Sample.ownership]) = (Return df, h')
    /\ ascending_years (rows df).
Proof.
  apply calculate_growth_rate_ascending.
  repeat split; [discriminate | reflexivity ..].
Defined.

(** ** How many changes [identify_trend_changes] can report *)

Lemma SFcompare_antisym x y :
  SFcompare y x = option_map CompOpp (SFcompare x y).
Proof.
  destruct x as [s1|s1| |s1 m1 e1], y as [s2|s2| |s2 m2 e2]; simpl; try done;
    try (by destruct s1); try (by destruct s2); try (by destruct s1, s2).
  rewrite (Z.compare_antisym e1 e2).
  assert (PosDef.Pos.compare_cont Eq m2 m1 = CompOpp (PosDef.Pos.compare_cont Eq m1 m2))
    as -> by apply (Pos.compare_antisym m1 m2).
  destruct s1, s2; try done; destruct (e1 ?= e2); simpl; try done;
    by rewrite CompOpp_involutive.
Qed.

(** A value strictly below the threshold is not at or above it. *)
Lemma ltb_not_leb (x t : float) : (x <? t)%float = true -> (t <=? x)%float = false.
Proof.
  rewrite ltb_spec, leb_spec. unfold SFltb, SFleb.
  rewrite (SFcompare_antisym (Prim2SF x) (Prim2SF t)).
  by destruct (SFcompare (Prim2SF x) (Prim2SF t)) as [[]|].
Qed.

Lemma leb_abs_isna x t : Float.isna x = true -> (t <=? abs x)%float = false.
Proof.
  intros Hna. destruct (t <=? abs x)%float eqn:E; [|done].
  apply leb_abs_notna in E. unfold Float.notna, Float.isna in *. by rewrite Hna in E.
Qed.

Lemma length_slowdown_at growth threshold i :
  (length (slowdown_at growth threshold i) <= 1)%nat.
Proof.
  unfold slowdown_at. destruct (growth !! i), (growth !! (i - 1)%nat); simpl; try lia.
  destruct (_ && _); simpl; lia.
Qed.

(** Two neighbouring rows are never both reported: the second needs the
    change of the first at or above the threshold, the first needs it
    below. *)
Lemma slowdown_at_neighbours growth threshold i :
  (length (slowdown_at growth threshold i)
   + length (slowdown_at growth threshold (S i)) <= 1)%nat.
Proof.
  pose proof (length_slowdown_at growth threshold (S i)) as Hnext.
  destruct (slowdown_at growth threshold i) as [|c l] eqn:Hi; [simpl; lia|].
  assert (length (c :: l) <= 1)%nat as Hhere
    by (rewrite <- Hi; apply length_slowdown_at).
  assert (slowdown_at growth threshold (S i) = []) as ->; [|simpl in *; lia].
  unfold slowdown_at in *. replace (S i - 1)%nat with i by lia.
  destruct (growth !! i) as [cur|]; [|done].
  destruct (growth !! (i - 1)%nat) as [prev|]; [|done].
  destruct (abs (growth_pp cur) <? threshold)%float eqn:E; [|done].
  destruct (growth !! S i); [|done].
  by rewrite (ltb_not_leb _ _ E), andb_false_r.
Qed.

Lemma length_bind_neighbours {B} (f : nat -> list B) :
  (forall i, (length (f i) + length (f (S i)) <= 1)%nat) ->
  forall m a, (2 * length (seq a m ≫= f) <= m + 1)%nat.
Proof.
  intros Hf.
  assert (forall m a, (2 * length (seq a m ≫= f) <= m + 1)%nat
                      /\ (2 * length (seq a (S m) ≫= f) <= S m + 1)%nat) as H.
  { induction m as [|m IH]; intros a.
    - simpl. rewrite length_app. simpl. specialize (Hf a). lia.
    - split; [apply IH|]. destruct (IH (S (S a))) as [IH2 _].
      change (seq a (S (S m))) with (a :: S a :: seq (S (S a)) m).
      rewrite !bind_cons, !length_app. specialize (Hf a). lia. }
  intros m a. apply H.
Qed.

(** The run of [identify_trend_changes] on a constructed analyzer. *)
Lemma identify_trend_changes_run self code threshold h :
  constructed self h ->
  exists growth h1 h',
    FinancialInclusionAnalyzer.calculate_growth_rate self code h = (Return growth, h1)
    /\ FinancialInclusionAnalyzer.identify_trend_changes self code threshold h
       = (Return (range 1 (length (rows growth))
                    ≫= slowdown_at (rows growth) threshold), h')
    /\ (rows growth = []
        \/ exists data, (2 <= length data)%nat /\ rows growth = growth_rows data).
Proof.
  intros (_ & Hic & Hy & Hv).
  unfold FinancialInclusionAnalyzer.identify_trend_changes.
  rewrite try_except_run, bind_run.
  destruct (decide (code = "")) as [->|Hne].
  - rewrite calculate_growth_rate_empty_code. norm. eexists _, _, _.
    split; [done|]. split; [done|]. by left.
  - destruct (calculate_growth_rate_run self code h Hne Hic Hy Hv) as (h1 & -> & _).
    norm.
    destruct (Z.of_nat (length (series_of code _)) <? 2) eqn:Hlen.
    + eexists _, _, _. split; [done|]. split; [done|]. by left.
    + apply Z.ltb_ge in Hlen.
      set (growth := mkFrame ["year"; "value_numeric"; "growth_rate"; "growth_pp"]
                       (growth_rows (series_of code
                          (frames h !!! FinancialInclusionAnalyzer.observations self)))).
      assert (FinancialInclusionAnalyzer.empty growth = false) as ->.
      { unfold FinancialInclusionAnalyzer.empty, pd.len, growth. norm.
        rewrite length_growth_rows. apply orb_false_iff.
        split; [apply Z.eqb_neq; lia | done]. }
      rewrite bind_run, (trend_scan_run growth threshold h1) by done.
      norm. eexists _, _, _. split; [done|]. split; [done|].
      right. eexists. split; [|done]. lia.
Qed.

(** [identify_trend_changes] reports at most one change for every two rows
    after the first of the growth series: the first delta has no delta
    before it to compare with, and no two neighbouring rows are both
    reported.  In particular a series of two observations has no change. *)
Theorem identify_trend_changes_count self code threshold h :
  constructed self h ->
  exists growth h1 changes h',
    FinancialInclusionAnalyzer.calculate_growth_rate self code h = (Return growth, h1)
    /\ FinancialInclusionAnalyzer.identify_trend_changes self code threshold h
       = (Return changes, h')
    /\ (2 * length changes <= length (rows growth) - 1)%nat.
Proof.
  intros Hc.
  destruct (identify_trend_changes_run self code threshold h Hc)
    as (growth & h1 & h' & Hcalc & Hrun & Hrows).
  eexists _, _, _, _. split; [exact Hcalc|]. split; [exact Hrun|].
  destruct Hrows as [->|(data & Hlen & ->)]; [simpl; lia|].
  rewrite length_growth_rows. unfold range.
  destruct (length data) as [|[|n]] eqn:Hn; [lia..|].
  replace (S (S n) - 1)%nat with (S n) by lia.
  change (seq 1 (S n)) with (1%nat :: seq 2 n). rewrite bind_cons.
  assert (slowdown_at (growth_rows data) threshold 1 = []) as ->.
  { unfold slowdown_at. change (1 - 1)%nat with 0%nat.
    destruct data as [|d0 data']; [done|].
    destruct (lookup_growth_rows (d0 :: data') 0 d0 eq_refl) as (r0 & -> & _ & _ & Hna & _).
    destruct (growth_rows (d0 :: data') !! 1%nat); [|done].
    by rewrite (leb_abs_isna _ _ Hna), andb_false_r. }
  simpl app.
  pose proof (length_bind_neighbours (slowdown_at (growth_rows data) threshold)
                (slowdown_at_neighbours _ _) n 2).
  lia.
Qed.

Lemma identify_trend_changes_count_witness :
  exists growth h1 changes h',
    FinancialInclusionAnalyzer.calculate_growth_rate Sample.analyzer "GENDER_GAP"
      (Sample.heap [Sample.gap]) = (Return growth, h1)
    /\ FinancialInclusionAnalyzer.identify_trend_changes Sample.analyzer "GENDER_GAP" 0.5
         (Sample.heap [Sample.gap]) = (Return changes, h')
    /\ (2 * length changes <= length (rows growth) - 1)%nat.
Proof.
  apply identify_trend_changes_count.
  repeat split; [discriminate | reflexivity ..].
Defined.

(** ** [find_event_correlations] always returns *)

Lemma length_bind_le {A B} (f : A -> list B) (l : list A) k :
  (forall x, (length (f x) <= k)%nat) -> (length (l ≫= f) <= length l * k)%nat.
Proof.
  intros Hf. induction l as [|x l IH]; [done|].
  rewrite bind_cons, length_app. specialize (Hf x). simpl. lia.
Qed.

Lemma length_correlations_for events lag o :
  (length (correlations_for events lag o) <= length (rows events))%nat.
Proof.
  unfold correlations_for. destruct (observation_date o) as [od|]; [|simpl; lia].
  destruct (Time.sub_months od lag) as [window_start|]; [|simpl; lia].
  induction (rows events) as [|e l IH]; [done|]. simpl.
  destruct (FinancialInclusionAnalyzer.in_window _ _ _); [|lia].
  rewrite bind_cons, length_app. destruct (event_date e); simpl; lia.
Qed.

(** On an analyzer whose observations passed the constructor's checks,
    [find_event_correlations] raises nothing and leaves every frame as it
    is.  It returns no row when the analyzer has no events, when the events
    table is empty, or when one of the two date columns is absent; and it
    never returns more rows than there are pairs of an observation of the
    indicator and an event. *)
Theorem find_event_correlations_returns self code lag h :
  constructed self h ->
  let obs := frames h !!! FinancialInclusionAnalyzer.observations self in
  exists result h',
    FinancialInclusionAnalyzer.find_event_correlations self code lag h
    = (Return result, h')
    /\ frames h' = frames h
    /\ (FinancialInclusionAnalyzer.events self = None -> result = [])
    /\ (pd.has_column "observation_date" obs = false -> result = [])
    /\ (forall ev, FinancialInclusionAnalyzer.events self = Some ev ->
          let events := frames h !!! ev in
          (rows events = [] \/ pd.has_column "event_date" events = false
             -> result = [])
          /\ (length result
              <= length (matching code obs) * length (rows events))%nat).
Proof.
  intros (_ & Hic & _ & Hv) obs.
  destruct (FinancialInclusionAnalyzer.events self) as [ev|] eqn:Hev; cycle 1.
  { unfold FinancialInclusionAnalyzer.find_event_correlations. rewrite Hev.
    eexists _, _. split; [reflexivity|]. by repeat split. }
  set (events := frames h !!! ev).
  assert (forall h', frames h' = frames h ->
            [] = ([] : list FinancialInclusionAnalyzer.correlation) ->
            exists result h'0,
              (Return ([] : list FinancialInclusionAnalyzer.correlation), h')
              = (Return result, h'0)
              /\ frames h'0 = frames h
              /\ (Some ev = None -> result = [])
              /\ (pd.has_column "observation_date" obs = false -> result = [])
              /\ (forall ev0, Some ev = Some ev0 ->
                    let events := frames h !!! ev0 in
                    (rows events = [] \/ pd.has_column "event_date" events = false
                       -> result = [])
                    /\ (length result
                        <= length (matching code obs) * length (rows events))%nat))
    as Hnone.
  { intros h' Hh' _. eexists _, _. split; [reflexivity|].
    split; [done|]. repeat split; simpl; lia. }
  destruct (rows events) as [|e0 evs] eqn:Hrows.
  { unfold FinancialInclusionAnalyzer.find_event_correlations. rewrite Hev.
    cbv zeta. norm. step load_run. fold events. unfold pd.len. rewrite Hrows.
    simpl. by apply Hnone. }
  destruct (pd.has_column "observation_date" obs) eqn:Hod; cycle 1.
  { unfold FinancialInclusionAnalyzer.find_event_correlations. rewrite Hev.
    cbv zeta. norm. step load_run. fold events. unfold pd.len. rewrite Hrows.
    change (Z.of_nat (length (e0 :: evs)) =? 0) with false. cbv iota.
    rewrite try_except_run. step load_run. fold obs.
    rewrite Hod. simpl. by apply Hnone. }
  destruct (pd.has_column "event_date" events) eqn:Hed; cycle 1.
  { unfold FinancialInclusionAnalyzer.find_event_correlations. rewrite Hev.
    cbv zeta. norm. step load_run. fold events. unfold pd.len. rewrite Hrows.
    change (Z.of_nat (length (e0 :: evs)) =? 0) with false. cbv iota.
    rewrite try_except_run. step load_run. fold obs.
    rewrite Hod, Hed. simpl. by apply Hnone. }
  destruct (find_event_correlations_run self code lag h ev Hev) as (h' & -> & Hh');
    try done.
  { fold events. by rewrite Hrows. }
  eexists _, _. split; [reflexivity|]. split; [done|].
  split; [done|]. split; [done|].
  intros ev0 [= <-]. cbv zeta. fold events obs. split.
  - rewrite Hrows, Hed. intros [?|?]; done.
  - etrans; [apply (length_bind_le _ _ (length (rows events)));
             intros o; apply length_correlations_for|].
    by rewrite (Permutation_length (sort_rows_perm _ _ _)).
Qed.

Lemma find_event_correlations_returns_witness :
  exists result h',
    FinancialInclusionAnalyzer.find_event_correlations Sample.analyzer_with_events
      "MOBILE_MONEY_ACC" 6 (Sample.heap [Sample.mobile_money; Sample.launches])
    = (Return result, h')
    /\ (length result <= 1)%nat.
Proof.
  destruct (find_event_correlations_returns Sample.analyzer_with_events
              "MOBILE_MONEY_ACC" 6 (Sample.heap [Sample.mobile_money; Sample.launches]))
    as (result & h' & Hrun & _ & _ & _ & Hev).
  - repeat split; [discriminate | reflexivity ..].
  - exists result, h'. split; [exact Hrun|].
    destruct (Hev 1%nat eq_refl) as [_ Hlen]. exact Hlen.
Defined.

(** ** [analyze_gender_gap] *)

Lemma pairwise_filter {A} (R : A -> A -> Prop) (f : A -> bool) l :
  pairwise R l -> pairwise R (List.filter f l).
Proof.
  induction l as [|x l IH]; [done|]. intros [Hall Hp]. simpl.
  destruct (f x); [|by apply IH]. split; [|by apply IH].
  apply Forall_forall. intros y [Hy _]%elem_of_filter.
  rewrite Forall_forall in Hall. by apply Hall.
Qed.

Lemma pairwise_ascending l : pairwise year_le l -> ascending_years l.
Proof.
  intros Hp i j ri rj Hij Hi Hj.
  exact (pairwise_lookup year_le l i j ri rj Hp Hij Hi Hj).
Qed.

(** On an analyzer whose observations passed the constructor's checks,
    [analyze_gender_gap] raises nothing and changes no frame.  The rows it
    returns are the observations of the pillar GENDER whose indicator code
    contains GAP, in ascending order of year; a result that is not empty has
    the columns year, indicator_code and value_numeric, and indicator when
    the observations have it. *)
Theorem analyze_gender_gap_rows self h :
  constructed self h ->
  let obs := frames h !!! FinancialInclusionAnalyzer.observations self in
  exists df h',
    FinancialInclusionAnalyzer.analyze_gender_gap self h = (Return df, h')
    /\ frames h' = frames h
    /\ (forall r, r ∈ rows df <->
          pd.has_column "pillar" obs = true /\ r ∈ rows obs
          /\ pillar r = Some "GENDER"
          /\ pd.str_contains "GAP" (indicator_code r) = true)
    /\ ascending_years (rows df)
    /\ (rows df <> [] ->
        columns df = ["year"; "indicator_code"; "value_numeric"]
                     ++ (if pd.has_column "indicator" obs then ["indicator"] else [])).
Proof.
  intros (_ & Hic & Hy & Hv) obs.
  unfold FinancialInclusionAnalyzer.analyze_gender_gap.
  rewrite try_except_run. step load_run. fold obs.
  destruct (pd.has_column "pillar" obs) eqn:Hp;
    [change (negb true) with false | change (negb false) with true];
    cbv iota; cycle 1.
  { eexists _, _. split; [reflexivity|]. split; [done|]. simpl.
    split; [|split; [by intros i j ri rj _ ?|done]].
    intros r. split; [by intros ?%elem_of_nil|by intros [? _]]. }
  step @getitem_run; [|exact Hp]. rewrite take_mask_fmap2.
  step @sort_values_run; [|exact Hy].
  set (gender := pd.sort_rows Z.leb year
                   (List.filter (fun r => pd.eq_str "GENDER" (pillar r)) (rows obs))).
  set (gap := List.filter (fun r => pd.str_contains "GAP" (indicator_code r)) gender).
  assert (forall r, r ∈ gap <->
            true = true /\ r ∈ rows obs /\ pillar r = Some "GENDER"
            /\ pd.str_contains "GAP" (indicator_code r) = true) as Hgap.
  { intros r. unfold gap, gender.
    rewrite elem_of_filter, sort_rows_perm, elem_of_filter.
    unfold pd.eq_str. rewrite bool_decide_eq_true. naive_solver. }
  assert (ascending_years gap) as Hasc.
  { apply pairwise_ascending, pairwise_filter, sort_rows_ascending. }
  unfold pd.len. norm.
  destruct gender as [|g0 gender'] eqn:Hgender.
  { simpl. eexists _, _. split; [reflexivity|]. split; [done|]. simpl.
    split; [exact Hgap|]. split; [by intros i j ri rj _ ?|done]. }
  change (Z.of_nat (length (g0 :: gender')) =? 0) with false. cbv iota.
  step @getitem_run; [|exact Hic]. rewrite take_mask_fmap2. norm. fold gap.
  destruct gap as [|r0 gap'] eqn:Egap.
  { simpl. eexists _, _. split; [reflexivity|]. split; [done|]. simpl.
    split; [exact Hgap|]. split; [by intros i j ri rj _ ?|done]. }
  change (Z.of_nat (length (r0 :: gap')) =? 0) with false. cbv iota zeta.
  assert (List.filter
            (fun col => pd.has_column col (mkFrame (columns obs) (r0 :: gap')))
            ["year"; "indicator_code"; "value_numeric"; "indicator"]
          = ["year"; "indicator_code"; "value_numeric"]
            ++ (if pd.has_column "indicator" obs then ["indicator"] else [])) as ->.
  { change (fun col => pd.has_column col (mkFrame (columns obs) (r0 :: gap')))
      with (fun col => pd.has_column col obs).
    fold obs in Hy, Hic, Hv. cbn [List.filter]. rewrite Hy, Hic, Hv.
    by destruct (pd.has_column "indicator" obs). }
  rewrite getitems_run.
  - eexists _, _. split; [reflexivity|]. split; [done|]. simpl.
    split; [exact Hgap|]. split; [exact Hasc|done].
  - intros c Hc.
    change (pd.has_column c (mkFrame (columns obs) (r0 :: gap')))
      with (pd.has_column c obs).
    destruct (pd.has_column "indicator" obs) eqn:Hind; simpl in Hc;
      intuition subst; done.
Qed.

Lemma analyze_gender_gap_rows_witness :
  exists df h',
    FinancialInclusionAnalyzer.analyze_gender_gap Sample.analyzer
      (Sample.heap [Sample.gap]) = (Return df, h')
    /\ ascending_years (rows df).
Proof.
  destruct (analyze_gender_gap_rows Sample.analyzer (Sample.heap [Sample.gap]))
    as (df & h' & Hrun & _ & _ & Hasc & _).
  - repeat split; [discriminate | reflexivity ..].
  - by exists df, h'.
Defined.

(** ** [compare_pillars] *)

Lemma unique_spec {A} `{EqDecision A} (s : list A) :
  NoDup (pd.unique s) /\ (forall x, x ∈ pd.unique s <-> x ∈ s)
  /\ (length (pd.unique s) <= length s)%nat.
Proof.
  unfold pd.unique.
  assert (forall seen,
            NoDup seen ->
            let out := foldl (fun seen x => if bool_decide (x ∈ seen) then seen
                                            else seen ++ [x]) seen s in
            NoDup out /\ (forall x, x ∈ out <-> x ∈ seen \/ x ∈ s)
            /\ (length out <= length seen + length s)%nat) as H.
  { induction s as [|y s IH]; intros seen Hseen; simpl.
    - split; [done|]. split; [|lia]. intros x. rewrite elem_of_nil. naive_solver.
    - destruct (bool_decide (y ∈ seen)) eqn:Hy.
      + apply bool_decide_eq_true in Hy.
        destruct (IH seen Hseen) as (Hnd & Hin & Hlen). split; [done|]. split; [|lia].
        intros x. rewrite Hin, elem_of_cons. naive_solver.
      + apply bool_decide_eq_false in Hy.
        destruct (IH (seen ++ [y])) as (Hnd & Hin & Hlen).
        { apply NoDup_app. split; [done|]. split; [|apply NoDup_singleton].
          intros x Hx ->%list_elem_of_singleton. done. }
        split; [done|]. split.
        * intros x. rewrite Hin, elem_of_app, list_elem_of_singleton, elem_of_cons.
          naive_solver.
        * rewrite length_app in Hlen. simpl in Hlen. lia. }
  destruct (H [] (NoDup_nil_2)) as (Hnd & Hin & Hlen).
  split; [done|]. split; [|simpl in Hlen; lia].
  intros x. rewrite Hin, elem_of_nil. naive_solver.
Qed.

Lemma length_dropna {A} (s : list (option A)) :
  (length (pd.dropna s) <= length s)%nat.
Proof.
  unfold pd.dropna. induction s as [|[x|] s IH]; simpl; [lia|..];
    change (list_omap _ _ id s) with (omap id s); lia.
Qed.

Lemma nunique_le_length {A} `{EqDecision A} (s : list (option A)) :
  pd.nunique s <= Z.of_nat (length s).
Proof.
  unfold pd.nunique. pose proof (length_dropna s).
  destruct (unique_spec (pd.dropna s)) as (_ & _ & Hlen). lia.
Qed.

Lemma foldr_min_le_max (y : Z) ys : foldr Z.min y ys <= foldr Z.max y ys.
Proof.
  assert (foldr Z.min y ys <= y <= foldr Z.max y ys) as H; [|lia].
  induction ys as [|z ys IH]; simpl; lia.
Qed.

Lemma bind_dropna {A B} (f : A -> B) (l : list (option A)) :
  l ≫= (fun p => match p with None => [] | Some x => [f x] end) = f <$> pd.dropna l.
Proof.
  unfold pd.dropna. induction l as [|[x|] l IH]; [done| |exact IH].
  rewrite bind_cons. simpl. f_equal. exact IH.
Qed.

Lemma NoDup_dropna {A} (l : list (option A)) : NoDup l -> NoDup (pd.dropna l).
Proof.
  unfold pd.dropna. induction 1 as [|[x|] l Hx Hnd IH]; simpl; [constructor| |done].
  constructor; [|done]. rewrite list_elem_of_omap. intros ([y|] & Hy & Hid); [|done].
  by injection Hid as ->.
Qed.

Lemma dropna_app {A} (l1 l2 : list (option A)) :
  pd.dropna (l1 ++ l2) = pd.dropna l1 ++ pd.dropna l2.
Proof. apply omap_app. Qed.

Lemma elem_of_dropna {A} (l : list (option A)) x : x ∈ pd.dropna l <-> Some x ∈ l.
Proof.
  unfold pd.dropna. rewrite list_elem_of_omap. split.
  - intros ([y|] & Hy & Hid); [|done]. by injection Hid as ->.
  - intros Hx. by exists (Some x).
Qed.

Lemma foldr_min_spec (y : Z) ys :
  foldr Z.min y ys ∈ y :: ys /\ forall z, z ∈ y :: ys -> foldr Z.min y ys <= z.
Proof.
  induction ys as [|x ys [IHin IHle]]; simpl.
  - split; [apply list_elem_of_here|]. intros z ->%list_elem_of_singleton. lia.
  - split.
    + destruct (Z.min_spec x (foldr Z.min y ys)) as [[_ ->]|[_ ->]].
      * right. left.
      * apply elem_of_cons in IHin as [Heq|Hin]; [rewrite Heq; left|by do 2 right].
    + intros z [->|[->|Hz]%elem_of_cons]%elem_of_cons.
      * specialize (IHle y (list_elem_of_here _ _)). lia.
      * lia.
      * specialize (IHle z (list_elem_of_further _ _ _ Hz)). lia.
Qed.

Lemma foldr_max_spec (y : Z) ys :
  foldr Z.max y ys ∈ y :: ys /\ forall z, z ∈ y :: ys -> z <= foldr Z.max y ys.
Proof.
  induction ys as [|x ys [IHin IHle]]; simpl.
  - split; [apply list_elem_of_here|]. intros z ->%list_elem_of_singleton. lia.
  - split.
    + destruct (Z.max_spec x (foldr Z.max y ys)) as [[_ ->]|[_ ->]].
      * apply elem_of_cons in IHin as [Heq|Hin]; [rewrite Heq; left|by do 2 right].
      * right. left.
    + intros z [->|[->|Hz]%elem_of_cons]%elem_of_cons.
      * specialize (IHle y (list_elem_of_here _ _)). lia.
      * lia.
      * specialize (IHle z (list_elem_of_further _ _ _ Hz)). lia.
Qed.

Lemma elem_of_dropna_fmap {A} (key : Row -> option A) (l : list Row) v :
  v ∈ pd.dropna (key <$> l) <-> exists r, r ∈ l /\ key r = Some v.
Proof.
  rewrite elem_of_dropna, list_elem_of_fmap. split.
  - intros (r & Hv & Hr). by exists r.
  - intros (r & Hr & Hv). by exists r.
Qed.

(** [min()] and [max()] of the year column, and [nunique()] of a column. *)
Lemma min_least_year l : least_year l (pd.min (year <$> l)).
Proof.
  unfold least_year, pd.min.
  destruct (pd.dropna (year <$> l)) as [|y ys] eqn:Hd.
  - intros r Hr. destruct (year r) as [a|] eqn:Ha; [|done]. exfalso.
    assert (a ∈ pd.dropna (year <$> l)) as Hin
      by (apply elem_of_dropna_fmap; by exists r).
    rewrite Hd in Hin. by apply elem_of_nil in Hin.
  - destruct (foldr_min_spec y ys) as [Hin Hle]. rewrite <- Hd in Hin, Hle. split.
    + by apply elem_of_dropna_fmap.
    + intros r a Hr Ha. apply Hle, elem_of_dropna_fmap. by exists r.
Qed.

Lemma max_greatest_year l : greatest_year l (pd.max (year <$> l)).
Proof.
  unfold greatest_year, pd.max.
  destruct (pd.dropna (year <$> l)) as [|y ys] eqn:Hd.
  - intros r Hr. destruct (year r) as [a|] eqn:Ha; [|done]. exfalso.
    assert (a ∈ pd.dropna (year <$> l)) as Hin
      by (apply elem_of_dropna_fmap; by exists r).
    rewrite Hd in Hin. by apply elem_of_nil in Hin.
  - destruct (foldr_max_spec y ys) as [Hin Hle]. rewrite <- Hd in Hin, Hle. split.
    + by apply elem_of_dropna_fmap.
    + intros r a Hr Ha. apply Hle, elem_of_dropna_fmap. by exists r.
Qed.

Lemma nunique_number_of_distinct {A} `{EqDecision A} (key : Row -> option A) l :
  number_of_distinct key l (pd.nunique (key <$> l)).
Proof.
  unfold number_of_distinct, pd.nunique.
  destruct (unique_spec (pd.dropna (key <$> l))) as (Hnd & Hin & _).
  exists (pd.unique (pd.dropna (key <$> l))). split; [done|]. split; [|done].
  intros v. by rewrite Hin, elem_of_dropna_fmap.
Qed.

(** The row [compare_pillars] reports for the pillar [name]. *)
Lemma compare_pillars_step obs name summary h :
  pd.has_column "pillar" obs = true ->
  pd.has_column "year" obs = true ->
  pd.has_column "indicator_code" obs = true ->
  (exists r, r ∈ rows obs /\ pillar r = Some name) ->
  let pillar_rows := List.filter (fun r => pd.eq_str name (pillar r)) (rows obs) in
  (let* pillars := getitem obs "pillar" pillar in
   let pillar_obs := pd.take_mask obs (pd.eq_str name <$> pillars) in
   if 0 <? pd.len pillar_obs then
     let* years := getitem pillar_obs "year" year in
     let first_year := pd.min years in
     let last_year := pd.max years in
     let* codes := getitem pillar_obs "indicator_code" indicator_code in
     let* years := getitem pillar_obs "year" year in
     ret (summary ++
          [FinancialInclusionAnalyzer.mkSummary name (pd.len pillar_obs)
             (pd.nunique codes) (pd.nunique years) first_year last_year])
   else ret summary) h
  = (Return (summary ++
             [FinancialInclusionAnalyzer.mkSummary name
                (Z.of_nat (length pillar_rows))
                (pd.nunique (indicator_code <$> pillar_rows))
                (pd.nunique (year <$> pillar_rows))
                (pd.min (year <$> pillar_rows))
                (pd.max (year <$> pillar_rows))]), h).
Proof.
  intros Hp Hy Hic (r & Hr & Hname) pillar_rows.
  step @getitem_run; [|exact Hp]. rewrite take_mask_fmap2. fold pillar_rows.
  cbv zeta. unfold pd.len. norm.
  assert (r ∈ pillar_rows) as Hin.
  { apply elem_of_filter. split; [done|]. by apply bool_decide_eq_true. }
  assert ((0 <? Z.of_nat (length pillar_rows)) = true) as ->.
  { apply Z.ltb_lt. destruct pillar_rows; [by apply elem_of_nil in Hin|simpl; lia]. }
  step @getitem_run; [|exact Hy]. step @getitem_run; [|exact Hic].
  step @getitem_run; [|exact Hy]. done.
Qed.

(** On an analyzer whose observations passed the constructor's checks and
    have a pillar column, [compare_pillars] raises nothing and changes no
    frame.  It reports each pillar that occurs in the observations once.
    The row of a pillar counts its observations, at least one, their
    distinct indicator codes and their distinct years, and gives the least
    and the greatest of their years, both missing exactly when no
    observation of the pillar has a year.  So the two counts of distinct
    values never exceed the number of observations, and the first year is
    not after the last. *)
Theorem compare_pillars_summary self h :
  constructed self h ->
  let obs := frames h !!! FinancialInclusionAnalyzer.observations self in
  pd.has_column "pillar" obs = true ->
  exists result h',
    FinancialInclusionAnalyzer.compare_pillars self h = (Return result, h')
    /\ frames h' = frames h
    /\ NoDup (FinancialInclusionAnalyzer.summary_pillar <$> result)
    /\ (forall name, name ∈ FinancialInclusionAnalyzer.summary_pillar <$> result
                     <-> exists r, r ∈ rows obs /\ pillar r = Some name)
    /\ (forall s, s ∈ result ->
          let name := FinancialInclusionAnalyzer.summary_pillar s in
          FinancialInclusionAnalyzer.summary_observations s
          = Z.of_nat (length (List.filter (fun r => pd.eq_str name (pillar r))
                                (rows obs)))
          /\ 1 <= FinancialInclusionAnalyzer.summary_observations s
          /\ FinancialInclusionAnalyzer.summary_indicators s
             <= FinancialInclusionAnalyzer.summary_observations s
          /\ FinancialInclusionAnalyzer.years_coverage s
             <= FinancialInclusionAnalyzer.summary_observations s
          /\ match FinancialInclusionAnalyzer.first_year s,
                   FinancialInclusionAnalyzer.last_year s with
             | Some a, Some b => a <= b
             | None, None => FinancialInclusionAnalyzer.years_coverage s = 0
             | _, _ => False
             end
          /\ let pillar_rows :=
               List.filter (fun r => pd.eq_str name (pillar r)) (rows obs) in
             number_of_distinct indicator_code pillar_rows
               (FinancialInclusionAnalyzer.summary_indicators s)
             /\ number_of_distinct year pillar_rows
                  (FinancialInclusionAnalyzer.years_coverage s)
             /\ least_year pillar_rows (FinancialInclusionAnalyzer.first_year s)
             /\ greatest_year pillar_rows (FinancialInclusionAnalyzer.last_year s)
             /\ (FinancialInclusionAnalyzer.first_year s = None
                 <-> forall r, r ∈ pillar_rows -> year r = None)
             /\ (FinancialInclusionAnalyzer.last_year s = None
                 <-> forall r, r ∈ pillar_rows -> year r = None)).
Proof.
  intros (_ & Hic & Hy & _) obs Hp.
  set (row_of := fun name : string =>
         let pillar_rows := List.filter (fun r => pd.eq_str name (pillar r)) (rows obs) in
         FinancialInclusionAnalyzer.mkSummary name
           (Z.of_nat (length pillar_rows))
           (pd.nunique (indicator_code <$> pillar_rows))
           (pd.nunique (year <$> pillar_rows))
           (pd.min (year <$> pillar_rows))
           (pd.max (year <$> pillar_rows))).
  set (names := pd.dropna (pd.unique (pillar <$> rows obs))).
  destruct (unique_spec (pillar <$> rows obs)) as (Hnd & Hin & _).
  assert (forall name, name ∈ names <-> exists r, r ∈ rows obs /\ pillar r = Some name)
    as Hnames.
  { intros name. unfold names, pd.dropna. rewrite list_elem_of_omap. split.
    - intros ([x|] & Hx & Hid); [|done]. injection Hid as ->.
      apply Hin, list_elem_of_fmap in Hx as (r & Hr & Hrow). by exists r.
    - intros (r & Hr & Hrow). exists (Some name). split; [|done].
      apply Hin, list_elem_of_fmap. by exists r. }
  assert (NoDup names) as Hnd_names.
  { by apply NoDup_dropna. }
  assert (exists h',
    FinancialInclusionAnalyzer.compare_pillars self h = (Return (row_of <$> names), h')
    /\ frames h' = frames h) as (h' & Hrun & Hh').
  { unfold FinancialInclusionAnalyzer.compare_pillars.
    rewrite try_except_run. step load_run. fold obs. rewrite Hp.
    change (negb true) with false. cbv iota.
    step @getitem_run; [|exact Hp]. rewrite bind_run.
    rewrite (for_each_append _ _
               (fun p => match p with None => [] | Some name => [row_of name] end)).
    - norm.
      assert (pd.unique (pillar <$> rows obs)
              ≫= (fun p => match p with None => [] | Some name => [row_of name] end)
              = row_of <$> names) as ->.
      { apply bind_dropna. }
      change ([] ++ (row_of <$> names)) with (row_of <$> names).
      destruct (Z.of_nat (length (row_of <$> names)) =? 0) eqn:Hlen.
      + apply Z.eqb_eq in Hlen.
        assert (row_of <$> names = []) as -> by (apply nil_length_inv; lia).
        by eexists.
      + by eexists.
    - intros s [name|] Hx; [|by rewrite ret_run, app_nil_r].
      apply (compare_pillars_step obs name s h Hp Hy Hic).
      apply Hin, list_elem_of_fmap in Hx as (r & Hr & Hrow). by exists r. }
  exists (row_of <$> names), h'. split; [exact Hrun|]. split; [exact Hh'|].
  rewrite <- list_fmap_compose.
  assert (FinancialInclusionAnalyzer.summary_pillar ∘ row_of <$> names = names) as ->.
  { apply list_fmap_id. }
  split; [exact Hnd_names|]. split; [exact Hnames|].
  intros s (name & -> & Hname)%list_elem_of_fmap. simpl.
  set (pillar_rows := List.filter (fun r => pd.eq_str name (pillar r)) (rows obs)).
  apply Hnames in Hname as (r & Hr & Hrow).
  assert (r ∈ pillar_rows) as Hmem.
  { apply elem_of_filter. split; [done|]. by apply bool_decide_eq_true. }
  split; [done|]. split.
  { destruct pillar_rows; [by apply elem_of_nil in Hmem|simpl; lia]. }
  split.
  { etrans; [apply nunique_le_length|]. by rewrite length_fmap. }
  split.
  { etrans; [apply nunique_le_length|]. by rewrite length_fmap. }
  split.
  { unfold pd.min, pd.max, pd.nunique.
    destruct (pd.dropna (year <$> pillar_rows)) as [|y ys]; [done|].
    apply foldr_min_le_max. }
  cbv zeta. fold pillar_rows.
  pose proof (min_least_year pillar_rows) as Hmin.
  pose proof (max_greatest_year pillar_rows) as Hmax.
  split; [apply nunique_number_of_distinct|].
  split; [apply nunique_number_of_distinct|].
  split; [exact Hmin|]. split; [exact Hmax|]. split.
  - unfold least_year in Hmin. destruct (pd.min (year <$> pillar_rows)) as [a|].
    + split; [done|]. intros Hnone. destruct Hmin as [(r' & Hr' & Ha) _].
      rewrite (Hnone r' Hr') in Ha. done.
    + by split.
  - unfold greatest_year in Hmax. destruct (pd.max (year <$> pillar_rows)) as [a|].
    + split; [done|]. intros Hnone. destruct Hmax as [(r' & Hr' & Ha) _].
      rewrite (Hnone r' Hr') in Ha. done.
    + by split.
Qed.

Lemma compare_pillars_summary_witness :
  exists result h',
    FinancialInclusionAnalyzer.compare_pillars Sample.analyzer
      (Sample.heap [Sample.gap]) = (Return result, h')
    /\ NoDup (FinancialInclusionAnalyzer.summary_pillar <$> result).
Proof.
  destruct (compare_pillars_summary Sample.analyzer (Sample.heap [Sample.gap]))
    as (result & h' & Hrun & _ & Hnd & _).
  - repeat split; [discriminate | reflexivity ..].
  - reflexivity.
  - by exists result, h'.
Defined.

(** Without a pillar column [compare_pillars] raises [AnalysisError], with
    the message of its outer handler, and changes nothing. *)
Theorem compare_pillars_without_pillar self h :
  pd.has_column "pillar" (frames h !!! FinancialInclusionAnalyzer.observations self)
  = false ->
  FinancialInclusionAnalyzer.compare_pillars self h
  = (Raise (AnalysisError "Error comparing pillars: {e}"), h).
Proof.
  intros Hp. unfold FinancialInclusionAnalyzer.compare_pillars.
  rewrite try_except_run. step load_run. by rewrite Hp.
Qed.

Lemma compare_pillars_without_pillar_witness :
  FinancialInclusionAnalyzer.compare_pillars Sample.analyzer
    (Sample.heap [series_only])
  = (Raise (AnalysisError "Error comparing pillars: {e}"),
     Sample.heap [series_only]).
Proof. apply compare_pillars_without_pillar. reflexivity. Defined.

(** ** When [validate_schema] accepts a table *)

Lemma nonempty_difference l valid :
  DataValidator.nonempty (pd.set_of (pd.dropna l) ∖ pd.set_of valid) = false
  <-> within valid l.
Proof.
  unfold DataValidator.nonempty, within, pd.set_of, pd.dropna.
  rewrite bool_decide_eq_false. split.
  - intros Hempty v Hv. destruct (decide (v ∈ valid)) as [|Hnot]; [done|].
    exfalso. apply Hempty. intros Heq.
    assert (v ∈ (list_to_set (omap id l) ∖ list_to_set valid : gset string)) as Hin.
    { apply elem_of_difference. rewrite !elem_of_list_to_set. split; [|done].
      apply list_elem_of_omap. by exists (Some v). }
    rewrite Heq in Hin. by apply not_elem_of_empty in Hin.
  - intros Hall Hne. apply Hne. apply set_eq. intros v.
    rewrite elem_of_difference, !elem_of_list_to_set, list_elem_of_omap.
    split; [|by intros ?%not_elem_of_empty].
    intros [([w|] & Hw & Hid) Hnot]; [|done]. injection Hid as ->.
    exfalso. apply Hnot. by apply Hall.
Qed.

Lemma nonempty_missing_columns required df :
  DataValidator.nonempty (pd.set_of required ∖ pd.set_of (columns df)) = false
  <-> forall c, c ∈ required -> pd.has_column c df = true.
Proof.
  unfold DataValidator.nonempty, pd.set_of, pd.has_column.
  rewrite bool_decide_eq_false. split.
  - intros Hempty c Hc. apply bool_decide_eq_true.
    destruct (decide (c ∈ columns df)) as [|Hnot]; [done|].
    exfalso. apply Hempty. intros Heq.
    assert (c ∈ (list_to_set required ∖ list_to_set (columns df) : gset string)) as Hin.
    { apply elem_of_difference. by rewrite !elem_of_list_to_set. }
    rewrite Heq in Hin. by apply not_elem_of_empty in Hin.
  - intros Hall Hne. apply Hne. apply set_eq. intros c.
    rewrite elem_of_difference, !elem_of_list_to_set.
    split; [|by intros ?%not_elem_of_empty].
    intros [Hc Hnot]. exfalso. apply Hnot. by eapply bool_decide_eq_true_1, Hall.
Qed.

Lemma is_empty_append_if b (errors : list message) e :
  DataValidator.is_empty (DataValidator.append_if b errors e)
  = DataValidator.is_empty errors && negb b.
Proof. destruct b, errors; done. Qed.

Lemma is_empty_true {A} (l : list A) : DataValidator.is_empty l = true <-> l = [].
Proof. by destruct l. Qed.

(** The report of a check appends one entry to the validation log. *)
Lemma report_run_log self name ok failed is_valid errors h :
  exists h', DataValidator.report self name ok failed is_valid errors h = (Return tt, h')
    /\ frames h' = frames h
    /\ validation_log h' = validation_log h ++ [mkEntry name is_valid errors].
Proof.
  unfold DataValidator.report. rewrite bind_run.
  destruct (DataValidator.verbose self); [destruct is_valid|].
  - by eexists.
  - rewrite bind_run. unfold emit at 1. norm.
    assert (forall l h0, exists h1,
      for_each l (fun _ error => emit (print_error error)) tt h0 = (Return tt, h1)
      /\ frames h1 = frames h0 /\ validation_log h1 = validation_log h0) as Hloop.
    { induction l as [|e l IH]; intros h0; simpl; [by eexists|].
      rewrite bind_run. unfold emit at 1. norm.
      destruct (IH (mkHeap (frames h0) (validation_log h0)
                      (trace h0 ++ [print_error e]))) as (h1 & -> & Hf & Hl).
      by eexists. }
    destruct (Hloop errors (mkHeap (frames h) (validation_log h)
                              (trace h ++ [print failed]))) as (h1 & -> & Hf & Hl).
    norm. eexists. split; [done|]. simpl. by rewrite Hf, Hl.
  - by eexists.
Qed.

(** The run of [validate_schema] on a table with rows that has the four
    columns it reads. *)
Lemma validate_schema_run self l h :
  let df := frames h !!! l in
  rows df <> [] ->
  pd.has_column "record_type" df = true ->
  pd.has_column "pillar" df = true ->
  pd.has_column "value_type" df = true ->
  pd.has_column "confidence" df = true ->
  exists h',
    DataValidator.validate_schema self l h
    = (Return (DataValidator.is_empty (schema_errors df), schema_errors df), h')
    /\ frames h' = frames h
    /\ validation_log h' = validation_log h
         ++ [mkEntry "schema" (DataValidator.is_empty (schema_errors df))
               (schema_errors df)].
Proof.
  intros df Hrows Hrt Hp Hvt Hc. unfold DataValidator.validate_schema.
  step load_run. fold df. cbv zeta.
  assert ((pd.len df =? 0) = false) as ->.
  { apply Z.eqb_neq. unfold pd.len. destruct (rows df); [done|simpl; lia]. }
  step @getitem_run; [|exact Hrt]. step @getitem_run; [|exact Hrt].
  rewrite take_mask_observations. rewrite bind_run.
  match goal with |- context [(if ?c then ?a else ret ?e12) h] =>
    assert ((if c then a else ret e12) h
            = (Return (DataValidator.append_if
                         (DataValidator.nonempty
                            (pd.set_of (pd.dropna (pillar <$> rows (observations_of df)))
                             ∖ pd.set_of DataValidator.VALID_PILLARS))
                         e12
                         (Invalid_pillars
                            (pd.set_of (pd.dropna (pillar <$> rows (observations_of df)))
                             ∖ pd.set_of DataValidator.VALID_PILLARS))), h)) as ->
  end.
  { destruct (0 <? pd.len (observations_of df)) eqn:Hlen.
    - step @getitem_run; [|exact Hp]. done.
    - rewrite ret_run. f_equal. f_equal.
      apply Z.ltb_ge in Hlen. unfold pd.len in Hlen.
      destruct (rows (observations_of df)); [done|simpl in Hlen; lia]. }
  norm. step @getitem_run; [|exact Hvt]. step @getitem_run; [|exact Hc].
  change (DataValidator.append_if _ _ _) with (schema_errors df).
  rewrite bind_run.
  destruct (report_run_log self "schema" "✓ Schema validation passed"
              "✗ Schema validation failed:" (DataValidator.is_empty (schema_errors df))
              (schema_errors df) h)
    as (h' & -> & Hf & Hl).
  rewrite ret_run. by exists h'.
Qed.

(** On a table with rows that has the four columns it reads,
    [validate_schema] returns, changes no frame and appends one entry, its
    verdict and errors, to the validation log.  The verdict is valid exactly
    when no error is returned, that is when the table has all required
    columns, every record type, value type and confidence level that is not
    missing is a registered one, and so is every pillar of an observation. *)
Theorem validate_schema_valid_iff self l h :
  let df := frames h !!! l in
  rows df <> [] ->
  pd.has_column "record_type" df = true ->
  pd.has_column "pillar" df = true ->
  pd.has_column "value_type" df = true ->
  pd.has_column "confidence" df = true ->
  exists ok errors h',
    DataValidator.validate_schema self l h = (Return (ok, errors), h')
    /\ frames h' = frames h
    /\ validation_log h' = validation_log h ++ [mkEntry "schema" ok errors]
    /\ (ok = true <-> errors = [])
    /\ (ok = true <->
          (forall c, c ∈ DataValidator.REQUIRED_COLUMNS -> pd.has_column c df = true)
          /\ within DataValidator.VALID_RECORD_TYPES (record_type <$> rows df)
          /\ within DataValidator.VALID_PILLARS (pillar <$> rows (observations_of df))
          /\ within DataValidator.VALID_VALUE_TYPES (value_type <$> rows df)
          /\ within DataValidator.VALID_CONFIDENCE_LEVELS (confidence <$> rows df)).
Proof.
  intros df Hrows Hrt Hp Hvt Hc.
  destruct (validate_schema_run self l h Hrows Hrt Hp Hvt Hc) as (h' & Hrun & Hf & Hl).
  fold df in Hrun, Hl. eexists _, _, _. split; [exact Hrun|].
  split; [exact Hf|]. split; [exact Hl|]. split; [apply is_empty_true|].
  unfold schema_errors. cbv zeta. rewrite !is_empty_append_if. simpl DataValidator.is_empty.
  rewrite <- nonempty_missing_columns, <- !nonempty_difference.
  repeat match goal with |- context [DataValidator.nonempty ?x] =>
    destruct (DataValidator.nonempty x) end; simpl; naive_solver.
Qed.

Lemma validate_schema_valid_iff_witness :
  exists h',
    DataValidator.validate_schema Sample.validator 0%nat (Sample.heap [Sample.mixed])
    = (Return (true, []), h').
Proof.
  destruct (validate_schema_valid_iff Sample.validator 0%nat (Sample.heap [Sample.mixed]))
    as (ok & errors & h' & Hrun & _ & _ & _ & _); [discriminate | reflexivity ..|].
  exists h'. rewrite Hrun. f_equal. vm_compute in Hrun. by injection Hrun as <- <- _.
Defined.

(** ** When [validate_record_types] accepts a table *)

Lemma take_mask_zip_with {A B} df (f : A -> bool) (g : B -> bool)
    (a : Row -> A) (b : Row -> B) :
  pd.take_mask df (zip_with andb (f <$> (a <$> rows df)) (g <$> (b <$> rows df)))
  = mkFrame (columns df) (List.filter (fun r => f (a r) && g (b r)) (rows df)).
Proof.
  rewrite <- take_mask_fmap. f_equal.
  induction (rows df) as [|r rs IH]; [done|]. simpl. f_equal. exact IH.
Qed.

Lemma report_ids_errors bad make errors h :
  pd.has_column "record_id" bad = true ->
  DataValidator.report_ids bad make errors h
  = (Return (errors ++ ids_error make (rows bad)), h).
Proof.
  intros Hid. unfold DataValidator.report_ids, ids_error, pd.len.
  destruct (rows bad) as [|r rs] eqn:Hrows.
  - change (0 <? Z.of_nat (length (@nil Row))) with false. cbv iota.
    by rewrite ret_run, app_nil_r.
  - change (0 <? Z.of_nat (length (r :: rs))) with true. cbv iota.
    step @getitem_run; [|exact Hid]. by rewrite Hrows.
Qed.

Lemma ids_error_nil make bad : ids_error make bad = [] <-> bad = [].
Proof. by destruct bad. Qed.

Lemma length_ids_error make bad : (length (ids_error make bad) <= 1)%nat.
Proof. destruct bad; simpl; lia. Qed.

Lemma filter_nil {A} (f : A -> bool) (l : list A) :
  List.filter f l = [] <-> forall x, x ∈ l -> f x = false.
Proof.
  induction l as [|y l IH]; simpl.
  - split; [by intros _ x ?%elem_of_nil|done].
  - destruct (f y) eqn:Hy.
    + split; [done|]. intros H. specialize (H y (list_elem_of_here _ _)). congruence.
    + rewrite IH. split.
      * intros H x [->|Hx]%elem_of_cons; [done|by apply H].
      * intros H x Hx. apply H. by right.
Qed.

(** The run of [validate_record_types] on a table with the six columns it
    reads. *)
Lemma validate_record_types_run self l h :
  let df := frames h !!! l in
  pd.has_column "record_type" df = true ->
  pd.has_column "record_id" df = true ->
  pd.has_column "pillar" df = true ->
  pd.has_column "value_numeric" df = true ->
  pd.has_column "value_text" df = true ->
  pd.has_column "category" df = true ->
  exists h',
    DataValidator.validate_record_types self l h
    = (Return (DataValidator.is_empty (record_type_errors df), record_type_errors df), h')
    /\ frames h' = frames h
    /\ validation_log h' = validation_log h
         ++ [mkEntry "record_types" (DataValidator.is_empty (record_type_errors df))
               (record_type_errors df)].
Proof.
  intros df Hrt Hid Hp Hvn Hvt Hcat.
  unfold DataValidator.validate_record_types.
  step load_run. fold df. cbv zeta.
  step @getitem_run; [|exact Hrt]. rewrite take_mask_fmap2. fold (of_type "observation" df).
  step @getitem_run; [|exact Hp]. rewrite take_mask_fmap2. norm.
  step report_ids_errors; [|exact Hid].
  step @getitem_run; [|exact Hvn]. step @getitem_run; [|exact Hvt].
  rewrite (take_mask_zip_with (mkFrame (columns df) (of_type "observation" df))). norm.
  step report_ids_errors; [|exact Hid].
  step @getitem_run; [|exact Hrt]. rewrite take_mask_fmap2. fold (of_type "event" df).
  rewrite bind_run.
  match goal with |- context [(if ?c then ?a else ret ?e) h] =>
    assert ((if c then a else ret e) h
            = (Return ((e ++ ids_error Events_missing_category
                               (List.filter (fun r => pd.isna (category r))
                                  (of_type "event" df)))
                       ++ ids_error Events_with_pillar
                            (List.filter (fun r => pd.notna (pillar r))
                               (of_type "event" df))), h)) as ->
  end.
  { unfold pd.len. norm. destruct (of_type "event" df) as [|ev evs] eqn:Hev.
    - change (0 <? Z.of_nat (length (@nil Row))) with false. cbv iota.
      rewrite ret_run. simpl. by rewrite !app_nil_r.
    - change (0 <? Z.of_nat (length (ev :: evs))) with true. cbv iota.
      step @getitem_run; [|exact Hcat]. cbv zeta. rewrite take_mask_fmap2. norm.
      step report_ids_errors; [|exact Hid].
      step @getitem_run; [|exact Hp]. rewrite take_mask_fmap2. norm.
      by rewrite report_ids_errors by exact Hid. }
  norm.
  step @getitem_run; [|exact Hrt]. rewrite take_mask_fmap2. fold (of_type "target" df).
  rewrite bind_run.
  match goal with |- context [(if ?c then ?a else ret ?e) h] =>
    assert ((if c then a else ret e) h = (Return (record_type_errors df), h)) as ->
  end.
  { unfold record_type_errors, pd.len. norm.
    destruct (of_type "target" df) as [|tg tgs] eqn:Htg.
    - change (0 <? Z.of_nat (length (@nil Row))) with false. cbv iota.
      rewrite ret_run. simpl. by rewrite app_nil_r, <- !app_assoc.
    - change (0 <? Z.of_nat (length (tg :: tgs))) with true. cbv iota.
      step @getitem_run; [|exact Hp]. cbv zeta. rewrite take_mask_fmap2. norm.
      rewrite report_ids_errors by exact Hid. norm.
      simpl app at 1. by rewrite <- !app_assoc. }
  norm. rewrite bind_run.
  destruct (report_run_log self "record_types" "✓ Record type validation passed"
              "✗ Record type validation failed:"
              (DataValidator.is_empty (record_type_errors df))
              (record_type_errors df) h) as (h' & -> & Hf & Hl).
  rewrite ret_run. by exists h'.
Qed.

Lemma elem_of_of_type t df r :
  r ∈ of_type t df <-> r ∈ rows df /\ record_type r = Some t.
Proof.
  unfold of_type. rewrite elem_of_filter. unfold pd.eq_str.
  by rewrite bool_decide_eq_true.
Qed.

(** With the six columns it reads, [validate_record_types] returns, changes
    no frame and appends one entry, its verdict and errors, to the
    validation log.  It returns at most five errors, and the verdict is valid
    exactly when there is none, that is when every observation has a pillar
    and a numeric or textual value, every event has a category and no
    pillar, and every target has a pillar. *)
Theorem validate_record_types_valid_iff self l h :
  let df := frames h !!! l in
  pd.has_column "record_type" df = true ->
  pd.has_column "record_id" df = true ->
  pd.has_column "pillar" df = true ->
  pd.has_column "value_numeric" df = true ->
  pd.has_column "value_text" df = true ->
  pd.has_column "category" df = true ->
  exists ok errors h',
    DataValidator.validate_record_types self l h = (Return (ok, errors), h')
    /\ frames h' = frames h
    /\ validation_log h' = validation_log h ++ [mkEntry "record_types" ok errors]
    /\ (length errors <= 5)%nat
    /\ (ok = true <-> errors = [])
    /\ (ok = true <-> forall r, r ∈ rows df -> well_formed_record r).
Proof.
  intros df Hrt Hid Hp Hvn Hvt Hcat.
  destruct (validate_record_types_run self l h Hrt Hid Hp Hvn Hvt Hcat)
    as (h' & Hrun & Hf & Hl).
  fold df in Hrun, Hl. eexists _, _, _.
  split; [exact Hrun|]. split; [exact Hf|]. split; [exact Hl|]. split.
  { unfold record_type_errors. rewrite !length_app.
    repeat match goal with |- context [length (ids_error ?make ?bad)] =>
      let H := fresh in
      pose proof (length_ids_error make bad) as H;
      generalize dependent (length (ids_error make bad)); intros
    end. lia. }
  split; [apply is_empty_true|]. rewrite is_empty_true.
  unfold record_type_errors. rewrite !app_nil.
  rewrite !ids_error_nil, !filter_nil.
  unfold well_formed_record. split.
  - intros (H1 & H2 & H3 & H4 & H5) r Hr. split; [|split].
    + intros Ht. assert (r ∈ of_type "observation" df) as Hin
        by (by apply elem_of_of_type).
      specialize (H1 r Hin). specialize (H2 r Hin). split.
      * by destruct (pillar r).
      * destruct (Float.isna (value_numeric r)); [right|by left].
        by destruct (value_text r).
    + intros Ht. assert (r ∈ of_type "event" df) as Hin by (by apply elem_of_of_type).
      specialize (H3 r Hin). specialize (H4 r Hin). split.
      * by destruct (category r).
      * by destruct (pillar r).
    + intros Ht. assert (r ∈ of_type "target" df) as Hin by (by apply elem_of_of_type).
      specialize (H5 r Hin). by destruct (pillar r).
  - intros Hall. repeat split; intros r [Hr Ht]%elem_of_of_type;
      destruct (Hall r Hr) as (Ho & He & Htg).
    + destruct (Ho Ht) as [Hpil _]. by destruct (pillar r).
    + destruct (Ho Ht) as [_ [Hnum|Htxt]].
      * by rewrite Hnum.
      * destruct (value_text r); [|done]. by rewrite andb_false_r.
    + destruct (He Ht) as [Hc _]. by destruct (category r).
    + destruct (He Ht) as [_ Hpil]. by rewrite Hpil.
    + specialize (Htg Ht). by destruct (pillar r).
Qed.

Lemma validate_record_types_valid_iff_witness :
  exists h',
    DataValidator.validate_record_types Sample.validator 0%nat
      (Sample.heap [Sample.mixed])
    = (Return (true, []), h').
Proof.
  destruct (validate_record_types_valid_iff Sample.validator 0%nat
              (Sample.heap [Sample.mixed]))
    as (ok & errors & h' & Hrun & _); [reflexivity ..|].
  exists h'. rewrite Hrun. f_equal. vm_compute in Hrun. by injection Hrun as <- <- _.
Defined.

(** ** When [validate_pillar_rules] accepts a table *)

Lemma validate_pillar_rules_run self l h :
  let df := frames h !!! l in
  let errors := DataValidator.PILLAR_RULES ≫= pillar_errors (observations_of df) in
  pd.has_column "record_type" df = true ->
  pd.has_column "pillar" df = true ->
  pd.has_column "value_type" df = true ->
  exists h',
    DataValidator.validate_pillar_rules self l h
    = (Return (DataValidator.is_empty errors, errors), h')
    /\ frames h' = frames h
    /\ validation_log h' = validation_log h
         ++ [mkEntry "pillar_rules" (DataValidator.is_empty errors) errors].
Proof.
  intros df errors Hrt Hp Hvt. unfold DataValidator.validate_pillar_rules.
  step load_run. fold df. step @getitem_run; [|exact Hrt].
  rewrite take_mask_observations. rewrite bind_run.
  rewrite (for_each_append _ _ (pillar_errors (observations_of df))).
  - norm. change ([] ++ _) with errors. rewrite bind_run.
    destruct (report_run_log self "pillar_rules" "✓ Pillar rules validation passed"
                "✗ Pillar rules validation failed:" (DataValidator.is_empty errors)
                errors h) as (h' & -> & Hf & Hl).
    rewrite ret_run. by exists h'.
  - intros s item _. rewrite check_pillar_run by exact Hp.
    assert (pd.has_column "value_type" (observations_of df) = true) as -> by exact Hvt.
    by rewrite orb_true_r.
Qed.

Lemma length_pillar_errors obs_df item :
  (length (pillar_errors obs_df item) <= 2)%nat.
Proof.
  unfold pillar_errors, DataValidator.append_if. cbv zeta.
  destruct (pd.len _ =? 0); [simpl; lia|].
  destruct (DataValidator.nonempty _ && _);
    destruct (negb (DataValidator.is_empty (DataValidator.unexpected_codes _ _)));
    simpl; lia.
Qed.

Lemma registered_value_types name r :
  (name, r) ∈ DataValidator.PILLAR_RULES -> DataValidator.required_value_type r <> [].
Proof.
  unfold DataValidator.PILLAR_RULES. rewrite !elem_of_cons, elem_of_nil.
  intros [H|[H|[H|[H|[]]]]]; by injection H as -> ->.
Qed.

(** With the three columns it reads, [validate_pillar_rules] returns,
    changes no frame and appends one entry, its verdict and errors, to the
    validation log.  There are at most two errors for each registered
    pillar, and the verdict is valid exactly when there is none: when every
    observation of a registered pillar has an indicator code that is missing
    or accepted for the pillar, and a value type that is missing or one of
    those the pillar requires. *)
Theorem validate_pillar_rules_valid_iff self l h :
  let df := frames h !!! l in
  pd.has_column "record_type" df = true ->
  pd.has_column "pillar" df = true ->
  pd.has_column "value_type" df = true ->
  exists ok errors h',
    DataValidator.validate_pillar_rules self l h = (Return (ok, errors), h')
    /\ frames h' = frames h
    /\ validation_log h' = validation_log h ++ [mkEntry "pillar_rules" ok errors]
    /\ (length errors <= 8)%nat
    /\ (ok = true <-> errors = [])
    /\ (ok = true <->
          forall name r row,
            (name, r) ∈ DataValidator.PILLAR_RULES ->
            row ∈ rows df -> observation_of_pillar name row ->
            (forall code,
               cell_get df row "indicator_code" indicator_code (Some "") = Some code ->
               accepted r code)
            /\ (forall v, value_type row = Some v ->
                  v ∈ DataValidator.required_value_type r)).
Proof.
  intros df Hrt Hp Hvt.
  destruct (validate_pillar_rules_run self l h Hrt Hp Hvt) as (h' & Hrun & Hf & Hl).
  fold df in Hrun, Hl.
  set (errors := DataValidator.PILLAR_RULES ≫= pillar_errors (observations_of df)) in *.
  exists (DataValidator.is_empty errors), errors, h'.
  split; [exact Hrun|]. split; [exact Hf|]. split; [exact Hl|]. split.
  { etrans; [apply (length_bind_le _ _ 2); intros item; apply length_pillar_errors|].
    simpl. lia. }
  split; [apply is_empty_true|]. rewrite is_empty_true. split.
  - intros Hnil name r row Hreg Hrow Hobs.
    assert (forall m, m ∉ pillar_errors (observations_of df) (name, r)) as Hnone.
    { intros m Hm. assert (m ∈ errors) as Hin.
      { apply list_elem_of_bind. by exists (name, r). }
      rewrite Hnil in Hin. by apply elem_of_nil in Hin. }
    assert (row ∈ rows (pillar_obs_of name (observations_of df))) as Hin
      by (by apply elem_of_pillar_obs).
    assert (rows (pillar_obs_of name (observations_of df)) <> []) as Hne.
    { intros Heq. rewrite Heq in Hin. by apply elem_of_nil in Hin. }
    split.
    + intros code Hcode.
      destruct (existsb (fun valid_ind =>
                  DataValidator.startswith code (DataValidator.split0 valid_ind))
                  (DataValidator.valid_indicators r)) eqn:Hacc;
        [by apply existsb_accepted|].
      exfalso.
      assert (code ∈ DataValidator.unexpected_codes r
                       (pillar_obs_of name (observations_of df))) as Hbad.
      { apply elem_of_unexpected_codes. exists row. split; [done|]. split; [exact Hcode|].
        intros Ha%existsb_accepted. congruence. }
      eapply Hnone. apply elem_of_pillar_errors. split; [done|]. cbv zeta. left.
      split; [|reflexivity]. intros Heq. rewrite Heq in Hbad. by apply elem_of_nil in Hbad.
    + intros v Hv.
      destruct (decide (v ∈ DataValidator.required_value_type r)) as [|Hnot]; [done|].
      exfalso. eapply Hnone. apply elem_of_pillar_errors. split; [done|]. cbv zeta.
      right. split; [|split; [by eapply registered_value_types|reflexivity]].
      intros Heq.
      assert (v ∈ (pd.set_of (pd.dropna (value_type <$>
                      rows (pillar_obs_of name (observations_of df))))
                   ∖ pd.set_of (DataValidator.required_value_type r) : gset string))
        as Hv'.
      { apply elem_of_difference. unfold pd.set_of, pd.dropna.
        rewrite !elem_of_list_to_set. split; [|done].
        apply list_elem_of_omap. exists (Some v). split; [|done].
        apply list_elem_of_fmap. by exists row. }
      rewrite Heq in Hv'. by apply not_elem_of_empty in Hv'.
  - intros Hall. destruct errors as [|m ms] eqn:Herrors; [done|]. exfalso.
    assert (m ∈ errors) as Hm by (rewrite Herrors; apply list_elem_of_here).
    apply list_elem_of_bind in Hm as ([name r] & Hm & Hreg).
    apply elem_of_pillar_errors in Hm as [Hne Hcase]. cbv zeta in Hcase.
    destruct Hcase as [[Hbad _]|(Hbad & _ & _)].
    + destruct (DataValidator.unexpected_codes r _) as [|code codes] eqn:Hcodes; [done|].
      assert (code ∈ DataValidator.unexpected_codes r
                       (pillar_obs_of name (observations_of df))) as Hcode
        by (rewrite Hcodes; apply list_elem_of_here).
      apply elem_of_unexpected_codes in Hcode as (row & Hrow & Hcell & Hacc).
      apply elem_of_pillar_obs in Hrow as [Hrow Hobs].
      destruct (Hall name r row Hreg Hrow Hobs) as [Hcodes' _].
      apply Hacc, Hcodes'. exact Hcell.
    + apply set_choose_L in Hbad as [v Hv].
      apply elem_of_difference in Hv as [Hv Hnot].
      unfold pd.set_of, pd.dropna in Hv, Hnot. rewrite elem_of_list_to_set in Hv, Hnot.
      apply list_elem_of_omap in Hv as ([w|] & Hw & Hid); [|done]. injection Hid as ->.
      apply list_elem_of_fmap in Hw as (row & Hvt' & Hrow).
      apply elem_of_pillar_obs in Hrow as [Hrow Hobs].
      destruct (Hall name r row Hreg Hrow Hobs) as [_ Hvalue].
      apply Hnot, Hvalue. done.
Qed.

Lemma validate_pillar_rules_valid_iff_witness :
  exists h',
    DataValidator.validate_pillar_rules Sample.validator 0%nat
      (Sample.heap [Sample.ownership])
    = (Return (true, []), h').
Proof.
  destruct (validate_pillar_rules_valid_iff Sample.validator 0%nat
              (Sample.heap [Sample.ownership]))
    as (ok & errors & h' & Hrun & _); [reflexivity ..|].
  exists h'. rewrite Hrun. f_equal. vm_compute in Hrun. by injection Hrun as <- <- _.
Defined.

(** ** [validate_all] runs the three checks *)

Lemma validate_schema_empty_run self l h :
  rows (frames h !!! l) = [] ->
  DataValidator.validate_schema self l h
  = (Return (false,
             DataValidator.append_if
               (DataValidator.nonempty
                  (pd.set_of DataValidator.REQUIRED_COLUMNS
                   ∖ pd.set_of (columns (frames h !!! l))))
               []
               (Missing_required_columns
                  (pd.set_of DataValidator.REQUIRED_COLUMNS
                   ∖ pd.set_of (columns (frames h !!! l))))
             ++ [DataFrame_is_empty]), h).
Proof.
  intros Hrows. unfold DataValidator.validate_schema.
  step load_run. cbv zeta. unfold pd.len at 1. rewrite Hrows.
  change (Z.of_nat (length (@nil Row)) =? 0) with true. norm. by rewrite ret_run.
Qed.

(** The answers of the three checks depend on the table only, not on what
    has been printed or logged before. *)
Lemma validate_schema_stable self l h :
  let df := frames h !!! l in
  pd.has_column "record_type" df = true ->
  pd.has_column "pillar" df = true ->
  pd.has_column "value_type" df = true ->
  pd.has_column "confidence" df = true ->
  exists result, forall h2, frames h2 = frames h ->
    exists h2', DataValidator.validate_schema self l h2 = (Return result, h2')
      /\ frames h2' = frames h
      /\ validation_log h2' = validation_log h2 ++ schema_entries df result.
Proof.
  intros df Hrt Hp Hvt Hc. unfold schema_entries.
  destruct (rows df) as [|r rs] eqn:Hrows.
  - eexists. intros h2 Hh2. eexists. split; [|split].
    + rewrite validate_schema_empty_run by (by rewrite Hh2).
      rewrite Hh2. reflexivity.
    + exact Hh2.
    + simpl. by rewrite app_nil_r.
  - exists (DataValidator.is_empty (schema_errors df), schema_errors df).
    intros h2 Hh2.
    destruct (validate_schema_run self l h2) as (h2' & Hrun & Hf & Hl);
      try (rewrite Hh2; fold df; done).
    { rewrite Hh2. fold df. by rewrite Hrows. }
    rewrite Hh2 in Hrun, Hf, Hl. fold df in Hrun, Hl. by exists h2'.
Qed.

Lemma validate_pillar_rules_stable self l h :
  let df := frames h !!! l in
  pd.has_column "record_type" df = true ->
  pd.has_column "pillar" df = true ->
  pd.has_column "value_type" df = true ->
  exists result, forall h2, frames h2 = frames h ->
    exists h2', DataValidator.validate_pillar_rules self l h2 = (Return result, h2')
      /\ frames h2' = frames h
      /\ validation_log h2' = validation_log h2
           ++ [mkEntry "pillar_rules" result.1 result.2].
Proof.
  intros df Hrt Hp Hvt. eexists. intros h2 Hh2.
  destruct (validate_pillar_rules_run self l h2) as (h2' & Hrun & Hf & Hl);
    try (rewrite Hh2; fold df; done).
  rewrite Hh2 in Hrun, Hf, Hl. fold df in Hrun, Hl. exists h2'.
  split; [exact Hrun|]. by split.
Qed.

Lemma validate_record_types_stable self l h :
  let df := frames h !!! l in
  pd.has_column "record_type" df = true ->
  pd.has_column "record_id" df = true ->
  pd.has_column "pillar" df = true ->
  pd.has_column "value_numeric" df = true ->
  pd.has_column "value_text" df = true ->
  pd.has_column "category" df = true ->
  exists result, forall h2, frames h2 = frames h ->
    exists h2', DataValidator.validate_record_types self l h2 = (Return result, h2')
      /\ frames h2' = frames h
      /\ validation_log h2' = validation_log h2
           ++ [mkEntry "record_types" result.1 result.2].
Proof.
  intros df Hrt Hid Hp Hvn Hvt Hcat. eexists. intros h2 Hh2.
  destruct (validate_record_types_run self l h2) as (h2' & Hrun & Hf & Hl);
    try (rewrite Hh2; fold df; done).
  rewrite Hh2 in Hrun, Hf, Hl. fold df in Hrun, Hl. exists h2'.
  split; [exact Hrun|]. by split.
Qed.

(** On a table with the eight columns the checks read, [validate_all]
    returns what the three checks return when each is run on its own: its
    verdict is the conjunction of theirs, its report carries their verdicts
    and errors and the number of records, and the validation log, which the
    report refers to, has grown by the entries of the checks in the order
    schema, pillar rules, record types (no schema entry for a table without
    rows).  No frame is changed. *)
Theorem validate_all_composes self l h :
  let df := frames h !!! l in
  pd.has_column "record_type" df = true ->
  pd.has_column "record_id" df = true ->
  pd.has_column "pillar" df = true ->
  pd.has_column "value_type" df = true ->
  pd.has_column "confidence" df = true ->
  pd.has_column "value_numeric" df = true ->
  pd.has_column "value_text" df = true ->
  pd.has_column "category" df = true ->
  exists schema pillar type h1 h2 h3 h',
    DataValidator.validate_schema self l h = (Return schema, h1)
    /\ DataValidator.validate_pillar_rules self l h = (Return pillar, h2)
    /\ DataValidator.validate_record_types self l h = (Return type, h3)
    /\ DataValidator.validate_all self l h
       = (Return (schema.1 && pillar.1 && type.1,
                  DataValidator.mkReport (Z.of_nat (length (rows df)))
                    (schema.1 && pillar.1 && type.1) schema pillar type
                    (validation_log h')), h')
    /\ frames h' = frames h
    /\ validation_log h'
       = validation_log h ++ schema_entries df schema
         ++ [mkEntry "pillar_rules" pillar.1 pillar.2;
             mkEntry "record_types" type.1 type.2].
Proof.
  intros df Hrt Hid Hp Hvt Hc Hvn Htx Hcat.
  destruct (validate_schema_stable self l h Hrt Hp Hvt Hc) as (schema & Hschema).
  destruct (validate_pillar_rules_stable self l h Hrt Hp Hvt) as (pillar & Hpillar).
  destruct (validate_record_types_stable self l h Hrt Hid Hp Hvn Htx Hcat)
    as (type & Htype).
  fold df in Hschema.
  destruct (Hschema h eq_refl) as (h1 & Hrun1 & _).
  destruct (Hpillar h eq_refl) as (h2 & Hrun2 & _).
  destruct (Htype h eq_refl) as (h3 & Hrun3 & _).
  exists schema, pillar, type, h1, h2, h3.
  assert (exists h',
    DataValidator.validate_all self l h
    = (Return (schema.1 && pillar.1 && type.1,
               DataValidator.mkReport (Z.of_nat (length (rows df)))
                 (schema.1 && pillar.1 && type.1) schema pillar type
                 (validation_log h')), h')
    /\ frames h' = frames h
    /\ validation_log h'
       = validation_log h ++ schema_entries df schema
         ++ [mkEntry "pillar_rules" pillar.1 pillar.2;
             mkEntry "record_types" type.1 type.2]) as (h' & Hall & Hf & Hl).
  { unfold DataValidator.validate_all. step load_run.
    do 5 (rewrite bind_run; unfold emit at 1; norm).
    rewrite bind_run.
    match goal with |- context [DataValidator.validate_schema self l ?h0] =>
      destruct (Hschema h0 eq_refl) as (k1 & Hk1 & Hf1 & Hl1)
    end.
    rewrite Hk1. norm.
    destruct (Hpillar k1 Hf1) as (k2 & Hk2 & Hf2 & Hl2).
    rewrite bind_run, Hk2. norm.
    destruct (Htype k2 Hf2) as (k3 & Hk3 & Hf3 & Hl3).
    rewrite bind_run, Hk3. norm.
    cbv zeta. step load_run. rewrite bind_run. unfold get_validation_log at 1. norm.
    do 4 (rewrite bind_run; unfold emit at 1; norm). rewrite ret_run.
    unfold pd.len. rewrite Hf3. fold df.
    match goal with |- exists h', (_, ?final) = _ /\ _ => exists final end.
    split; [reflexivity|]. split; [done|].
    simpl validation_log. rewrite Hl3, Hl2, Hl1. simpl validation_log.
    by rewrite <- !app_assoc. }
  exists h'. by repeat split.
Qed.

Lemma validate_all_composes_witness :
  exists report h',
    DataValidator.validate_all Sample.validator 0%nat (Sample.heap [Sample.mixed])
    = (Return (false, report), h')
    /\ length (validation_log h') = 3%nat.
Proof.
  destruct (validate_all_composes Sample.validator 0%nat (Sample.heap [Sample.mixed]))
    as (schema & pillar & type & h1 & h2 & h3 & h' & H1 & H2 & H3 & Hall & _ & Hlog);
    [reflexivity ..|].
  eexists _, h'. split.
  - rewrite Hall. vm_compute in H1, H2, H3.
    injection H1 as <- _. injection H2 as <- _. injection H3 as <- _. reflexivity.
  - rewrite Hlog. reflexivity.
Defined.

(** ** [get_key_insights] *)

Lemma filter_complement {A} (f g : A -> bool) (l : list A) :
  (forall x, g x = negb (f x)) -> List.filter f l ++ List.filter g l ≡ₚ l.
Proof.
  intros Hfg. induction l as [|x l IH]; [done|]. simpl. rewrite Hfg.
  destruct (f x); simpl.
  - by constructor.
  - rewrite <- Permutation_middle. by constructor.
Qed.

(** [value_counts] lists each value that occurs once, with the number of
    its occurrences, the counts in descending order. *)
Lemma value_counts_spec s :
  pairwise (fun a b : string * Z => b.2 <= a.2) (pd.value_counts s)
  /\ (forall v c, (v, c) ∈ pd.value_counts s <-> Some v ∈ s /\ c = count_of v s).
Proof.
  unfold pd.value_counts.
  set (counted := (fun v => (v, Z.of_nat (length (List.filter (pd.eq_str v) s))))
                    <$> pd.unique (pd.dropna s)).
  assert (forall c : list (string * Z),
    let sorted :=
      foldr (fun x sorted =>
               List.filter (fun y => x.2 <? y.2) sorted
               ++ x :: List.filter (fun y => y.2 <=? x.2) sorted) [] c in
    pairwise (fun a b : string * Z => b.2 <= a.2) sorted /\ sorted ≡ₚ c) as Hsort.
  { induction c as [|x c [IHp IHperm]]; [done|]. simpl. split.
    - apply pairwise_app.
      + by apply pairwise_filter.
      + split; [|by apply pairwise_filter].
        apply Forall_forall. intros y [_ Hy]%elem_of_filter. simpl. lia.
      + intros a b [_ Ha]%elem_of_filter Hb. apply Z.ltb_lt in Ha.
        apply elem_of_cons in Hb as [->|[_ Hb]%elem_of_filter]; lia.
    - rewrite <- Permutation_middle. constructor. rewrite <- IHperm at 3.
      apply filter_complement. intros y. simpl. lia. }
  destruct (Hsort counted) as [Hp Hperm]. split; [exact Hp|].
  intros v c. rewrite Hperm. unfold counted. rewrite list_elem_of_fmap.
  destruct (unique_spec (pd.dropna s)) as (_ & Hin & _).
  assert (forall w, w ∈ pd.dropna s <-> Some w ∈ s) as Hdrop.
  { intros w. unfold pd.dropna. rewrite list_elem_of_omap. split.
    - intros ([x|] & Hx & Hid); [|done]. by injection Hid as ->.
    - intros Hw. by exists (Some w). }
  unfold count_of. split.
  - intros (w & [= -> ->] & Hw%Hin%Hdrop). done.
  - intros [Hv ->]. exists v. split; [done|]. by apply Hin, Hdrop.
Qed.

Lemma value_counts_nil s : pd.value_counts s = [] -> forall v, Some v ∉ s.
Proof.
  intros Hnil v Hv. destruct (value_counts_spec s) as [_ Hin].
  assert ((v, count_of v s) ∈ pd.value_counts s) as H by (by apply Hin).
  rewrite Hnil in H. by apply elem_of_nil in H.
Qed.

(** On an analyzer whose observations passed the constructor's checks,
    [get_key_insights] prints and logs nothing and changes no frame, and its
    outcome is decided by the first of these that applies: without a pillar
    column it raises [KeyError] for pillar; when no observation has a pillar
    it raises [IndexError]; without a confidence column it raises [KeyError]
    for confidence; with events that lack the category column it raises
    [KeyError] for category; otherwise it returns four insights, plus one
    when there are events, the third naming a pillar with the largest number
    of observations.  Each outcome occurs exactly in its case; it never
    divides by zero. *)
Theorem get_key_insights_outcome self h :
  constructed self h ->
  let obs := frames h !!! FinancialInclusionAnalyzer.observations self in
  let pillars := pillar <$> rows obs in
  let has_pillar := pd.has_column "pillar" obs in
  let some_pillar := exists r, r ∈ rows obs /\ pillar r <> None in
  let has_confidence := pd.has_column "confidence" obs in
  let lacks_category :=
    has_events self h = true
    /\ exists ev, FinancialInclusionAnalyzer.events self = Some ev
         /\ pd.has_column "category" (frames h !!! ev) = false in
  exists o,
    FinancialInclusionAnalyzer.get_key_insights self h = (o, h)
    /\ (o = Raise (KeyError "pillar") <-> has_pillar = false)
    /\ (o = Raise IndexError
        <-> has_pillar = true /\ forall r, r ∈ rows obs -> pillar r = None)
    /\ (o = Raise (KeyError "confidence")
        <-> has_pillar = true /\ some_pillar /\ has_confidence = false)
    /\ (o = Raise (KeyError "category")
        <-> has_pillar = true /\ some_pillar /\ has_confidence = true
            /\ lacks_category)
    /\ ((exists insights, o = Return insights)
        <-> has_pillar = true /\ some_pillar /\ has_confidence = true
            /\ ~ lacks_category)
    /\ match o with
       | Return insights =>
           length insights = (if has_events self h then 5 else 4)%nat
           /\ exists top count,
                insights !! 2%nat = Some (FinancialInclusionAnalyzer.Top_pillar top count)
                /\ Some top ∈ pillars
                /\ count = count_of top pillars
                /\ forall q, Some q ∈ pillars -> count_of q pillars <= count
       | Raise e =>
           e = KeyError "pillar" \/ e = IndexError
           \/ e = KeyError "confidence" \/ e = KeyError "category"
       end.
Proof.
  intros (Hrows & _ & Hy & _) obs pillars. fold obs in Hrows, Hy. cbv zeta.
  unfold FinancialInclusionAnalyzer.get_key_insights.
  step load_run. fold obs. cbv zeta.
  step @getitem_run; [|exact Hy]. step @getitem_run; [|exact Hy].
  step @getitem_run; [|exact Hy]. rewrite bind_run.
  unfold FinancialInclusionAnalyzer.percentage at 1.
  assert ((pd.len obs =? 0) = false) as ->.
  { apply Z.eqb_neq. unfold pd.len. destruct (rows obs); [done|simpl; lia]. }
  rewrite ret_run. norm.
  destruct (pd.has_column "pillar" obs) eqn:Hp; cycle 1.
  { rewrite bind_run, getitem_raise by exact Hp. eexists. split; [reflexivity|].
    split_and!; try (split; naive_solver congruence). by left. }
  step @getitem_run; [|exact Hp]. fold pillars.
  destruct (value_counts_spec pillars) as [Hsorted Hin].
  destruct (pd.value_counts pillars) as [|[top count] rest] eqn:Hvc.
  { assert (forall r, r ∈ rows obs -> pillar r = None) as Hnone.
    { intros r Hr. destruct (pillar r) as [p|] eqn:Hpr; [|done]. exfalso.
      assert ((p, count_of p pillars) ∈ ([] : list (string * Z))) as Hbad.
      { apply Hin. split; [|done]. apply list_elem_of_fmap. by exists r. }
      by apply elem_of_nil in Hbad. }
    clear Hin Hsorted.
    rewrite raise_run. eexists. split; [reflexivity|].
    split_and!; try (split; naive_solver congruence). right. by left. }
  assert (Some top ∈ pillars /\ count = count_of top pillars
          /\ forall q, Some q ∈ pillars -> count_of q pillars <= count) as Htop.
  { destruct (proj1 (Hin top count) (list_elem_of_here _ _)) as [Hmem Hcount].
    split; [done|]. split; [done|]. intros q Hq.
    assert ((q, count_of q pillars) ∈ (top, count) :: rest) as Hqin by (by apply Hin).
    destruct Hsorted as [Hall _]. rewrite Forall_forall in Hall.
    apply elem_of_cons in Hqin as [[= <- <-]|Hqin]; [lia|].
    apply (Hall _ Hqin). }
  assert (exists r, r ∈ rows obs /\ pillar r <> None) as Hsome.
  { destruct Htop as [(r & Hr & Hrow)%list_elem_of_fmap _].
    exists r. split; [done|]. by rewrite <- Hr. }
  assert (~ forall r, r ∈ rows obs -> pillar r = None) as Hnot_none.
  { intros Hnone. destruct Hsome as (r & Hr & Hne). by apply Hne, Hnone. }
  clear Hin Hsorted Hvc.
  destruct (pd.has_column "confidence" obs) eqn:Hconf; cycle 1.
  { rewrite bind_run, getitem_raise by exact Hconf. eexists. split; [reflexivity|].
    split_and!; try (split; naive_solver congruence). right. right. by left. }
  step @getitem_run; [|exact Hconf].
  unfold has_events.
  destruct (FinancialInclusionAnalyzer.events self) as [ev|] eqn:Hev; cycle 1.
  { rewrite ret_run. eexists. split; [reflexivity|].
    split_and!; try (split; naive_solver congruence).
    by exists top, count. }
  step load_run.
  destruct (0 <? pd.len (frames h !!! ev)) eqn:Hlen; cycle 1.
  { rewrite ret_run. eexists. split; [reflexivity|].
    split_and!; try (split; naive_solver congruence).
    by exists top, count. }
  destruct (pd.has_column "category" (frames h !!! ev)) eqn:Hcat.
  - step @getitem_run; [|exact Hcat]. rewrite ret_run.
    eexists. split; [reflexivity|].
    split_and!; try (split; naive_solver congruence).
    by exists top, count.
  - rewrite bind_run, getitem_raise by exact Hcat. eexists. split; [reflexivity|].
    split_and!; try (split; naive_solver congruence). right. right. by right.
Qed.

Lemma get_key_insights_outcome_witness :
  exists insights,
    FinancialInclusionAnalyzer.get_key_insights Sample.analyzer
      (Sample.heap [Sample.ownership])
    = (Return insights, Sample.heap [Sample.ownership])
    /\ insights !! 2%nat = Some (FinancialInclusionAnalyzer.Top_pillar "ACCESS" 2).
Proof.
  destruct (get_key_insights_outcome Sample.analyzer (Sample.heap [Sample.ownership]))
    as (o & Hrun & _).
  - repeat split; [discriminate | reflexivity ..].
  - pose proof Hrun as Hval. vm_compute in Hval.
    injection Hval as <-. eexists. split; [exact Hrun|]. reflexivity.
Defined.

(** ** The order of the results *)

Lemma pairwise_bind {A B} (R' : A -> A -> Prop) (R : B -> B -> Prop)
    (f : A -> list B) (l : list A) :
  pairwise R' l ->
  (forall x, x ∈ l -> pairwise R (f x)) ->
  (forall x y a b, x ∈ l -> y ∈ l -> R' x y -> a ∈ f x -> b ∈ f y -> R a b) ->
  pairwise R (l ≫= f).
Proof.
  induction l as [|x l IH]; intros Hl Hin Hcross; [done|].
  destruct Hl as [Hall Hl]. rewrite bind_cons. apply pairwise_app.
  - apply Hin. by left.
  - apply IH; [done| |].
    + intros y Hy. apply Hin. by right.
    + intros y z a b Hy Hz. apply Hcross; by right.
  - intros a b Ha (y & Hb & Hy)%list_elem_of_bind.
    rewrite Forall_forall in Hall.
    apply (Hcross x y); [by left|by right|by apply Hall|done..].
Qed.

Lemma pairwise_seq a m : pairwise lt (seq a m).
Proof.
  revert a. induction m as [|m IH]; intros a; [done|]. simpl. split; [|apply IH].
  apply Forall_forall. intros i Hi%elem_of_seq. lia.
Qed.

Section Sorting.

Context {K : Type} (leb : K -> K -> bool).
Hypothesis leb_total : forall a b, leb a b = false -> leb b a = true.
Hypothesis leb_trans : forall a b c, leb a b = true -> leb b c = true -> leb a c = true.

Lemma insert_sorted_sorted x (l : list (K * Row)) :
  pairwise (fun a b => leb a.1 b.1 = true) l ->
  pairwise (fun a b => leb a.1 b.1 = true) (pd.insert_sorted leb x l).
Proof.
  induction l as [|y l IH]; intros Hp; simpl; [done|].
  destruct Hp as [Hall Hp]. destruct (leb x.1 y.1) eqn:Hle.
  - simpl. split; [|done].
    constructor; [done|]. eapply Forall_impl; [exact Hall|]. simpl.
    intros z Hz. by eapply leb_trans.
  - simpl. split; [|by apply IH].
    rewrite insert_sorted_perm. constructor; [by apply leb_total|done].
Qed.

(** [sort_values] leaves the rows in ascending order of the key, the rows
    without a key last. *)
Lemma sort_rows_sorted key l : pairwise (key_le leb key) (pd.sort_rows leb key l).
Proof.
  unfold pd.sort_rows.
  assert (forall kl : list (K * Row),
            pairwise (fun a b => leb a.1 b.1 = true)
              (foldr (pd.insert_sorted leb) [] kl)
            /\ foldr (pd.insert_sorted leb) [] kl ≡ₚ kl) as Hsort.
  { induction kl as [|x kl [IHs IHp]]; [done|]. simpl. split.
    - by apply insert_sorted_sorted.
    - rewrite insert_sorted_perm. by constructor. }
  destruct (Hsort (pd.keyed key l)) as [Hsorted Hperm].
  assert (forall x, x ∈ foldr (pd.insert_sorted leb) [] (pd.keyed key l) ->
            key x.2 = Some x.1) as Hkeys.
  { intros x Hx. rewrite Hperm in Hx. unfold pd.keyed in Hx.
    apply list_elem_of_omap in Hx as (r & _ & Hr).
    destruct (key r) as [k|] eqn:Hk; [|done]. by injection Hr as <-. }
  apply pairwise_app.
  - apply pairwise_fmap. eapply pairwise_impl; [exact Hsorted|].
    intros x y Hx Hy Hle. unfold key_le. by rewrite (Hkeys x Hx), (Hkeys y Hy).
  - clear. induction l as [|r l IH]; simpl; [done|].
    destruct (pd.isna (key r)) eqn:Hna; [|done]. simpl. split; [|done].
    apply Forall_forall. intros y [_ Hy]%elem_of_filter. unfold key_le.
    destruct (key y); [done|]. by destruct (key r).
  - intros x y (kx & -> & Hx)%list_elem_of_fmap [_ Hy]%elem_of_filter.
    unfold key_le. rewrite (Hkeys kx Hx). by destruct (key y).
Qed.

End Sorting.

Lemma Time_leb_total a b : Time.leb a b = false -> Time.leb b a = true.
Proof. unfold Time.leb. rewrite Z.leb_gt, Z.leb_le. lia. Qed.

Lemma Time_leb_trans a b c :
  Time.leb a b = true -> Time.leb b c = true -> Time.leb a c = true.
Proof. unfold Time.leb. rewrite !Z.leb_le. lia. Qed.

(** When [find_event_correlations] reaches its scan (the analyzer has
    events and both tables their date column), the rows it returns are in
    ascending order of observation date, and no row pairs an observation
    with a later event: the event date is never after the observation date
    and the number of days between them is not negative. *)
Theorem find_event_correlations_order self code lag h ev :
  let obs := frames h !!! FinancialInclusionAnalyzer.observations self in
  let events := frames h !!! ev in
  FinancialInclusionAnalyzer.events self = Some ev ->
  rows events <> [] ->
  pd.has_column "event_date" events = true ->
  pd.has_column "observation_date" obs = true ->
  pd.has_column "indicator_code" obs = true ->
  pd.has_column "value_numeric" obs = true ->
  exists result h',
    FinancialInclusionAnalyzer.find_event_correlations self code lag h
    = (Return result, h')
    /\ pairwise (fun c1 c2 =>
                   Time.leb (FinancialInclusionAnalyzer.corr_observation_date c1)
                            (FinancialInclusionAnalyzer.corr_observation_date c2) = true)
         result
    /\ forall c, c ∈ result ->
         Time.leb (FinancialInclusionAnalyzer.corr_event_date c)
                  (FinancialInclusionAnalyzer.corr_observation_date c) = true
         /\ 0 <= Time.days_between (FinancialInclusionAnalyzer.corr_observation_date c)
                  (FinancialInclusionAnalyzer.corr_event_date c).
Proof.
  intros obs events Hev Hrows Hed Hod Hic Hv.
  destruct (find_event_correlations_run self code lag h ev Hev Hrows Hed Hod Hic Hv)
    as (h' & Hrun & _).
  fold obs events in Hrun. eexists _, h'. split; [exact Hrun|].
  assert (forall o c, c ∈ correlations_for events lag o ->
            observation_date o = Some (FinancialInclusionAnalyzer.corr_observation_date c)
            /\ Time.leb (FinancialInclusionAnalyzer.corr_event_date c)
                        (FinancialInclusionAnalyzer.corr_observation_date c) = true)
    as Hrow.
  { intros o c
      (e & od & ws & ed & Hdate & _ & _ & _ & _ & Hle & ->)%elem_of_correlations_for.
    done. }
  split.
  - apply (pairwise_bind (key_le Time.leb observation_date)).
    + apply sort_rows_sorted; [apply Time_leb_total|apply Time_leb_trans].
    + intros o _.
      assert (forall l : list FinancialInclusionAnalyzer.correlation,
                (forall c, c ∈ l -> observation_date o
                   = Some (FinancialInclusionAnalyzer.corr_observation_date c)) ->
                pairwise (fun c1 c2 =>
                   Time.leb (FinancialInclusionAnalyzer.corr_observation_date c1)
                            (FinancialInclusionAnalyzer.corr_observation_date c2) = true) l)
        as Hsame.
      { induction l as [|c l IH]; intros Hl; [done|]. split.
        - apply Forall_forall. intros c' Hc'.
          pose proof (Hl c (list_elem_of_here _ _)) as H1.
          pose proof (Hl c' (list_elem_of_further _ _ _ Hc')) as H2.
          rewrite H1 in H2. injection H2 as ->. unfold Time.leb. apply Z.leb_refl.
        - apply IH. intros c' Hc'. apply Hl. by right. }
      apply Hsame. intros c Hc. by apply Hrow.
    + intros o1 o2 c1 c2 _ _ Hle [H1 _]%Hrow [H2 _]%Hrow.
      unfold key_le in Hle. by rewrite H1, H2 in Hle.
  - intros c (o & [_ Hle]%Hrow & _)%list_elem_of_bind. split; [done|].
    unfold Time.leb in Hle. apply Z.leb_le in Hle. unfold Time.days_between.
    apply Z.div_pos; [lia|done].
Qed.

Lemma find_event_correlations_order_witness :
  exists result h',
    FinancialInclusionAnalyzer.find_event_correlations Sample.analyzer_with_events
      "MOBILE_MONEY_ACC" 6 (Sample.heap [Sample.mobile_money; Sample.launches])
    = (Return result, h')
    /\ forall c, c ∈ result ->
         0 <= Time.days_between (FinancialInclusionAnalyzer.corr_observation_date c)
                (FinancialInclusionAnalyzer.corr_event_date c).
Proof.
  destruct (find_event_correlations_order Sample.analyzer_with_events
              "MOBILE_MONEY_ACC" 6
              (Sample.heap [Sample.mobile_money; Sample.launches]) 1%nat)
    as (result & h' & Hrun & _ & Hdays); [reflexivity | discriminate | reflexivity ..|].
  exists result, h'. split; [exact Hrun|]. intros c Hc. by apply Hdays.
Defined.

(** The changes [identify_trend_changes] returns on a constructed analyzer
    are in ascending order of year: they follow the rows of the growth
    series, which are sorted. *)
Theorem identify_trend_changes_order self code threshold h :
  constructed self h ->
  exists changes h',
    FinancialInclusionAnalyzer.identify_trend_changes self code threshold h
    = (Return changes, h')
    /\ ascending (FinancialInclusionAnalyzer.change_year <$> changes).
Proof.
  intros Hc.
  destruct (identify_trend_changes_run self code threshold h Hc)
    as (growth & h1 & h' & Hcalc & Hrun & _).
  eexists _, h'. split; [exact Hrun|].
  assert (pairwise year_le (rows growth)) as Hsorted.
  { destruct (decide (code = "")) as [->|Hne].
    - rewrite calculate_growth_rate_empty_code in Hcalc. by injection Hcalc as <- _.
    - destruct Hc as (_ & Hic & Hy & Hv).
      destruct (calculate_growth_rate_run self code h Hne Hic Hy Hv) as (h2 & Hrun2 & _).
      rewrite Hrun2 in Hcalc. injection Hcalc as <- _.
      destruct (_ <? 2); [done|]. simpl.
      set (data := series_of code _).
      assert (year <$> growth_rows data = year <$> data) as Hyears.
      { apply list_eq. intros i. rewrite !list_lookup_fmap.
        destruct (data !! i) as [d|] eqn:Hd.
        - destruct (lookup_growth_rows data i d Hd) as (r & -> & Hyr & _).
          simpl. by rewrite Hyr.
        - rewrite (lookup_ge_None_2 (growth_rows data) i); [done|].
          rewrite length_growth_rows. by apply lookup_ge_None_1. }
      assert (forall l1 l2 : list Row, year <$> l1 = year <$> l2 ->
                pairwise year_le l2 -> pairwise year_le l1) as Htransfer.
      { induction l1 as [|a l1 IH]; intros [|b l2] Heq Hp; try done.
        injection Heq as Hab Heq. destruct Hp as [Hall Hp]. split; [|by eapply IH].
        clear IH Hp. revert l2 Heq Hall.
        induction l1 as [|c l1 IH]; intros [|d l2] Heq Hall; try done.
        injection Heq as Hcd Heq. inversion Hall as [|? ? Hbd Hall']; subst.
        constructor; [|by eapply IH].
        unfold year_le in *. by rewrite Hab, Hcd. }
      apply (Htransfer _ data Hyears). apply sort_rows_ascending. }
  unfold ascending. apply pairwise_fmap. unfold range.
  apply (pairwise_bind lt); [apply pairwise_seq| |].
  - intros i _. unfold slowdown_at.
    destruct (rows growth !! i), (rows growth !! (i - 1)%nat); try done.
    by destruct (_ && _).
  - intros i j a b _ _ Hij Ha Hb.
    assert (forall k c, c ∈ slowdown_at (rows growth) threshold k ->
              exists r, rows growth !! k = Some r
                /\ FinancialInclusionAnalyzer.change_year c = year r) as Hat.
    { intros k c Hk. unfold slowdown_at in Hk.
      destruct (rows growth !! k) as [cur|]; [|by apply elem_of_nil in Hk].
      destruct (rows growth !! (k - 1)%nat) as [prev|]; [|by apply elem_of_nil in Hk].
      destruct (_ && _); [|by apply elem_of_nil in Hk].
      apply list_elem_of_singleton in Hk as ->. by exists cur. }
    destruct (Hat i a Ha) as (ri & Hi & ->). destruct (Hat j b Hb) as (rj & Hj & ->).
    exact (pairwise_lookup year_le (rows growth) i j ri rj Hsorted Hij Hi Hj).
Qed.

Lemma identify_trend_changes_order_witness :
  exists changes h',
    FinancialInclusionAnalyzer.identify_trend_changes Sample.analyzer "GENDER_GAP" 0.5
      (Sample.heap [Sample.gap]) = (Return changes, h')
    /\ ascending (FinancialInclusionAnalyzer.change_year <$> changes).
Proof.
  apply identify_trend_changes_order.
  repeat split; [discriminate | reflexivity ..].
Defined.

(** ** Thresholds that flag nothing *)

(** An absolute value is below a positive threshold only. *)
Lemma abs_ltb_positive (x t : float) :
  (abs x <? t)%float = true -> (0 <? t)%float = true.
Proof.
  rewrite !ltb_spec, abs_spec. change (Prim2SF 0) with (S754_zero false).
  unfold SFltb.
  destruct (Prim2SF x) as [sx|sx| |sx mx ex], (Prim2SF t) as [st|st| |st mt et];
    simpl; try done; try (by destruct st).
Qed.

(** With a threshold that is zero, negative or NaN, [identify_trend_changes]
    reports no change, whatever the series: no absolute change is below
    such a threshold. *)
Theorem identify_trend_changes_nonpositive_threshold self code threshold h :
  constructed self h ->
  (0 <? threshold)%float = false ->
  exists h',
    FinancialInclusionAnalyzer.identify_trend_changes self code threshold h
    = (Return [], h').
Proof.
  intros Hc Ht.
  destruct (identify_trend_changes_run self code threshold h Hc)
    as (growth & h1 & h' & _ & Hrun & _).
  exists h'. rewrite Hrun. f_equal. f_equal. clear Hrun.
  induction (range 1 (length (rows growth))) as [|i l IH]; [done|].
  rewrite bind_cons, IH, app_nil_r. unfold slowdown_at.
  destruct (rows growth !! i) as [cur|]; [|done].
  destruct (rows growth !! (i - 1)%nat) as [prev|]; [|done].
  destruct (abs (growth_pp cur) <? threshold)%float eqn:E; [|done].
  apply abs_ltb_positive in E. congruence.
Qed.

Lemma identify_trend_changes_nonpositive_threshold_witness :
  exists h',
    FinancialInclusionAnalyzer.identify_trend_changes Sample.analyzer "GENDER_GAP" 0
      (Sample.heap [Sample.gap]) = (Return [], h').
Proof.
  apply identify_trend_changes_nonpositive_threshold.
  - repeat split; [discriminate | reflexivity ..].
  - reflexivity.
Defined.

(** ** Tables without a [record_type] column *)

Lemma validate_pillar_rules_without_record_type self l h :
  pd.has_column "record_type" (frames h !!! l) = false ->
  DataValidator.validate_pillar_rules self l h = (Raise (KeyError "record_type"), h).
Proof.
  intros Hrt. unfold DataValidator.validate_pillar_rules.
  step load_run. by rewrite bind_run, getitem_raise.
Qed.

Lemma validate_record_types_without_record_type self l h :
  pd.has_column "record_type" (frames h !!! l) = false ->
  DataValidator.validate_record_types self l h = (Raise (KeyError "record_type"), h).
Proof.
  intros Hrt. unfold DataValidator.validate_record_types.
  step load_run. by rewrite bind_run, getitem_raise.
Qed.

(** On a table without the column [record_type] none of the checks that
    read it reports the missing column: [validate_pillar_rules] and
    [validate_record_types] raise [KeyError] whatever the table holds, and so
    does [validate_all], also for a table without rows, for which
    [validate_schema] on its own returns its verdict.  Nothing is logged and
    no frame is changed. *)
Theorem validate_all_without_record_type self l h :
  pd.has_column "record_type" (frames h !!! l) = false ->
  DataValidator.validate_pillar_rules self l h = (Raise (KeyError "record_type"), h)
  /\ DataValidator.validate_record_types self l h = (Raise (KeyError "record_type"), h)
  /\ exists h',
       DataValidator.validate_all self l h = (Raise (KeyError "record_type"), h')
       /\ frames h' = frames h
       /\ validation_log h' = validation_log h.
Proof.
  intros Hrt.
  split; [by apply validate_pillar_rules_without_record_type|].
  split; [by apply validate_record_types_without_record_type|].
  unfold DataValidator.validate_all. step load_run.
  do 5 (rewrite bind_run; unfold emit at 1; norm).
  rewrite bind_run.
  destruct (rows (frames h !!! l)) as [|r rs] eqn:Hrows.
  - rewrite validate_schema_empty_run by exact Hrows. norm.
    rewrite bind_run, validate_pillar_rules_without_record_type by exact Hrt.
    by eexists.
  - rewrite validate_schema_without_record_type; [by eexists| |exact Hrt].
    simpl. by rewrite Hrows.
Qed.

Lemma validate_all_without_record_type_witness :
  exists h',
    DataValidator.validate_all Sample.validator 0%nat (Sample.heap [pd_DataFrame])
    = (Raise (KeyError "record_type"), h').
Proof.
  destruct (validate_all_without_record_type Sample.validator 0%nat
              (Sample.heap [pd_DataFrame])) as (_ & _ & h' & Hrun & _);
    [reflexivity|].
  by exists h'.
Defined.

(** ** [compare_pillars] counts every observation once *)

Lemma compare_pillars_run self h :
  let obs := frames h !!! FinancialInclusionAnalyzer.observations self in
  pd.has_column "pillar" obs = true ->
  pd.has_column "year" obs = true ->
  pd.has_column "indicator_code" obs = true ->
  exists h',
    FinancialInclusionAnalyzer.compare_pillars self h
    = (Return (pillar_row obs <$> pd.dropna (pd.unique (pillar <$> rows obs))), h')
    /\ frames h' = frames h.
Proof.
  intros obs Hp Hy Hic.
  destruct (unique_spec (pillar <$> rows obs)) as (_ & Hin & _).
  unfold FinancialInclusionAnalyzer.compare_pillars.
  rewrite try_except_run. step load_run. fold obs. rewrite Hp.
  change (negb true) with false. cbv iota.
  step @getitem_run; [|exact Hp]. rewrite bind_run.
  rewrite (for_each_append _ _
             (fun p => match p with None => [] | Some name => [pillar_row obs name] end)).
  - norm. rewrite bind_dropna.
    change ([] ++ ?l) with l.
    destruct (Z.of_nat (length _) =? 0) eqn:Hlen.
    + apply Z.eqb_eq in Hlen.
      match goal with |- context [(Return ?l, _)] =>
        assert (l = []) as -> by (apply nil_length_inv; lia)
      end.
      by eexists.
    + by eexists.
  - intros s [name|] Hx; [|by rewrite ret_run, app_nil_r].
    apply (compare_pillars_step obs name s h Hp Hy Hic).
    apply Hin, list_elem_of_fmap in Hx as (r & Hr & Hrow). by exists r.
Qed.

Lemma total_add {A} (f g : A -> Z) (l : list A) :
  total ((fun v => f v + g v) <$> l) = total (f <$> l) + total (g <$> l).
Proof.
  unfold total. induction l as [|x l IH]; [done|].
  rewrite !fmap_cons. cbn [foldr]. rewrite IH. lia.
Qed.

Lemma total_indicator (names : list string) (cell : option string) :
  NoDup names ->
  total ((fun v => if pd.eq_str v cell then 1 else 0) <$> names)
  = match cell with
    | Some w => if bool_decide (w ∈ names) then 1 else 0
    | None => 0
    end.
Proof.
  unfold total, pd.eq_str. induction 1 as [|v names Hv Hnd IH].
  - by destruct cell.
  - rewrite fmap_cons. cbn [foldr]. rewrite IH. destruct cell as [w|]; [|by rewrite bool_decide_eq_false_2].
    destruct (decide (w = v)) as [->|Hne].
    + rewrite bool_decide_eq_true_2 by done.
      rewrite (bool_decide_eq_false_2 (v ∈ names)) by done.
      rewrite bool_decide_eq_true_2 by apply list_elem_of_here. done.
    + rewrite bool_decide_eq_false_2 by congruence.
      destruct (bool_decide (w ∈ names)) eqn:Hw.
      * apply bool_decide_eq_true in Hw.
        rewrite bool_decide_eq_true_2 by (by right). done.
      * apply bool_decide_eq_false in Hw.
        rewrite bool_decide_eq_false_2; [done|].
        intros [->|?]%elem_of_cons; done.
Qed.

Lemma total_pillar_counts names (l : list Row) :
  NoDup names ->
  (forall r v, r ∈ l -> pillar r = Some v -> v ∈ names) ->
  total ((fun v => Z.of_nat (length (List.filter (fun r => pd.eq_str v (pillar r)) l)))
           <$> names)
  = Z.of_nat (length (List.filter (fun r => pd.notna (pillar r)) l)).
Proof.
  intros Hnd. induction l as [|r l IH]; intros Hnames.
  - simpl. unfold total. clear. induction names as [|v names IHn]; [done|].
    rewrite fmap_cons. cbn [foldr]. by rewrite IHn.
  - assert (forall v,
              Z.of_nat (length (List.filter (fun r => pd.eq_str v (pillar r)) (r :: l)))
              = (if pd.eq_str v (pillar r) then 1 else 0)
                + Z.of_nat (length (List.filter (fun r => pd.eq_str v (pillar r)) l)))
      as Hstep.
    { intros v. simpl. destruct (pd.eq_str v (pillar r)); simpl; lia. }
    assert ((fun v => Z.of_nat (length (List.filter (fun r => pd.eq_str v (pillar r))
                                         (r :: l)))) <$> names
            = (fun v => (if pd.eq_str v (pillar r) then 1 else 0)
                        + Z.of_nat (length (List.filter
                                              (fun r => pd.eq_str v (pillar r)) l)))
              <$> names) as ->.
    { clear -Hstep. induction names as [|v names IHn]; [done|].
      rewrite !fmap_cons. by rewrite Hstep, IHn. }
    rewrite (total_add (fun v => if pd.eq_str v (pillar r) then 1 else 0)).
    rewrite IH by (intros r' v Hr'; apply Hnames; by right).
    rewrite total_indicator by done. simpl.
    destruct (pillar r) as [w|] eqn:Hw; simpl.
    + rewrite bool_decide_eq_true_2 by (eapply Hnames; [apply list_elem_of_here|done]).
      lia.
    + lia.
Qed.

(** On an analyzer whose observations passed the constructor's checks and
    have a pillar column, the observation counts [compare_pillars] reports
    add up to the number of observations that have a pillar: none is
    counted twice, and only those without a pillar are left out. *)
Theorem compare_pillars_partition self h :
  constructed self h ->
  let obs := frames h !!! FinancialInclusionAnalyzer.observations self in
  pd.has_column "pillar" obs = true ->
  exists result h',
    FinancialInclusionAnalyzer.compare_pillars self h = (Return result, h')
    /\ total (FinancialInclusionAnalyzer.summary_observations <$> result)
       = Z.of_nat (length (List.filter (fun r => pd.notna (pillar r)) (rows obs))).
Proof.
  intros (_ & Hic & Hy & _) obs Hp.
  destruct (compare_pillars_run self h Hp Hy Hic) as (h' & Hrun & _).
  fold obs in Hrun. eexists _, h'. split; [exact Hrun|].
  rewrite <- list_fmap_compose.
  destruct (unique_spec (pillar <$> rows obs)) as (Hnd & Hin & _).
  apply (total_pillar_counts (pd.dropna (pd.unique (pillar <$> rows obs))) (rows obs)).
  - by apply NoDup_dropna.
  - intros r v Hr Hv. unfold pd.dropna. apply list_elem_of_omap.
    exists (Some v). split; [|done]. apply Hin, list_elem_of_fmap. by exists r.
Qed.

Lemma compare_pillars_partition_witness :
  exists result h',
    FinancialInclusionAnalyzer.compare_pillars Sample.analyzer
      (Sample.heap [Sample.mixed]) = (Return result, h')
    /\ total (FinancialInclusionAnalyzer.summary_observations <$> result) = 3.
Proof.
  destruct (compare_pillars_partition Sample.analyzer (Sample.heap [Sample.mixed]))
    as (result & h' & Hrun & Htotal).
  - repeat split; [discriminate | reflexivity ..].
  - reflexivity.
  - exists result, h'. split; [exact Hrun|]. rewrite Htotal. reflexivity.
Defined.

(** ** What a validator prints *)

Lemma silent_ret {A} (a : A) : silent (ret a).
Proof. by intros h. Qed.

Lemma silent_raise {A} e : silent (raise (A:=A) e).
Proof. by intros h. Qed.

Lemma silent_bind {A B} (m : M A) (k : A -> M B) :
  silent m -> (forall a, silent (k a)) -> silent (bind m k).
Proof.
  intros Hm Hk h. rewrite bind_run. specialize (Hm h).
  destruct (m h) as [[a|e] h1]; simpl in *; [|done]. by rewrite Hk.
Qed.

Lemma silent_load l : silent (load l).
Proof. by intros h. Qed.

Lemma silent_log_append e : silent (log_append e).
Proof. by intros h. Qed.

Lemma silent_getitem {A} df c (field : Row -> A) : silent (getitem df c field).
Proof. intros h. unfold getitem. by destruct (pd.has_column c df). Qed.

Lemma silent_for_each {A S} (l : list A) (body : S -> A -> M S) s :
  (forall s x, silent (body s x)) -> silent (for_each l body s).
Proof.
  intros Hbody. revert s. induction l as [|x l IH]; intros s; simpl.
  - apply silent_ret.
  - apply silent_bind; [apply Hbody|]. intros s'. apply IH.
Qed.

Lemma silent_report self name ok failed is_valid errors :
  DataValidator.verbose self = false ->
  silent (DataValidator.report self name ok failed is_valid errors).
Proof.
  intros Hq. unfold DataValidator.report. rewrite Hq.
  apply silent_bind; [apply silent_ret|]. intros _. apply silent_log_append.
Qed.

Lemma silent_report_ids bad make errors :
  silent (DataValidator.report_ids bad make errors).
Proof.
  unfold DataValidator.report_ids. destruct (0 <? pd.len bad); [|apply silent_ret].
  apply silent_bind; [apply silent_getitem|]. intros ids. apply silent_ret.
Qed.

Ltac silent_step :=
  lazymatch goal with
  | |- silent (bind _ _) => apply silent_bind; [|intros ?]
  | |- silent (ret _) => apply silent_ret
  | |- silent (raise _) => apply silent_raise
  | |- silent (load _) => apply silent_load
  | |- silent (getitem _ _ _) => apply silent_getitem
  | |- silent (log_append _) => apply silent_log_append
  | |- silent (DataValidator.report_ids _ _ _) => apply silent_report_ids
  | |- silent (if ?b then _ else _) => destruct b
  | |- silent (let x := _ in _) => cbv zeta
  end.

Lemma silent_validate_schema self l :
  DataValidator.verbose self = false -> silent (DataValidator.validate_schema self l).
Proof.
  intros Hq. unfold DataValidator.validate_schema.
  repeat silent_step. by apply silent_report.
Qed.

Lemma silent_validate_pillar_rules self l :
  DataValidator.verbose self = false ->
  silent (DataValidator.validate_pillar_rules self l).
Proof.
  intros Hq. unfold DataValidator.validate_pillar_rules.
  repeat silent_step; [|by apply silent_report].
  apply silent_for_each. intros s [name r]. unfold DataValidator.check_pillar.
  repeat silent_step.
Qed.

Lemma silent_validate_record_types self l :
  DataValidator.verbose self = false ->
  silent (DataValidator.validate_record_types self l).
Proof.
  intros Hq. unfold DataValidator.validate_record_types.
  repeat silent_step; by apply silent_report.
Qed.

(** A validator created with [verbose=False] prints nothing in
    [validate_schema], [validate_pillar_rules] and [validate_record_types],
    whether they return or raise.  [validate_all] does not look at
    [verbose]: it always prints its five header lines, and its four footer
    lines with the verdict when it returns. *)
Theorem quiet_validator_prints_only_the_banner self l h :
  DataValidator.verbose self = false ->
  silent (DataValidator.validate_schema self l)
  /\ silent (DataValidator.validate_pillar_rules self l)
  /\ silent (DataValidator.validate_record_types self l)
  /\ trace (DataValidator.validate_all self l h).2
     = trace h ++ validate_all_header
       ++ match (DataValidator.validate_all self l h).1 with
          | Return (all_valid, _) => validate_all_footer all_valid
          | Raise _ => []
          end.
Proof.
  intros Hq.
  pose proof (silent_validate_schema self l Hq) as Hs.
  pose proof (silent_validate_pillar_rules self l Hq) as Hp.
  pose proof (silent_validate_record_types self l Hq) as Ht.
  split; [done|]. split; [done|]. split; [done|].
  destruct (DataValidator.validate_all self l h) as [o final] eqn:Hrun.
  cbn [fst snd]. revert Hrun.
  unfold DataValidator.validate_all. step load_run.
  do 5 (rewrite bind_run; unfold emit at 1; norm).
  rewrite bind_run.
  match goal with |- context [DataValidator.validate_schema self l ?h0] =>
    set (h0' := h0)
  end.
  assert (trace h0' = trace h ++ validate_all_header) as Hh0
    by (simpl; by rewrite <- !app_assoc).
  clearbody h0'. specialize (Hs h0').
  destruct (DataValidator.validate_schema self l h0') as [[schema|e] h1];
    simpl in Hs; [|intros [= <- <-]; by rewrite Hs, Hh0, app_nil_r].
  norm. rewrite bind_run. specialize (Hp h1).
  destruct (DataValidator.validate_pillar_rules self l h1) as [[pillar|e] h2];
    simpl in Hp; [|intros [= <- <-]; by rewrite Hp, Hs, Hh0, app_nil_r].
  norm. rewrite bind_run. specialize (Ht h2).
  destruct (DataValidator.validate_record_types self l h2) as [[type|e] h3];
    simpl in Ht; [|intros [= <- <-]; by rewrite Ht, Hp, Hs, Hh0, app_nil_r].
  norm. cbv zeta. step load_run. rewrite bind_run. unfold get_validation_log at 1. norm.
  do 4 (rewrite bind_run; unfold emit at 1; norm). rewrite ret_run.
  intros [= <- <-]. simpl. rewrite Ht, Hp, Hs, Hh0. unfold validate_all_footer.
  by rewrite <- !app_assoc.
Qed.

Lemma quiet_validator_prints_only_the_banner_witness :
  trace (DataValidator.validate_all (DataValidator.mkValidator false) 0%nat
           (Sample.heap [Sample.mixed])).2
  = validate_all_header ++ validate_all_footer false.
Proof.
  destruct (quiet_validator_prints_only_the_banner (DataValidator.mkValidator false)
              0%nat (Sample.heap [Sample.mixed]) eq_refl) as (_ & _ & _ & Htrace).
  rewrite Htrace. reflexivity.
Defined.

(** ** The loader's pillar summary and [compare_pillars] *)

(** [dropna().unique()] and [unique()] followed by skipping the missing
    value list the same values in the same order. *)
Lemma unique_dropna (l : list (option string)) :
  pd.unique (pd.dropna l) = pd.dropna (pd.unique l).
Proof.
  unfold pd.unique.
  assert (forall seen : list (option string),
    foldl (fun seen x => if bool_decide (x ∈ seen) then seen else seen ++ [x])
      (pd.dropna seen) (pd.dropna l)
    = pd.dropna
        (foldl (fun seen x => if bool_decide (x ∈ seen) then seen else seen ++ [x])
           seen l)) as H; [|exact (H [])].
  induction l as [|[v|] l IH]; intros seen; [done|..].
  - change (pd.dropna (Some v :: l)) with (v :: pd.dropna l). cbn [foldl].
    rewrite <- IH. f_equal.
    destruct (bool_decide (Some v ∈ seen)) eqn:Hv.
    + apply bool_decide_eq_true in Hv.
      by rewrite bool_decide_eq_true_2 by (by apply elem_of_dropna).
    + apply bool_decide_eq_false in Hv.
      rewrite bool_decide_eq_false_2 by (by rewrite elem_of_dropna).
      by rewrite dropna_app.
  - change (pd.dropna (None :: l)) with (pd.dropna l). cbn [foldl].
    rewrite <- IH. f_equal.
    destruct (bool_decide (None ∈ seen)); [done|].
    rewrite dropna_app. simpl. by rewrite app_nil_r.
Qed.

Lemma loader_for_each_append {V} (f : string -> V) (names : list string)
    (body : list (string * V) -> string -> FinancialInclusionDataLoader.result
                                              (list (string * V))) :
  (forall s name, name ∈ names ->
     body s name = FinancialInclusionDataLoader.Ok
                     (FinancialInclusionDataLoader.dict_set name (f name) s)) ->
  NoDup names ->
  forall acc, (forall k, k ∈ names -> k ∉ acc.*1) ->
  FinancialInclusionDataLoader.for_each names body acc
  = FinancialInclusionDataLoader.Ok (acc ++ ((fun n => (n, f n)) <$> names)).
Proof.
  intros Hbody Hnd. induction Hnd as [|name names Hname Hnd IH]; intros acc Hacc.
  - simpl. by rewrite app_nil_r.
  - cbn [FinancialInclusionDataLoader.for_each]. rewrite Hbody by left.
    unfold FinancialInclusionDataLoader.and_then,
      FinancialInclusionDataLoader.dict_set.
    rewrite bool_decide_eq_false_2 by (apply Hacc; left).
    rewrite IH.
    + by rewrite <- app_assoc.
    + intros s n Hn. apply Hbody. by right.
    + intros k Hk. rewrite fmap_app, elem_of_app. simpl.
      rewrite list_elem_of_singleton. intros [Hin| ->].
      * by apply (Hacc k); [right|].
      * done.
Qed.

Lemma forallb_isna_dropna {A} (cells : list (option A)) :
  forallb pd.isna cells = true <-> pd.dropna cells = [].
Proof.
  unfold pd.dropna. induction cells as [|[x|] cells IH]; simpl; [done|done|exact IH].
Qed.

Lemma year_bound_min df :
  pd.has_column "year" df = true ->
  FinancialInclusionDataLoader.year_bound df pd.min
  = FinancialInclusionDataLoader.Ok (pd.min (year <$> rows df)).
Proof.
  intros Hy. unfold FinancialInclusionDataLoader.year_bound,
    FinancialInclusionDataLoader.column. rewrite Hy. simpl.
  destruct (forallb pd.isna (year <$> rows df)) eqn:Hall; simpl.
  - apply forallb_isna_dropna in Hall. unfold pd.min. by rewrite Hall.
  - unfold pd.min. destruct (pd.dropna (year <$> rows df)) eqn:Hd; [|done].
    apply forallb_isna_dropna in Hd. congruence.
Qed.

Lemma year_bound_max df :
  pd.has_column "year" df = true ->
  FinancialInclusionDataLoader.year_bound df pd.max
  = FinancialInclusionDataLoader.Ok (pd.max (year <$> rows df)).
Proof.
  intros Hy. unfold FinancialInclusionDataLoader.year_bound,
    FinancialInclusionDataLoader.column. rewrite Hy. simpl.
  destruct (forallb pd.isna (year <$> rows df)) eqn:Hall; simpl.
  - apply forallb_isna_dropna in Hall. unfold pd.max. by rewrite Hall.
  - unfold pd.max. destruct (pd.dropna (year <$> rows df)) eqn:Hd; [|done].
    apply forallb_isna_dropna in Hd. congruence.
Qed.

(** The run of [get_pillar_summary] on observations with rows that have
    the three columns it needs. *)
Lemma get_pillar_summary_run obs :
  rows obs <> [] ->
  pd.has_column "pillar" obs = true ->
  pd.has_column "indicator_code" obs = true ->
  pd.has_column "year" obs = true ->
  FinancialInclusionDataLoader.get_pillar_summary (Some obs)
  = ([], (fun name => entry_of_row (pillar_row obs name))
         <$> pd.unique (pd.dropna (pillar <$> rows obs))).
Proof.
  intros Hrows Hp Hic Hy. unfold FinancialInclusionDataLoader.get_pillar_summary.
  assert ((pd.len obs =? 0) = false) as ->.
  { apply Z.eqb_neq. unfold pd.len. destruct (rows obs); [done|simpl; lia]. }
  cbv zeta.
  assert (bool_decide (pd.set_of ["pillar"; "indicator_code"; "year"]
                       ∖ pd.set_of (columns obs) ≠ ∅) = false) as ->.
  { apply (nonempty_missing_columns ["pillar"; "indicator_code"; "year"] obs).
    intros c. rewrite !elem_of_cons, elem_of_nil. intros [->|[->|[->|[]]]]; done. }
  unfold FinancialInclusionDataLoader.column at 1. rewrite Hp.
  cbn [FinancialInclusionDataLoader.and_then].
  destruct (unique_spec (pd.dropna (pillar <$> rows obs))) as (Hnd & Hin & _).
  rewrite (loader_for_each_append
             (fun name => (entry_of_row (pillar_row obs name)).2)); [done| |done|].
  - intros s name Hname. unfold FinancialInclusionDataLoader.column at 1. rewrite Hp.
    cbn [FinancialInclusionDataLoader.and_then]. rewrite take_mask_fmap2.
    set (pillar_data := mkFrame (columns obs) _).
    unfold FinancialInclusionDataLoader.column.
    assert (pd.has_column "indicator_code" pillar_data = true) as -> by exact Hic.
    assert (pd.has_column "year" pillar_data = true) as Hy' by exact Hy.
    rewrite Hy'. cbn [FinancialInclusionDataLoader.and_then].
    rewrite year_bound_min, year_bound_max by exact Hy'.
    cbn [FinancialInclusionDataLoader.and_then]. done.
  - intros k _. simpl. by intros ?%elem_of_nil.
Qed.

(** On the observations of a constructed analyzer that have a pillar
    column, the pillar summary of the loader and [compare_pillars] agree:
    the loader returns, without logging anything, one entry for each row of
    [compare_pillars], in the same order, with the same pillar, counts and
    first and last year. *)
Theorem get_pillar_summary_agrees_with_compare_pillars self h :
  constructed self h ->
  let obs := frames h !!! FinancialInclusionAnalyzer.observations self in
  pd.has_column "pillar" obs = true ->
  exists result h',
    FinancialInclusionAnalyzer.compare_pillars self h = (Return result, h')
    /\ FinancialInclusionDataLoader.get_pillar_summary (Some obs)
       = ([], entry_of_row <$> result).
Proof.
  intros (Hrows & Hic & Hy & _) obs Hp.
  destruct (compare_pillars_run self h Hp Hy Hic) as (h' & Hrun & _).
  fold obs in Hrun. eexists _, h'. split; [exact Hrun|].
  rewrite (get_pillar_summary_run obs Hrows Hp Hic Hy).
  by rewrite unique_dropna, <- list_fmap_compose.
Qed.

Lemma get_pillar_summary_agrees_with_compare_pillars_witness :
  exists result h',
    FinancialInclusionAnalyzer.compare_pillars Sample.analyzer
      (Sample.heap [Sample.ownership]) = (Return result, h')
    /\ FinancialInclusionDataLoader.get_pillar_summary (Some Sample.ownership)
       = ([], entry_of_row <$> result)
    /\ length result = 2%nat.
Proof.
  destruct (get_pillar_summary_agrees_with_compare_pillars Sample.analyzer
              (Sample.heap [Sample.ownership])) as (result & h' & Hrun & Hsum).
  - repeat split; [discriminate | reflexivity ..].
  - reflexivity.
  - exists result, h'. split; [exact Hrun|]. split; [exact Hsum|].
    vm_compute in Hrun. by injection Hrun as <- _.
Defined.

(** ** The loader's time series *)

Lemma loader_select_run df cols :
  (forall c, In c cols -> pd.has_column c df = true) ->
  FinancialInclusionDataLoader.select df cols
  = FinancialInclusionDataLoader.Ok (mkFrame cols (rows df)).
Proof.
  intros H. unfold FinancialInclusionDataLoader.select.
  assert (List.filter (fun c => negb (pd.has_column c df)) cols = []) as ->; [|done].
  induction cols as [|c cols IH]; [done|]. simpl.
  rewrite (H c) by (by left). simpl. apply IH. intros c' Hc'. apply H. by right.
Qed.

(** The run of [get_time_series] on observations with rows that have the
    four columns it requires. *)
Lemma get_time_series_run obs code :
  rows obs <> [] ->
  pd.has_column "indicator_code" obs = true ->
  pd.has_column "observation_date" obs = true ->
  pd.has_column "year" obs = true ->
  pd.has_column "value_numeric" obs = true ->
  FinancialInclusionDataLoader.get_time_series (Some obs) code
  = match matching code obs with
    | [] => ([FinancialInclusionDataLoader.Warning
                "No data found for indicator: {indicator_code}"],
             inr (mkFrame (columns obs) []))
    | _ => ([], inr (mkFrame
                       (List.filter (fun col => pd.has_column col obs)
                          ["observation_date"; "year"; "value_numeric"; "confidence";
                           "source_name"])
                       (pd.sort_rows Time.leb observation_date (matching code obs))))
    end.
Proof.
  intros Hrows Hic Hod Hy Hv. unfold FinancialInclusionDataLoader.get_time_series.
  assert ((pd.len obs =? 0) = false) as ->.
  { apply Z.eqb_neq. unfold pd.len. destruct (rows obs); [done|simpl; lia]. }
  cbv zeta.
  assert (bool_decide
            (pd.set_of ["indicator_code"; "observation_date"; "year"; "value_numeric"]
             ∖ pd.set_of (columns obs) ≠ ∅) = false) as ->.
  { apply (nonempty_missing_columns
             ["indicator_code"; "observation_date"; "year"; "value_numeric"] obs).
    intros c. rewrite !elem_of_cons, elem_of_nil.
    intros [->|[->|[->|[->|[]]]]]; done. }
  unfold FinancialInclusionDataLoader.column. rewrite Hic.
  cbn [FinancialInclusionDataLoader.and_then]. rewrite take_mask_fmap2.
  fold (matching code obs). unfold pd.len. cbn [rows].
  destruct (matching code obs) as [|r rs] eqn:Hm; [done|].
  change (Z.of_nat (length (r :: rs)) =? 0) with false. cbv iota.
  unfold FinancialInclusionDataLoader.sort_values.
  assert (pd.has_column "observation_date" (mkFrame (columns obs) (r :: rs)) = true)
    as -> by exact Hod.
  cbn [FinancialInclusionDataLoader.and_then columns rows].
  rewrite loader_select_run; [done|].
  intros c [_ Hc]%filter_In. exact Hc.
Qed.

(** On the observations of a constructed analyzer that also have the
    column observation_date, [get_time_series] raises nothing.  Its rows are
    the observations of the indicator, each once, in ascending order of
    observation date; and when there are at least two of them they carry the
    same years and values as the rows of [calculate_growth_rate]. *)
Theorem get_time_series_matches_growth_series self code h :
  constructed self h ->
  let obs := frames h !!! FinancialInclusionAnalyzer.observations self in
  pd.has_column "observation_date" obs = true ->
  code <> "" ->
  exists log ts growth h',
    FinancialInclusionDataLoader.get_time_series (Some obs) code = (log, inr ts)
    /\ FinancialInclusionAnalyzer.calculate_growth_rate self code h = (Return growth, h')
    /\ rows ts ≡ₚ matching code obs
    /\ pairwise (key_le Time.leb observation_date) (rows ts)
    /\ ((2 <= length (rows ts))%nat -> point <$> rows growth ≡ₚ point <$> rows ts).
Proof.
  intros (Hrows & Hic & Hy & Hv) obs Hod Hne.
  destruct (calculate_growth_rate_run self code h Hne Hic Hy Hv) as (h' & Hrun & _).
  fold obs in Hrun.
  rewrite (get_time_series_run obs code Hrows Hic Hod Hy Hv).
  assert (forall data, point <$> growth_rows data = point <$> data) as Hpoints.
  { intros data. apply list_eq. intros i. rewrite !list_lookup_fmap.
    destruct (data !! i) as [d|] eqn:Hd.
    - destruct (lookup_growth_rows data i d Hd) as (r & -> & Hyr & Hvr & _).
      simpl. unfold point. by rewrite Hyr, Hvr.
    - rewrite (lookup_ge_None_2 (growth_rows data) i); [done|].
      rewrite length_growth_rows. by apply lookup_ge_None_1. }
  destruct (matching code obs) as [|r rs] eqn:Hm.
  - eexists _, _, _, h'. split; [reflexivity|]. split; [exact Hrun|].
    split; [done|]. split; [done|]. simpl. lia.
  - rewrite <- Hm in *. eexists _, _, _, h'. split; [reflexivity|].
    split; [exact Hrun|]. cbn [rows].
    split; [apply sort_rows_perm|].
    split; [apply sort_rows_sorted; [apply Time_leb_total|apply Time_leb_trans]|].
    rewrite (Permutation_length (sort_rows_perm _ _ _)). intros Hlen.
    rewrite length_series_of.
    assert ((Z.of_nat (length (matching code obs)) <? 2) = false) as ->
      by (apply Z.ltb_ge; lia).
    cbn [rows]. rewrite Hpoints. apply fmap_Permutation.
    unfold series_of. by rewrite !sort_rows_perm.
Qed.

Lemma get_time_series_matches_growth_series_witness :
  exists log ts growth h',
    FinancialInclusionDataLoader.get_time_series (Some Sample.ownership) "ACC_OWNERSHIP"
    = (log, inr ts)
    /\ FinancialInclusionAnalyzer.calculate_growth_rate Sample.analyzer "ACC_OWNERSHIP"
         (Sample.heap [Sample.ownership]) = (Return growth, h')
    /\ point <$> rows growth ≡ₚ point <$> rows ts.
Proof.
  destruct (get_time_series_matches_growth_series Sample.analyzer "ACC_OWNERSHIP"
              (Sample.heap [Sample.ownership]))
    as (log & ts & growth & h' & Hts & Hrun & _ & _ & Hpoints).
  - repeat split; [discriminate | reflexivity ..].
  - reflexivity.
  - discriminate.
  - exists log, ts, growth, h'. split; [exact Hts|]. split; [exact Hrun|].
    apply Hpoints. vm_compute in Hts. injection Hts as _ <-. simpl. lia.
Defined.

(** [get_time_series] raises [DataLoadError] exactly when it is given
    observations with rows that lack one of the columns indicator_code,
    observation_date, year and value_numeric; the handler of its [try] block
    is never entered.  Without observations, or with none, it returns the
    empty frame and logs a warning. *)
Theorem get_time_series_failure observations code :
  ((exists e, (FinancialInclusionDataLoader.get_time_series observations code).2 = inl e)
   <-> exists obs c,
         observations = Some obs /\ rows obs <> []
         /\ c ∈ ["indicator_code"; "observation_date"; "year"; "value_numeric"]
         /\ pd.has_column c obs = false)
  /\ (forall e,
        (FinancialInclusionDataLoader.get_time_series observations code).2 = inl e ->
        e = FinancialInclusionDataLoader.mkDataLoadError
              "Missing required columns: {missing_cols}")
  /\ (match observations with Some obs => rows obs = [] | None => True end ->
      FinancialInclusionDataLoader.get_time_series observations code
      = ([FinancialInclusionDataLoader.Warning "Empty observations DataFrame provided"],
         inr pd_DataFrame)).
Proof.
  destruct observations as [obs|]; cycle 1.
  { split; [|split; [by intros e [=]|done]].
    split; [by intros [e [=]]|by intros (obs & c & [=] & _)]. }
  destruct (rows obs) as [|r0 rs0] eqn:Hrows.
  { unfold FinancialInclusionDataLoader.get_time_series, pd.len. rewrite Hrows. simpl.
    split; [|split; [by intros e [=]|done]].
    split; [by intros [e [=]]|]. intros (obs' & c & [= <-] & Hne & _).
    by rewrite Hrows in Hne. }
  assert (rows obs <> []) as Hne by (by rewrite Hrows).
  destruct (forallb (fun c => pd.has_column c obs)
              ["indicator_code"; "observation_date"; "year"; "value_numeric"]) eqn:Hall.
  - simpl in Hall. repeat (apply andb_true_iff in Hall as [? Hall]).
    rewrite (get_time_series_run obs code) by done.
    split; [|split; [|done]].
    + split.
      * destruct (matching code obs); by intros [e [=]].
      * intros (obs' & c & [= <-] & _ & Hc & Hmiss).
        rewrite !elem_of_cons, elem_of_nil in Hc.
        destruct Hc as [->|[->|[->|[->|[]]]]]; congruence.
    + destruct (matching code obs); by intros e [=].
  - assert (exists c, c ∈ ["indicator_code"; "observation_date"; "year"; "value_numeric"]
                      /\ pd.has_column c obs = false) as (c & Hc & Hmiss).
    { apply not_true_iff_false in Hall. rewrite forallb_forall in Hall.
      destruct (decide (Forall (fun c => pd.has_column c obs = true)
                  ["indicator_code"; "observation_date"; "year"; "value_numeric"]))
        as [Hf|Hf].
      - exfalso. apply Hall. intros c Hc%list_elem_of_In.
        rewrite Forall_forall in Hf. by apply Hf.
      - apply not_Forall_Exists in Hf; [|intros c; apply _].
        apply Exists_exists in Hf as (c & Hc & Hmiss). exists c. split; [done|].
        simpl in Hmiss. by destruct (pd.has_column c obs). }
    unfold FinancialInclusionDataLoader.get_time_series.
    assert ((pd.len obs =? 0) = false) as ->.
    { apply Z.eqb_neq. unfold pd.len. rewrite Hrows. simpl. lia. }
    cbv zeta.
    assert (bool_decide
              (pd.set_of ["indicator_code"; "observation_date"; "year"; "value_numeric"]
               ∖ pd.set_of (columns obs) ≠ ∅) = true) as ->.
    { destruct (bool_decide _) eqn:Hb; [done|]. exfalso.
      apply (nonempty_missing_columns
               ["indicator_code"; "observation_date"; "year"; "value_numeric"] obs)
        with (c := c) in Hb; [congruence|done]. }
    simpl. split; [|split; [by intros e [= <-]|done]].
    split; [|by eexists]. intros _. exists obs, c. by rewrite Hrows.
Qed.

Lemma get_time_series_failure_witness :
  FinancialInclusionDataLoader.get_time_series (Some pd_DataFrame) "ACC_OWNERSHIP"
  = ([FinancialInclusionDataLoader.Warning "Empty observations DataFrame provided"],
     inr pd_DataFrame).
Proof.
  destruct (get_time_series_failure (Some pd_DataFrame) "ACC_OWNERSHIP")
    as (_ & _ & Hempty).
  apply Hempty. reflexivity.
Defined.
